(** * RepoPulse ML service: model wrappers, explanation and recommendations

    A shallow embedding of [ml-service/app] (the three model wrappers of
    [models/risk_model.py], [models/churn_model.py], [models/anomaly_model.py]
    and the request handlers of [main.py]).

    Numbers.  Python floats are modelled as exact rationals [Q]; NaN,
    infinities and binary rounding are outside the model.  Equality of
    scores is therefore [Qeq] ([==]).  The one transcendental operation of
    the source, [np.exp] in [generate_recommendations], is the real
    exponential of the Standard Library applied to the rational's image in
    [R], with the two places where the double departs from it in kind:
    overflow to [inf], which [int] refuses, and the absorption of a tiny
    [e^x] by the subtraction of 1.

    Estimators.  The scikit-learn estimators and joblib are external: each
    wrapper is stated over an interface (a class) that gives the estimator
    type, its seeded training result, its scoring function and the artifact
    (de)serialiser. *)

From Stdlib Require Import ZArith QArith Qround Qabs Qreals Reals Lra Lia.
From Stdlib Require Import List String DecimalString Bool.
From Stdlib Require Import Sorted Permutation.
From Stdlib Require Lqa.
Import ListNotations.

Local Open Scope Q_scope.

(** ** Python values shared by the wrappers *)

(** The exceptions the modelled code raises itself, each with its message. *)
Inductive exn : Type :=
| ValueError (msg : string)
| IndexError (msg : string)
| KeyError (msg : string)
| TypeError (msg : string)
| AttributeError (msg : string)
| FloatingPointError (msg : string)
| OverflowError (msg : string).

(** Outcome of a call that may raise. *)
Inductive result (A : Type) : Type :=
| Ok (a : A)
| Raise (e : exn).
Arguments Ok {A} a.
Arguments Raise {A} e.

Definition bind {A B : Type} (r : result A) (k : A -> result B) : result B :=
  match r with
  | Ok a => k a
  | Raise e => Raise e
  end.

Notation "x <- r ;; k" := (bind r (fun x => k))
  (at level 61, r at next level, right associativity).

(** [str(e)] of an exception: its message. *)
Definition str_exn (e : exn) : string :=
  match e with
  | ValueError m | IndexError m | KeyError m | TypeError m
  | AttributeError m | FloatingPointError m | OverflowError m => m
  end.

(** [str(n)] of a non-negative integer, as an f-string formats it. *)
Definition str_nat (n : nat) : string := NilEmpty.string_of_uint (Nat.to_uint n).

(** A numpy array of floats, of dimension 1 or 2.  A 2-D array has shape
    [(length rows, ncols)]; every row has [ncols] entries. *)
Inductive ndarray : Type :=
| Array1 (v : list Q)
| Array2 (ncols : nat) (rows : list (list Q)).

(** [a.shape[1]]: the tuple [shape] of a 1-D array has one entry only. *)
Definition shape1 (a : ndarray) : result nat :=
  match a with
  | Array1 _ => Raise (IndexError "tuple index out of range")
  | Array2 c _ => Ok c
  end.

(** Strict and large comparisons of floats, as booleans. *)
Definition Qltb (x y : Q) : bool := negb (Qle_bool y x).
Definition Qgtb (x y : Q) : bool := Qltb y x.
Definition Qleb (x y : Q) : bool := Qle_bool x y.

(** [min(a, b)] and [max(a, b)] of Python: the first argument wins a tie. *)
Definition py_min (a b : Q) : Q := if Qltb b a then b else a.
Definition py_max (a b : Q) : Q := if Qltb a b then b else a.

(** [sum(xs)]: left to right, from 0. *)
Definition py_sum (xs : list Q) : Q := fold_left Qplus xs 0.

(** Rounding to the nearest integer, ties to the even one. *)
Definition round_half_even (x : Q) : Z :=
  let f := Qfloor x in
  let r := x - inject_Z f in
  if Qltb r (1 # 2) then f
  else if Qltb (1 # 2) r then (f + 1)%Z
  else if Z.even f then f else (f + 1)%Z.

(** [round(x, 2)]. *)
Definition py_round2 (x : Q) : Q := inject_Z (round_half_even (x * 100)) / 100.

(** [np.clip(xs, lo, hi)], elementwise. *)
Definition np_clip (xs : list Q) (lo hi : Q) : list Q :=
  map (fun x => py_min (py_max x lo) hi) xs.

(** [a.min()] and [a.max()] of a 1-D array: no identity on an empty one. *)
Definition np_min (xs : list Q) : result Q :=
  match xs with
  | [] => Raise (ValueError
      "zero-size array to reduction operation minimum which has no identity")
  | x :: rest => Ok (fold_left py_min rest x)
  end.

Definition np_max (xs : list Q) : result Q :=
  match xs with
  | [] => Raise (ValueError
      "zero-size array to reduction operation maximum which has no identity")
  | x :: rest => Ok (fold_left py_max rest x)
  end.

(** [xs / d] for a 1-D array and a scalar.  On a zero denominator numpy
    warns and yields nan or inf, values outside [Q]: the model makes that
    outcome an explicit failure. *)
Definition np_divide (xs : list Q) (d : Q) : result (list Q) :=
  if Qeq_bool d 0 then Raise (FloatingPointError "divide by zero encountered in divide")
  else Ok (map (fun x => x / d) xs).

(** [a[:, j]] of a 2-D array [a] given by its number of columns and its
    rows. *)
Definition column (j : nat) (a : nat * list (list Q)) : result (list Q) :=
  if Nat.ltb j (fst a) then Ok (map (fun r => nth j r 0) (snd a))
  else Raise (IndexError
                (String.append "index "
                   (String.append (str_nat j)
                      (String.append " is out of bounds for axis 1 with size "
                         (str_nat (fst a)))))).

(** [int(x)] of a real: truncation toward zero. *)
Definition py_int (x : R) : Z :=
  if Rle_dec 0 x then Int_part x else Z.opp (Int_part (Ropp x)).

(** A double as [int(np.exp(x) - 1)] meets it: a finite value, taken
    exact, or [inf]. *)
Inductive float : Type :=
| Finite (v : R)
| Infinity.

(** [np.exp(x)]: [inf] from [2^1024] on, where the double overflows. *)
Definition np_exp (x : Q) : float :=
  if Rle_dec (2 ^ 1024) (exp (Q2R x)) then Infinity
  else Finite (exp (Q2R x)).

(** [a - 1] in doubles: an [a] of at most [2^-54], half the gap between 1
    and the double below it, is absorbed and the result is [-1.0]. *)
Definition minus_1 (a : float) : float :=
  match a with
  | Infinity => Infinity
  | Finite v => if Rle_dec v (/ 2 ^ 54) then Finite (-1) else Finite (v - 1)
  end.

(** [int(a)] of a double. *)
Definition int_of_float (a : float) : result Z :=
  match a with
  | Infinity => Raise (OverflowError "cannot convert float infinity to integer")
  | Finite v => Ok (py_int v)
  end.

(** ** joblib and the model directory

    [joblib_load b] is [None] when [joblib.load] raises on the file content
    [b]. *)
Class Joblib (E : Type) : Type := {
  joblib_load : string -> option E;
  joblib_dump : E -> string
}.

(** Round-trip fidelity of the artifact format. *)
Definition round_trip (E : Type) {J : Joblib E} : Prop :=
  forall m : E, joblib_load (joblib_dump m) = Some m.

(** A wrapper together with the part of the world its methods touch: its
    artifact file ([None]: [os.path.exists] is false), and two counters kept
    for the statements only, of the calls of [model.fit] and of
    [joblib.dump]. *)
Record world (M : Type) : Type := mkWorld {
  self : M;
  disk : option string;
  fit_calls : nat;
  dump_calls : nat
}.
Arguments mkWorld {M} _ _ _ _.
Arguments self {M} _.
Arguments disk {M} _.
Arguments fit_calls {M} _.
Arguments dump_calls {M} _.

(** An operation [f] on the states [S] is idempotent from the trained
    state on: among the states that [reach] singles out, it changes nothing
    of a trained one (neither the wrapper, nor the artifact, nor the counts
    of trainings and of artifact writes), and a second call in sequence
    changes nothing of what the first one left. *)
Definition idempotent_once_trained {S : Type}
    (trained : S -> bool) (reach : S -> Prop) (f : S -> S) : Prop :=
  (forall s, reach s -> trained s = true -> f s = s) /\
  (forall s, f (f s) = f s).

(** ** models/risk_model.py *)

Module Risk.

Local Open Scope string_scope.

(** Feature names for explanation *)
Definition FEATURE_NAMES : list string := [
  "PR Size (Lines)";
  "Files Changed";
  "Commit Count";
  "Review Comments";
  "Time to Merge";
  "Contributor Rejection Rate";
  "Contributor Experience";
  "File Churn Score"
]%list.

(** Feature descriptions for human-readable output *)
Definition FEATURE_DESCRIPTIONS : list (string * string) := [
  ("PR Size (Lines)", "Large PR Size");
  ("Files Changed", "High File Count");
  ("Commit Count", "Many Commits");
  ("Review Comments", "Review Activity");
  ("Time to Merge", "Slow Merge Time");
  ("Contributor Rejection Rate", "High Rejection Rate");
  ("Contributor Experience", "Low Contributor Experience");
  ("File Churn Score", "High File Churn")
]%list.

(** [d[k]] of a dict with string keys. *)
Fixpoint dict_get (d : list (string * string)) (k : string) : result string :=
  match d with
  | [] => Raise (KeyError k)
  | (k', v) :: rest => if String.eqb k' k then Ok v else dict_get rest k
  end%list.

(** What the wrapper uses of a fitted [RandomForestClassifier]:
    [fit_synthetic] is the estimator that the seeded [_train_synthetic]
    fits, [predict_proba m rows] is the [(n_classes, rows)] of the
    probability array, [feature_importances m] the attribute
    [m.feature_importances_], [not_2d v] the exception with which the
    estimator's input validation refuses the 1-D array [v] (a [ValueError]
    whose text, "Expected 2D array, got 1D array instead: ...", quotes the
    array).  A fitted classifier knows at least one class. *)
Class Classifier (E : Type) : Type := {
  fit_synthetic : E;
  predict_proba : E -> list (list Q) -> nat * list (list Q);
  feature_importances : E -> list Q;
  not_2d : list Q -> exn;
  n_classes_pos : forall m rows, (0 < fst (predict_proba m rows))%nat
}.

Section Wrapper.

Context {E : Type} {J : Joblib E} {C : Classifier E}.

Record RiskModel : Type := mkRiskModel {
  model : option E;
  is_trained : bool;
  feature_importances_ : option (list Q)
}.

(** [RiskModel()] *)
Definition init : RiskModel := mkRiskModel None false None.

Definition _train_synthetic (w : world RiskModel) : world RiskModel :=
  let m := fit_synthetic in
  mkWorld (mkRiskModel (Some m) true (Some (feature_importances m)))
          (Some (joblib_dump m))
          (S (fit_calls w))
          (S (dump_calls w)).

Definition load_or_train (w : world RiskModel) : world RiskModel :=
  match disk w with
  | Some b =>
      match joblib_load b with
      | Some m =>
          mkWorld (mkRiskModel (Some m) true (Some (feature_importances m)))
                  (disk w) (fit_calls w) (dump_calls w)
      | None => _train_synthetic w
      end
  | None => _train_synthetic w
  end.

(** The guard that opens every method:
    [if not self.is_trained: self.load_or_train()]. *)
Definition ensure_trained (w : world RiskModel) : world RiskModel :=
  if is_trained (self w) then w else load_or_train w.

(** [self.model.<attribute>]: [None] has no such attribute. *)
Definition the_model (w : world RiskModel) (attribute : string) : result E :=
  match model (self w) with
  | Some m => Ok m
  | None =>
      Raise (AttributeError
               (String.append "'NoneType' object has no attribute '"
                  (String.append attribute "'")))
  end.

(** The rows that the estimator takes from its argument: it wants a 2-D
    array. *)
Definition rows_of (features : ndarray) : result (list (list Q)) :=
  match features with
  | Array1 v => Raise (not_2d v)
  | Array2 _ rows => Ok rows
  end.

Definition predict (w : world RiskModel) (features : ndarray)
  : result (list Q) * world RiskModel :=
  let w := ensure_trained w in
  (c <- shape1 features ;;
   if negb (Nat.eqb c 8) then
     Raise (ValueError ("Expected 8 features, got " ++ str_nat c))
   else
     m <- the_model w "predict_proba" ;;
     rows <- rows_of features ;;
     let probabilities := predict_proba m rows in
     if Nat.eqb (fst probabilities) 2 then column 1 probabilities
     else column 0 probabilities,
   w).

Definition predict_batch (w : world RiskModel) (features : ndarray)
  : result (list Q) * world RiskModel :=
  let w := ensure_trained w in
  (m <- the_model w "predict_proba" ;;
   rows <- rows_of features ;;
   column 1 (predict_proba m rows),
   w).

(** One entry of [impacts]. *)
Record impact : Type := mkImpact {
  feature : string;
  description : string;
  value : Q;
  importance : Q;
  impact_weight : Q
}.

(** [features[0] if features.ndim > 1 else features] *)
Definition feature_values (features : ndarray) : result (list Q) :=
  match features with
  | Array1 v => Ok v
  | Array2 _ rows =>
      match rows with
      | r :: _ => Ok r
      | [] => Raise (IndexError "index 0 is out of bounds for axis 0 with size 0")
      end%list
  end.

(** The [for] loop over [enumerate(zip(self.feature_importances_,
    feature_values))], from index [i] on. *)
Fixpoint impacts_loop (i : nat) (importances values : list Q)
  : result (list impact) :=
  match importances, values with
  | (importance :: importances')%list, (value :: values')%list =>
      let normalized_value := py_min (value / 10) 1 in
      let impact := (importance * normalized_value)%Q in
      match nth_error FEATURE_NAMES i with
      | None => Raise (IndexError "list index out of range")
      | Some name =>
          d <- dict_get FEATURE_DESCRIPTIONS name ;;
          rest <- impacts_loop (S i) importances' values' ;;
          Ok (mkImpact name d value importance impact :: rest)%list
      end
  | _, _ => Ok []%list
  end.

(** [impacts.sort(key=lambda x: x['impact_weight'], reverse=True)]: the
    stable sort, entries of equal weight keep their order. *)
Fixpoint insert_desc (x : impact) (l : list impact) : list impact :=
  match l with
  | []%list => [x]%list
  | (y :: ys)%list =>
      if Qltb (impact_weight x) (impact_weight y) then (y :: insert_desc x ys)%list
      else (x :: y :: ys)%list
  end.

Definition sort_desc (l : list impact) : list impact :=
  fold_right insert_desc []%list l.

(** [a] may stand before [b] in a list in descending order of impact
    weight. *)
Definition desc (a b : impact) : Prop := impact_weight b <= impact_weight a.

Definition set_impact_weight (item : impact) (w : Q) : impact :=
  mkImpact (feature item) (description item) (value item) (importance item) w.

(** The normalisation pass over the whole sorted list. *)
Definition normalize (impacts : list impact) : list impact :=
  let total_impact := py_sum (map impact_weight impacts) in
  if Qgtb total_impact 0 then
    map (fun item =>
           set_impact_weight item (py_round2 (impact_weight item / total_impact)))
        impacts
  else impacts.

Definition get_feature_importance (w : world RiskModel) (features : ndarray)
  : result (list impact) * world RiskModel :=
  let w := ensure_trained w in
  (feature_values <- feature_values features ;;
   match feature_importances_ (self w) with
   | None => Raise (TypeError "'NoneType' object is not iterable")
   | Some importances =>
       impacts <- impacts_loop 0 importances feature_values ;;
       let impacts := sort_desc impacts in
       let impacts := normalize impacts in
       Ok (firstn 3 impacts)
   end,
   w).

Definition get_risk_level (risk_score : Q) : string :=
  if Qltb risk_score (4 # 10) then "Low"
  else if Qleb risk_score (7 # 10) then "Medium"
  else "High".

(** The states of the wrapper and its artifact: [RiskModel()] over any
    content of the model directory, then any sequence of method calls. *)
Inductive reachable : world RiskModel -> Prop :=
| reach_init (d : option string) : reachable (mkWorld init d 0 0)
| reach_load_or_train w : reachable w -> reachable (load_or_train w)
| reach_predict w features : reachable w -> reachable (snd (predict w features))
| reach_predict_batch w features :
    reachable w -> reachable (snd (predict_batch w features))
| reach_get_feature_importance w features :
    reachable w -> reachable (snd (get_feature_importance w features)).

End Wrapper.

Arguments RiskModel E : clear implicits.

(** The request body of [/ml/predict-risk] ([PRFeatures] of main.py). *)
Record PRFeatures : Type := mkPRFeatures {
  f1 : Q;  (* log(1 + lines_added + lines_deleted) *)
  f2 : Q;  (* files_changed *)
  f3 : Q;  (* commits_count *)
  f4 : Q;  (* review_comments *)
  f5 : Q;  (* time_to_merge (normalized) *)
  f6 : Q;  (* contributor_rejection_rate *)
  f7 : Q;  (* contributor_experience_score *)
  f8 : Q   (* average_churn_of_modified_files *)
}.

(** [int(np.exp(lines_added_deleted) - 1)] *)
Definition approx_lines_of (lines_added_deleted : Q) : result Z :=
  int_of_float (minus_1 (np_exp lines_added_deleted)).

(** [recommendations.append(msg)] under [if cond:]. *)
Definition append_if (cond : bool) (msg : string) (recommendations : list string)
  : list string :=
  if cond then (recommendations ++ [msg])%list else recommendations.

Definition generate_recommendations (features : PRFeatures) (risk_score : Q)
    (top_factors : list impact) : result (list string) :=
  let recommendations := []%list in
  let lines_added_deleted := f1 features in
  let files_changed := f2 features in
  let commits := f3 features in
  let review_comments := f4 features in
  let time_to_merge := f5 features in
  let rejection_rate := f6 features in
  let experience_score := f7 features in
  let churn_score := f8 features in
  approx_lines <- approx_lines_of lines_added_deleted ;;
  let recommendations := append_if (Z.ltb 1500 approx_lines)
    "Consider splitting this PR into smaller modules to reduce review complexity."
    recommendations in
  let recommendations := append_if (Qgtb files_changed 10)
    "This PR modifies multiple files - consider modular refactoring or breaking into smaller PRs."
    recommendations in
  let recommendations := append_if (Qltb experience_score (3 # 10))
    "Assign a senior reviewer due to low contributor experience."
    recommendations in
  let recommendations := append_if (Qgtb churn_score (6 # 10))
    "High file churn detected - consider refactoring before merge to reduce technical debt."
    recommendations in
  let recommendations := append_if (Qgtb time_to_merge (5 # 10))
    "This PR has slow merge time - prioritize review or break into smaller parts."
    recommendations in
  let recommendations := append_if (Qgtb rejection_rate (3 # 10))
    "Contributor has high rejection rate - ensure thorough testing before submission."
    recommendations in
  let recommendations := append_if (Qgtb commits 5)
    "Multiple commits suggest iterations - consider squash merging for cleaner history."
    recommendations in
  let recommendations := append_if (Qeq_bool review_comments 0 && Qgtb risk_score (5 # 10))
    "No review comments detected - request additional review or clarification."
    recommendations in
  let recommendations :=
    append_if (Qgtb risk_score (7 # 10) && Nat.eqb (List.length recommendations) 0)
    "This PR has high overall risk - consider additional testing and review cycles."
    recommendations in
  let recommendations := append_if (Nat.eqb (List.length recommendations) 0)
    "PR looks good - proceed with standard review process."
    recommendations in
  Ok recommendations.

(** None of the eight threshold rules of [generate_recommendations]
    triggers. *)
Definition no_rule_triggers (features : PRFeatures) (risk_score : Q) : Prop :=
  (exists approx_lines,
     approx_lines_of (f1 features) = Ok approx_lines /\
     (approx_lines <= 1500)%Z) /\
  f2 features <= 10 /\
  3 # 10 <= f7 features /\
  f8 features <= 6 # 10 /\
  f5 features <= 5 # 10 /\
  f6 features <= 3 # 10 /\
  f3 features <= 5 /\
  (~ f4 features == 0 \/ risk_score <= 5 # 10).

End Risk.

(** ** models/churn_model.py *)

Module Churn.

Local Open Scope string_scope.

(** What the wrapper uses of a fitted [RandomForestRegressor]; [not_2d v]
    is the exception with which its input validation refuses the 1-D array
    [v]. *)
Class Regressor (E : Type) : Type := {
  fit_synthetic : E;
  model_predict : E -> list (list Q) -> list Q;
  not_2d : list Q -> exn
}.

Section Wrapper.

Context {E : Type} {J : Joblib E} {C : Regressor E}.

Record ChurnModel : Type := mkChurnModel {
  model : option E;
  is_trained : bool
}.

(** [ChurnModel()] *)
Definition init : ChurnModel := mkChurnModel None false.

Definition _train_synthetic (w : world ChurnModel) : world ChurnModel :=
  let m := fit_synthetic in
  mkWorld (mkChurnModel (Some m) true)
          (Some (joblib_dump m))
          (S (fit_calls w))
          (S (dump_calls w)).

Definition load_or_train (w : world ChurnModel) : world ChurnModel :=
  match disk w with
  | Some b =>
      match joblib_load b with
      | Some m =>
          mkWorld (mkChurnModel (Some m) true)
                  (disk w) (fit_calls w) (dump_calls w)
      | None => _train_synthetic w
      end
  | None => _train_synthetic w
  end.

(** [if not self.is_trained: self.load_or_train()] *)
Definition ensure_trained (w : world ChurnModel) : world ChurnModel :=
  if is_trained (self w) then w else load_or_train w.

Definition the_model (w : world ChurnModel) (attribute : string) : result E :=
  match model (self w) with
  | Some m => Ok m
  | None =>
      Raise (AttributeError
               (String.append "'NoneType' object has no attribute '"
                  (String.append attribute "'")))
  end.

(** The rows that the estimator takes from its argument: it wants a 2-D
    array. *)
Definition rows_of (features : ndarray) : result (list (list Q)) :=
  match features with
  | Array1 v => Raise (not_2d v)
  | Array2 _ rows => Ok rows
  end.

Definition predict (w : world ChurnModel) (features : ndarray)
  : result (list Q) * world ChurnModel :=
  let w := ensure_trained w in
  (c <- shape1 features ;;
   if negb (Nat.eqb c 4) then
     Raise (ValueError ("Expected 4 features, got " ++ str_nat c))
   else
     m <- the_model w "predict" ;;
     rows <- rows_of features ;;
     Ok (np_clip (model_predict m rows) 0 1),
   w).

Definition predict_batch (w : world ChurnModel) (features : ndarray)
  : result (list Q) * world ChurnModel :=
  let w := ensure_trained w in
  (m <- the_model w "predict" ;;
   rows <- rows_of features ;;
   Ok (np_clip (model_predict m rows) 0 1),
   w).

(** The states of the wrapper and its artifact: [ChurnModel()] over any
    content of the model directory, then any sequence of method calls. *)
Inductive reachable : world ChurnModel -> Prop :=
| reach_init (d : option string) : reachable (mkWorld init d 0 0)
| reach_load_or_train w : reachable w -> reachable (load_or_train w)
| reach_predict w features : reachable w -> reachable (snd (predict w features))
| reach_predict_batch w features :
    reachable w -> reachable (snd (predict_batch w features)).

End Wrapper.

Arguments ChurnModel E : clear implicits.

End Churn.

(** ** models/anomaly_model.py *)

Module Anomaly.

Local Open Scope string_scope.

(** What the wrapper uses of a fitted [IsolationForest]; [not_2d v] is the
    exception with which its input validation refuses the 1-D array [v]. *)
Class Forest (E : Type) : Type := {
  fit_synthetic : E;
  decision_function : E -> list (list Q) -> list Q;
  not_2d : list Q -> exn
}.

Section Wrapper.

Context {E : Type} {J : Joblib E} {C : Forest E}.

Record AnomalyModel : Type := mkAnomalyModel {
  model : option E;
  is_trained : bool
}.

(** [AnomalyModel()] *)
Definition init : AnomalyModel := mkAnomalyModel None false.

Definition _train_synthetic (w : world AnomalyModel) : world AnomalyModel :=
  let m := fit_synthetic in
  mkWorld (mkAnomalyModel (Some m) true)
          (Some (joblib_dump m))
          (S (fit_calls w))
          (S (dump_calls w)).

Definition load_or_train (w : world AnomalyModel) : world AnomalyModel :=
  match disk w with
  | Some b =>
      match joblib_load b with
      | Some m =>
          mkWorld (mkAnomalyModel (Some m) true)
                  (disk w) (fit_calls w) (dump_calls w)
      | None => _train_synthetic w
      end
  | None => _train_synthetic w
  end.

(** [if not self.is_trained: self.load_or_train()] *)
Definition ensure_trained (w : world AnomalyModel) : world AnomalyModel :=
  if is_trained (self w) then w else load_or_train w.

Definition the_model (w : world AnomalyModel) (attribute : string) : result E :=
  match model (self w) with
  | Some m => Ok m
  | None =>
      Raise (AttributeError
               (String.append "'NoneType' object has no attribute '"
                  (String.append attribute "'")))
  end.

(** The rows that the estimator takes from its argument: it wants a 2-D
    array. *)
Definition rows_of (features : ndarray) : result (list (list Q)) :=
  match features with
  | Array1 v => Raise (not_2d v)
  | Array2 _ rows => Ok rows
  end.

(** The range guard of the normalisation, [1e-10]. *)
Definition epsilon : Q := 1 # 10000000000.

(** [(raw_scores - raw_scores.min()) /
     (raw_scores.max() - raw_scores.min() + 1e-10)] *)
Definition normalize_scores (raw_scores : list Q) : result (list Q) :=
  lo <- np_min raw_scores ;;
  hi <- np_max raw_scores ;;
  np_divide (map (fun r => r - lo) raw_scores) (hi - lo + epsilon).

Definition predict (w : world AnomalyModel) (features : ndarray)
  : result (list Q) * world AnomalyModel :=
  let w := ensure_trained w in
  (c <- shape1 features ;;
   if negb (Nat.eqb c 3) then
     Raise (ValueError ("Expected 3 features, got " ++ str_nat c))
   else
     m <- the_model w "decision_function" ;;
     rows <- rows_of features ;;
     let raw_scores := decision_function m rows in
     normalized_scores <- normalize_scores raw_scores ;;
     let anomaly_scores := map (fun n => 1 - n) normalized_scores in
     Ok anomaly_scores,
   w).

Definition predict_batch (w : world AnomalyModel) (features : ndarray)
  : result (list Q) * world AnomalyModel :=
  let w := ensure_trained w in
  predict w features.

(** [flag_anomalies(features, threshold=0.7)] *)
Definition flag_anomalies (w : world AnomalyModel) (features : ndarray)
    (threshold : Q) : result (list bool) * world AnomalyModel :=
  let (scores, w) := predict w features in
  (scores <- scores ;; Ok (map (fun s => Qgtb s threshold) scores), w).

(** The states of the wrapper and its artifact: [AnomalyModel()] over any
    content of the model directory, then any sequence of method calls. *)
Inductive reachable : world AnomalyModel -> Prop :=
| reach_init (d : option string) : reachable (mkWorld init d 0 0)
| reach_load_or_train w : reachable w -> reachable (load_or_train w)
| reach_predict w features : reachable w -> reachable (snd (predict w features))
| reach_predict_batch w features :
    reachable w -> reachable (snd (predict_batch w features))
| reach_flag_anomalies w features threshold :
    reachable w -> reachable (snd (flag_anomalies w features threshold)).

End Wrapper.

Arguments AnomalyModel E : clear implicits.

End Anomaly.

(** ** main.py *)

Module Main.

Local Open Scope string_scope.

(** What a handler hands back: the response model, or the [HTTPException]
    it raises. *)
Inductive http (A : Type) : Type :=
| Response (a : A)
| HTTPException (status_code : nat) (detail : string).
Arguments Response {A} a.
Arguments HTTPException {A} status_code detail.

(** [except Exception as e: raise HTTPException(status_code=500,
    detail=str(e))] *)
Definition guarded {A : Type} (r : result A) : http A :=
  match r with
  | Ok a => Response a
  | Raise e => HTTPException 500 (str_exn e)
  end.

Record FileFeatures : Type := mkFileFeatures {
  additions : Q;
  deletions : Q;
  modifications : Q;
  churn_history : Q
}.

Record ChurnPredictionResponse : Type := mkChurnPredictionResponse {
  churn_probability : Q;
  churn_level : string;
  churn_model_used : string
}.

(** The [if]/[elif] chain of [predict_churn]. *)
Definition churn_level_of (churn_prob : Q) : string :=
  if Qgtb churn_prob (8 # 10) then "critical"
  else if Qgtb churn_prob (6 # 10) then "high"
  else if Qgtb churn_prob (4 # 10) then "medium"
  else "low".

(** [a[0]] of a 1-D array. *)
Definition item0 (xs : list Q) : result Q :=
  match xs with
  | (x :: _)%list => Ok x
  | []%list => Raise (IndexError "index 0 is out of bounds for axis 0 with size 0")
  end.

Section Churn.

Context {E : Type} {J : Joblib E} {C : Churn.Regressor E}.

Definition predict_churn (churn_model : world (Churn.ChurnModel E))
    (features : FileFeatures)
  : http ChurnPredictionResponse * world (Churn.ChurnModel E) :=
  let feature_array := Array2 4 [[additions features; deletions features;
                                  modifications features; churn_history features]] in
  let (scores, churn_model) := Churn.predict churn_model feature_array in
  (guarded (scores <- scores ;;
            churn_prob <- item0 scores ;;
            Ok (mkChurnPredictionResponse churn_prob (churn_level_of churn_prob)
                  "RandomForestRegressor")),
   churn_model).

End Churn.

Record TrainResponse : Type := mkTrainResponse {
  success : bool;
  message : string;
  model_type : string
}.

(** One entry of [formatted_factors]. *)
Record Factor : Type := mkFactor {
  factor_feature : string;
  factor_value : Q;
  factor_impact_weight : Q
}.

Record RiskPredictionResponse : Type := mkRiskPredictionResponse {
  risk_score : Q;
  risk_level : string;
  confidence : Q;
  risk_model_used : string;
  top_factors : list Factor;
  recommendations : list string
}.

Section Risk.

Context {E : Type} {J : Joblib E} {C : Risk.Classifier E}.

Definition train_risk_model (risk_model : world (Risk.RiskModel E))
  : http TrainResponse * world (Risk.RiskModel E) :=
  let risk_model := Risk.load_or_train risk_model in
  (Response (mkTrainResponse true "Risk model trained/loaded"
               "RandomForestClassifier"),
   risk_model).

Definition predict_risk (risk_model : world (Risk.RiskModel E))
    (features : Risk.PRFeatures)
  : http RiskPredictionResponse * world (Risk.RiskModel E) :=
  let feature_array :=
    Array2 8 [[Risk.f1 features; Risk.f2 features; Risk.f3 features;
               Risk.f4 features; Risk.f5 features; Risk.f6 features;
               Risk.f7 features; Risk.f8 features]] in
  let (scores, risk_model) := Risk.predict risk_model feature_array in
  match scores <- scores ;; item0 scores with
  | Raise e => (HTTPException 500 (str_exn e), risk_model)
  | Ok risk_score =>
      let risk_level := Risk.get_risk_level risk_score in
      let (top_factors, risk_model) :=
        Risk.get_feature_importance risk_model feature_array in
      (guarded (top_factors <- top_factors ;;
                let formatted_factors :=
                  map (fun factor =>
                         mkFactor (Risk.description factor)
                                  (py_round2 (Risk.value factor))
                                  (Risk.impact_weight factor))
                      top_factors in
                recommendations <-
                  Risk.generate_recommendations features risk_score top_factors ;;
                Ok (mkRiskPredictionResponse risk_score risk_level (85 # 100)
                      "RandomForestClassifier" formatted_factors recommendations)),
       risk_model)
  end.

End Risk.

(** One entry of the [features] list of a [/ml/detect-anomalies] request:
    a dict, a key of which may be missing. *)
Record ContributorDict : Type := mkContributorDict {
  experience_score : option Q;
  contributions : option Q;
  rejection_rate : option Q
}.

(** The request body: [features] is [None] when the key is missing. *)
Record AnomalyRequest : Type := mkAnomalyRequest {
  features : option (list ContributorDict)
}.

Record Flagged : Type := mkFlagged {
  index : nat;
  anomaly_score : Q;
  flag : string
}.

Record AnomalyResponse : Type := mkAnomalyResponse {
  anomaly_scores : list Q;
  flagged_contributors : list Flagged;
  model_used : string
}.

(** [d.get(k, default)] *)
Definition get_or (v : option Q) (default : Q) : Q :=
  match v with
  | Some x => x
  | None => default
  end.

(** The [for i, score in enumerate(anomaly_scores)] loop, from index [i]. *)
Fixpoint flag_loop (i : nat) (anomaly_scores : list Q) : list Flagged :=
  match anomaly_scores with
  | []%list => []%list
  | (score :: rest)%list =>
      if Qgtb score (5 # 10) then
        (mkFlagged i score "Unusual activity pattern" :: flag_loop (S i) rest)%list
      else flag_loop (S i) rest
  end.

(** The rows of [feature_array], one per entry of [features]. *)
Definition feature_rows (features : list ContributorDict) : list (list Q) :=
  map (fun f => [get_or (experience_score f) 0;
                 get_or (contributions f) 0;
                 get_or (rejection_rate f) 0]%list) features.

Section Anomaly.

Context {E : Type} {J : Joblib E} {C : Anomaly.Forest E}.

Definition detect_anomalies (anomaly_model : world (Anomaly.AnomalyModel E))
    (request : AnomalyRequest)
  : http AnomalyResponse * world (Anomaly.AnomalyModel E) :=
  let features := match features request with
                  | Some fs => fs
                  | None => []%list
                  end in
  match features with
  | []%list =>
      (Response (mkAnomalyResponse []%list []%list "IsolationForest"), anomaly_model)
  | (_ :: _)%list =>
      let feature_array := Array2 3 (feature_rows features) in
      let (scores, anomaly_model) := Anomaly.predict anomaly_model feature_array in
      (guarded (anomaly_scores <- scores ;;
                let flagged := flag_loop 0 anomaly_scores in
                Ok (mkAnomalyResponse anomaly_scores flagged "IsolationForest")),
       anomaly_model)
  end.

End Anomaly.

End Main.

(** ** A test double

    An estimator that scores every sample alike, stored as the empty
    artifact: the instance at which the statements below are exercised. *)

Module Stub.

#[global] Instance joblib : Joblib unit := {
  joblib_load := fun _ => Some tt;
  joblib_dump := fun _ => EmptyString
}.

#[global] Instance classifier : Risk.Classifier unit := {
  Risk.fit_synthetic := tt;
  Risk.predict_proba := fun _ rows => (2%nat, map (fun _ => [1 # 2; 1 # 2]) rows);
  Risk.feature_importances := fun _ =>
    [1 # 4; 1 # 4; 1 # 4; 1 # 4; 0; 0; 0; 0];
  Risk.not_2d := fun _ => ValueError "Expected 2D array, got 1D array instead";
  Risk.n_classes_pos := fun _ _ => Nat.lt_0_succ 1
}.

#[global] Instance regressor : Churn.Regressor unit := {
  Churn.fit_synthetic := tt;
  Churn.model_predict := fun _ rows => map (fun _ => 1 # 2) rows;
  Churn.not_2d := fun _ => ValueError "Expected 2D array, got 1D array instead"
}.

#[global] Instance forest : Anomaly.Forest unit := {
  Anomaly.fit_synthetic := tt;
  Anomaly.decision_function := fun _ rows => map (fun _ => 1 # 10) rows;
  Anomaly.not_2d := fun _ => ValueError "Expected 2D array, got 1D array instead"
}.

(** The wrappers as [main.py] creates them, with an empty model directory. *)
Definition risk_model : world (Risk.RiskModel unit) :=
  mkWorld Risk.init None 0 0.
Definition churn_model : world (Churn.ChurnModel unit) :=
  mkWorld Churn.init None 0 0.
Definition anomaly_model : world (Anomaly.AnomalyModel unit) :=
  mkWorld Anomaly.init None 0 0.

End Stub.

(** ** A second test double

    An isolation forest that scores a contributor by the first entry of its
    row, so that the scores of a batch differ, and a classifier that knows
    one class only. *)

Module Probe.

#[global] Instance joblib : Joblib bool := {
  joblib_load := fun _ => Some true;
  joblib_dump := fun _ => EmptyString
}.

#[global] Instance forest : Anomaly.Forest bool := {
  Anomaly.fit_synthetic := true;
  Anomaly.decision_function := fun _ rows => map (fun r => nth 0 r 0) rows;
  Anomaly.not_2d := fun _ => ValueError "Expected 2D array, got 1D array instead"
}.

Definition anomaly_model : world (Anomaly.AnomalyModel bool) :=
  mkWorld Anomaly.init None 0 0.

(** A classifier fitted on a single class. *)
#[global] Instance classifier : Risk.Classifier bool := {
  Risk.fit_synthetic := true;
  Risk.predict_proba := fun _ rows => (1%nat, map (fun _ => [1]) rows);
  Risk.feature_importances := fun _ =>
    [1 # 8; 1 # 8; 1 # 8; 1 # 8; 1 # 8; 1 # 8; 1 # 8; 1 # 8];
  Risk.not_2d := fun _ => ValueError "Expected 2D array, got 1D array instead";
  Risk.n_classes_pos := fun _ _ => Nat.lt_0_succ 0
}.

Definition risk_model : world (Risk.RiskModel bool) :=
  mkWorld Risk.init None 0 0.

End Probe.

(** ** Wrapper and artifact in agreement *)

(** A trained wrapper agrees with its artifact: the file is there and loads
    to the wrapper's estimator. *)
Definition risk_consistent {E : Type} {J : Joblib E} {C : Risk.Classifier E}
    (w : world (Risk.RiskModel E)) : Prop :=
  Risk.is_trained (self w) = true ->
  exists m b,
    Risk.model (self w) = Some m /\
    Risk.feature_importances_ (self w) = Some (Risk.feature_importances m) /\
    disk w = Some b /\ joblib_load b = Some m.

Definition churn_consistent {E : Type} {J : Joblib E} {C : Churn.Regressor E}
    (w : world (Churn.ChurnModel E)) : Prop :=
  Churn.is_trained (self w) = true ->
  exists m b,
    Churn.model (self w) = Some m /\
    disk w = Some b /\ joblib_load b = Some m.

Definition anomaly_consistent {E : Type} {J : Joblib E} {C : Anomaly.Forest E}
    (w : world (Anomaly.AnomalyModel E)) : Prop :=
  Anomaly.is_trained (self w) = true ->
  exists m b,
    Anomaly.model (self w) = Some m /\
    disk w = Some b /\ joblib_load b = Some m.

(** ** Fixed-point lower bounds of powers

    Squaring in 64 fractional bits, rounded down: what the bounds on the
    exponential at the thresholds of [np_exp] and [minus_1] are computed
    with. *)

Definition sqr_down (n : Z) : Z := (n * n) / 2 ^ 64.

Fixpoint pow_2k_down (k : nat) (n : Z) : Z :=
  match k with
  | O => n
  | S k' => pow_2k_down k' (sqr_down n)
  end.

(** * Properties *)


(** Linear arithmetic over [Q] and over [R]. *)
Ltac qlra := Lqa.lra.
Ltac rlra := Lra.lra.

(** ** Comparisons *)

Lemma Qltb_lt (x y : Q) : Qltb x y = true <-> x < y.
Proof.
  unfold Qltb. rewrite negb_true_iff.
  split; intro H.
  - apply Qnot_le_lt. intro Hle. apply Qle_bool_iff in Hle. congruence.
  - destruct (Qle_bool y x) eqn:E; [|reflexivity].
    apply Qle_bool_iff in E. exfalso. exact (Qlt_not_le _ _ H E).
Qed.

Lemma Qltb_ge (x y : Q) : Qltb x y = false <-> y <= x.
Proof.
  unfold Qltb. rewrite negb_false_iff. apply Qle_bool_iff.
Qed.

Lemma Qleb_le (x y : Q) : Qleb x y = true <-> x <= y.
Proof. apply Qle_bool_iff. Qed.

Lemma Qleb_gt (x y : Q) : Qleb x y = false <-> y < x.
Proof.
  unfold Qleb. split; intro H.
  - apply Qnot_le_lt. intro Hle. apply Qle_bool_iff in Hle. congruence.
  - destruct (Qle_bool x y) eqn:E; [|reflexivity].
    apply Qle_bool_iff in E. exfalso. exact (Qlt_not_le _ _ H E).
Qed.

Lemma Qgtb_gt (x y : Q) : Qgtb x y = true <-> y < x.
Proof. apply Qltb_lt. Qed.

Lemma Qgtb_le (x y : Q) : Qgtb x y = false <-> x <= y.
Proof. apply Qltb_ge. Qed.

(** Case analysis on a comparison, leaving its meaning in the context. *)
Ltac case_cmp c :=
  let E := fresh "E" in
  destruct c eqn:E;
  [ first [ apply Qltb_lt in E | apply Qleb_le in E | apply Qgtb_gt in E ]
  | first [ apply Qltb_ge in E | apply Qleb_gt in E | apply Qgtb_le in E ] ].

(** ** Levels *)

(** C5. For every risk score [s], [get_risk_level s] is "Low" iff [s < 0.4],
    "Medium" iff [0.4 <= s <= 0.7] and "High" iff [s > 0.7]: 0.4 and 0.7
    are both inclusive bounds of Medium. *)
Theorem get_risk_level_spec (s : Q) :
  (Risk.get_risk_level s = "Low"%string <-> s < 4 # 10) /\
  (Risk.get_risk_level s = "Medium"%string <-> 4 # 10 <= s /\ s <= 7 # 10) /\
  (Risk.get_risk_level s = "High"%string <-> 7 # 10 < s).
Proof.
  unfold Risk.get_risk_level.
  case_cmp (Qltb s (4 # 10)); [|case_cmp (Qleb s (7 # 10))];
    repeat split; intros; try discriminate; try reflexivity; try qlra.
Qed.

(** C6. For every churn score [s] the level of [predict_churn] is
    "critical" iff [s > 0.8], "high" iff [0.6 < s <= 0.8], "medium" iff
    [0.4 < s <= 0.6] and "low" iff [s <= 0.4]; the level is always one of
    the four, so the buckets are disjoint and cover every score, those of
    [0, 1] included. *)
Theorem churn_level_spec (s : Q) :
  (Main.churn_level_of s = "critical"%string <-> 8 # 10 < s) /\
  (Main.churn_level_of s = "high"%string <-> 6 # 10 < s /\ s <= 8 # 10) /\
  (Main.churn_level_of s = "medium"%string <-> 4 # 10 < s /\ s <= 6 # 10) /\
  (Main.churn_level_of s = "low"%string <-> s <= 4 # 10) /\
  (Main.churn_level_of s = "critical"%string \/
   Main.churn_level_of s = "high"%string \/
   Main.churn_level_of s = "medium"%string \/
   Main.churn_level_of s = "low"%string).
Proof.
  unfold Main.churn_level_of.
  case_cmp (Qgtb s (8 # 10));
    [|case_cmp (Qgtb s (6 # 10)); [|case_cmp (Qgtb s (4 # 10))]];
    repeat split; intros; try discriminate; try reflexivity; try qlra;
    auto.
Qed.

(** ** [int(np.exp(f1) - 1)] *)

Section Exponential.

Local Open Scope R_scope.

Lemma py_int_nonneg (x : R) : 0 <= x -> IZR (py_int x) <= x < IZR (py_int x) + 1.
Proof.
  intro Hx. unfold py_int.
  destruct (Rle_dec 0 x) as [_|Hn]; [|contradiction].
  destruct (base_Int_part x) as [H1 H2]. split; rlra.
Qed.

Lemma py_int_small (x : R) : -1 < x < 1 -> py_int x = 0%Z.
Proof.
  intros [H1 H2]. unfold py_int.
  destruct (Rle_dec 0 x) as [Hx|Hx].
  - symmetry. apply Int_part_spec. simpl. rlra.
  - assert (H : Int_part (- x) = 0%Z).
    { symmetry. apply Int_part_spec. simpl. rlra. }
    rewrite H. reflexivity.
Qed.

Lemma py_int_minus_1 : py_int (-1) = (-1)%Z.
Proof.
  unfold py_int. destruct (Rle_dec 0 (-1)) as [H|_]; [exfalso; rlra|].
  assert (H : Int_part (- -1) = 1%Z).
  { symmetry. apply Int_part_spec. simpl. rlra. }
  rewrite H. reflexivity.
Qed.

Lemma exp_INR_mult (n : nat) (x : R) : exp (INR n * x) = exp x ^ n.
Proof.
  induction n as [|n IH].
  - simpl. rewrite Rmult_0_l. apply exp_0.
  - rewrite S_INR, Rmult_plus_distr_r, Rmult_1_l, exp_plus, IH.
    simpl. ring.
Qed.

Lemma exp_Q2R_mono (p q : Q) : (p <= q)%Q -> exp (Q2R p) <= exp (Q2R q).
Proof.
  intro H. apply Qle_Rle in H.
  destruct (Rle_lt_or_eq_dec _ _ H) as [Hlt|Heq].
  - apply Rlt_le, exp_increasing, Hlt.
  - rewrite Heq. apply Rle_refl.
Qed.

(** [e^7.5 > 1502], from [e^x >= 1 + x] at [x = 7.5 / 256]. *)
Lemma exp_15_2_lower : 1502 < exp (15 / 2).
Proof.
  replace (15 / 2) with (INR 256 * (15 / 512)).
  2:{ replace (INR 256) with 256 by (simpl; ring). field. }
  rewrite exp_INR_mult.
  apply Rlt_le_trans with ((527 / 512) ^ 256).
  - unfold Rdiv. rewrite Rpow_mult_distr, pow_inv, !pow_IZR.
    apply Rmult_lt_reg_r with (IZR (512 ^ Z.of_nat 256)).
    + apply IZR_lt. vm_compute. reflexivity.
    + rewrite Rmult_assoc, Rinv_l, Rmult_1_r.
      * rewrite <- mult_IZR. apply IZR_lt. vm_compute. reflexivity.
      * apply not_0_IZR. vm_compute. discriminate.
  - apply pow_incr. split; [rlra|].
    replace (527 / 512) with (1 + 15 / 512) by field.
    apply exp_ineq1_le.
Qed.

(** *** Bounds in fixed point *)

Lemma fixed_unit_pos : 0 < IZR (2 ^ 64).
Proof. apply IZR_lt. reflexivity. Qed.

Lemma sqr_down_sound (n : Z) (x : R) :
  (0 <= n)%Z -> IZR n / IZR (2 ^ 64) <= x ->
  (0 <= sqr_down n)%Z /\ IZR (sqr_down n) / IZR (2 ^ 64) <= x * x.
Proof.
  intros Hn Hx. pose proof fixed_unit_pos as HD. unfold sqr_down.
  assert (Hq : (2 ^ 64 * (n * n / 2 ^ 64) <= n * n)%Z)
    by (apply Z.mul_div_le; reflexivity).
  split; [apply Z.div_pos; [nia | reflexivity]|].
  apply IZR_le in Hq. rewrite !mult_IZR in Hq.
  apply IZR_le in Hn.
  remember (IZR (n * n / 2 ^ 64)) as q eqn:Eq. clear Eq.
  remember (IZR (2 ^ 64)) as D eqn:ED. clear ED.
  remember (IZR n) as a eqn:Ea. clear Ea.
  assert (Ha : 0 <= a / D).
  { unfold Rdiv. apply Rmult_le_pos; [exact Hn|].
    apply Rlt_le, Rinv_0_lt_compat, HD. }
  apply Rle_trans with (a / D * (a / D)).
  - apply Rmult_le_reg_r with (D * D); [apply Rmult_lt_0_compat; exact HD|].
    replace (q / D * (D * D)) with (D * q) by (field; rlra).
    replace (a / D * (a / D) * (D * D)) with (a * a) by (field; rlra).
    exact Hq.
  - apply Rmult_le_compat; assumption.
Qed.

Lemma pow_2k_down_sound (k : nat) :
  forall (n : Z) (x : R),
    (0 <= n)%Z -> IZR n / IZR (2 ^ 64) <= x ->
    IZR (pow_2k_down k n) / IZR (2 ^ 64) <= x ^ (2 ^ k).
Proof.
  induction k as [|k IH]; intros n x Hn Hx.
  - simpl. rewrite Rmult_1_r. exact Hx.
  - destruct (sqr_down_sound n x Hn Hx) as [Hn' Hx'].
    specialize (IH (sqr_down n) (x * x) Hn' Hx').
    cbn [pow_2k_down].
    replace (x ^ (2 ^ S k)) with ((x * x) ^ (2 ^ k)); [exact IH|].
    replace (x * x) with (x ^ 2) by (simpl; ring).
    rewrite <- pow_mult. reflexivity.
Qed.

(** From [a / b <= e^y] to a lower bound of [e^(2^k y)]. *)
Lemma exp_lower_fixed (a b : Z) (k : nat) (y : R) :
  (0 < b)%Z -> (0 <= a)%Z -> IZR a / IZR b <= exp y ->
  IZR (pow_2k_down k (2 ^ 64 * a / b)) / IZR (2 ^ 64) <= exp (INR (2 ^ k) * y).
Proof.
  intros Hb Ha Hy. rewrite exp_INR_mult.
  apply pow_2k_down_sound.
  - apply Z.div_pos; [nia | exact Hb].
  - apply Rle_trans with (IZR a / IZR b); [|exact Hy].
    pose proof fixed_unit_pos as HD.
    assert (Hq : (b * (2 ^ 64 * a / b) <= 2 ^ 64 * a)%Z)
      by (apply Z.mul_div_le; exact Hb).
    apply IZR_le in Hq. rewrite !mult_IZR in Hq.
    apply IZR_lt in Hb.
    remember (IZR (2 ^ 64 * a / b)) as q eqn:Eq. clear Eq.
    remember (IZR (2 ^ 64)) as D eqn:ED. clear ED.
    apply Rmult_le_reg_r with (D * IZR b); [apply Rmult_lt_0_compat; assumption|].
    replace (q / D * (D * IZR b)) with (IZR b * q) by (field; rlra).
    replace (IZR a / IZR b * (D * IZR b)) with (D * IZR a) by (field; rlra).
    exact Hq.
Qed.

Lemma INR_pow2_12 : INR (2 ^ 12) = 4096.
Proof. rewrite INR_IZR_INZ. reflexivity. Qed.

Lemma INR_1024 : INR 1024 = 1024.
Proof. rewrite INR_IZR_INZ. reflexivity. Qed.

Lemma INR_54 : INR 54 = 54.
Proof. rewrite INR_IZR_INZ. reflexivity. Qed.

(** [e^(710/1024) >= 2], as [710 / 1024 > ln 2]. *)
Lemma exp_710_1024 : 2 <= exp (710 / 1024).
Proof.
  pose proof (exp_lower_fixed 2097507 2097152 12 (355 / 2097152)) as H.
  rewrite INR_pow2_12 in H.
  replace (4096 * (355 / 2097152)) with (710 / 1024) in H by field.
  apply Rle_trans with (2 := H eq_refl ltac:(discriminate)
    ltac:(replace (2097507 / 2097152) with (1 + 355 / 2097152) by field;
          apply exp_ineq1_le)).
  pose proof fixed_unit_pos as HD.
  assert (Hc : (2 * 2 ^ 64 <= pow_2k_down 12 (2 ^ 64 * 2097507 / 2097152))%Z)
    by (apply Z.leb_le; vm_compute; reflexivity).
  apply IZR_le in Hc. rewrite mult_IZR in Hc.
  apply Rmult_le_reg_r with (IZR (2 ^ 64)); [exact HD|].
  unfold Rdiv. rewrite Rmult_assoc, Rinv_l, Rmult_1_r; [exact Hc | rlra].
Qed.

(** [e^(-709/1024) > 1/2], as [709 / 1024 < ln 2]. *)
Lemma exp_m709_1024 : / 2 < exp (- 709 / 1024).
Proof.
  pose proof (exp_lower_fixed 4193595 4194304 12 (- 709 / 4194304)) as H.
  rewrite INR_pow2_12 in H.
  replace (4096 * (- 709 / 4194304)) with (- 709 / 1024) in H by field.
  apply Rlt_le_trans with (2 := H eq_refl ltac:(discriminate)
    ltac:(replace (4193595 / 4194304) with (1 + - 709 / 4194304) by field;
          apply exp_ineq1_le)).
  pose proof fixed_unit_pos as HD.
  assert (Hc : (2 ^ 64 < 2 * pow_2k_down 12 (2 ^ 64 * 4193595 / 4194304))%Z)
    by (apply Z.ltb_lt; vm_compute; reflexivity).
  apply IZR_lt in Hc. rewrite mult_IZR in Hc.
  apply Rmult_lt_reg_r with (IZR (2 ^ 64)); [exact HD|].
  unfold Rdiv. rewrite Rmult_assoc, Rinv_l, Rmult_1_r; [rlra | rlra].
Qed.

(** [e^(38/54) >= 2]. *)
Lemma exp_38_54 : 2 <= exp (38 / 54).
Proof.
  pose proof (exp_lower_fixed 110611 110592 12 (19 / 110592)) as H.
  rewrite INR_pow2_12 in H.
  replace (4096 * (19 / 110592)) with (38 / 54) in H by field.
  apply Rle_trans with (2 := H eq_refl ltac:(discriminate)
    ltac:(replace (110611 / 110592) with (1 + 19 / 110592) by field;
          apply exp_ineq1_le)).
  pose proof fixed_unit_pos as HD.
  assert (Hc : (2 * 2 ^ 64 <= pow_2k_down 12 (2 ^ 64 * 110611 / 110592))%Z)
    by (apply Z.leb_le; vm_compute; reflexivity).
  apply IZR_le in Hc. rewrite mult_IZR in Hc.
  apply Rmult_le_reg_r with (IZR (2 ^ 64)); [exact HD|].
  unfold Rdiv. rewrite Rmult_assoc, Rinv_l, Rmult_1_r; [exact Hc | rlra].
Qed.

(** [e^(-37/54) > 1/2]. *)
Lemma exp_m37_54 : / 2 < exp (- 37 / 54).
Proof.
  pose proof (exp_lower_fixed 221147 221184 12 (- 37 / 221184)) as H.
  rewrite INR_pow2_12 in H.
  replace (4096 * (- 37 / 221184)) with (- 37 / 54) in H by field.
  apply Rlt_le_trans with (2 := H eq_refl ltac:(discriminate)
    ltac:(replace (221147 / 221184) with (1 + - 37 / 221184) by field;
          apply exp_ineq1_le)).
  pose proof fixed_unit_pos as HD.
  assert (Hc : (2 ^ 64 < 2 * pow_2k_down 12 (2 ^ 64 * 221147 / 221184))%Z)
    by (apply Z.ltb_lt; vm_compute; reflexivity).
  apply IZR_lt in Hc. rewrite mult_IZR in Hc.
  apply Rmult_lt_reg_r with (IZR (2 ^ 64)); [exact HD|].
  unfold Rdiv. rewrite Rmult_assoc, Rinv_l, Rmult_1_r; [rlra | rlra].
Qed.

(** *** The thresholds of the double *)

Lemma exp_710 : 2 ^ 1024 <= exp 710.
Proof.
  replace 710 with (INR 1024 * (710 / 1024)) by (rewrite INR_1024; field).
  rewrite exp_INR_mult. apply pow_incr. split; [rlra | apply exp_710_1024].
Qed.

Lemma exp_709 : exp 709 < 2 ^ 1024.
Proof.
  pose proof exp_m709_1024 as Ha.
  assert (Hp : 1 < (2 * exp (- 709 / 1024)) ^ 1024)
    by (apply Rlt_pow_R1; [rlra | lia]).
  rewrite Rpow_mult_distr, <- exp_INR_mult, INR_1024 in Hp.
  replace (1024 * (- 709 / 1024)) with (- 709) in Hp by field.
  assert (Hc : exp 709 * exp (- 709) = 1).
  { rewrite <- exp_plus. replace (709 + - 709) with 0 by ring. apply exp_0. }
  pose proof (exp_pos 709) as H1. pose proof (exp_pos (- 709)) as H2.
  apply Rmult_lt_reg_r with (exp (- 709)); [exact H2|]. rewrite Hc. exact Hp.
Qed.

Lemma exp_m38 : exp (- 38) <= / 2 ^ 54.
Proof.
  assert (Ha : 2 ^ 54 <= exp 38).
  { replace 38 with (INR 54 * (38 / 54)) by (rewrite INR_54; field).
    rewrite exp_INR_mult. apply pow_incr. split; [rlra | apply exp_38_54]. }
  replace (- 38) with (- (38)) by ring. rewrite exp_Ropp.
  apply Rinv_le_contravar; [apply pow_lt; rlra | exact Ha].
Qed.

Lemma exp_m37 : / 2 ^ 54 < exp (- 37).
Proof.
  pose proof exp_m37_54 as Ha.
  assert (Hp : 1 < (2 * exp (- 37 / 54)) ^ 54)
    by (apply Rlt_pow_R1; [rlra | lia]).
  rewrite Rpow_mult_distr, <- exp_INR_mult, INR_54 in Hp.
  replace (54 * (- 37 / 54)) with (- 37) in Hp by field.
  assert (H2 : 0 < 2 ^ 54) by (apply pow_lt; rlra).
  apply Rmult_lt_reg_l with (2 ^ 54); [exact H2|].
  rewrite Rinv_r; [exact Hp | rlra].
Qed.

Lemma Q2R_Z (z : Z) : Q2R (z # 1) = IZR z.
Proof. unfold Q2R. simpl. field. Qed.

Lemma np_exp_finite (x : Q) :
  (x <= 709)%Q -> np_exp x = Finite (exp (Q2R x)).
Proof.
  intro Hx. unfold np_exp.
  destruct (Rle_dec (2 ^ 1024) (exp (Q2R x))) as [H|_]; [|reflexivity].
  exfalso. apply exp_Q2R_mono in Hx. rewrite (Q2R_Z 709) in Hx.
  pose proof exp_709. rlra.
Qed.

Lemma np_exp_overflow (x : Q) : (710 <= x)%Q -> np_exp x = Infinity.
Proof.
  intro Hx. unfold np_exp.
  destruct (Rle_dec (2 ^ 1024) (exp (Q2R x))) as [_|H]; [reflexivity|].
  exfalso. apply exp_Q2R_mono in Hx. rewrite (Q2R_Z 710) in Hx.
  pose proof exp_710. rlra.
Qed.

Lemma approx_lines_of_overflow (x : Q) :
  (710 <= x)%Q ->
  Risk.approx_lines_of x
  = Raise (OverflowError "cannot convert float infinity to integer").
Proof.
  intro Hx. unfold Risk.approx_lines_of. rewrite (np_exp_overflow x Hx).
  reflexivity.
Qed.

Lemma approx_lines_of_defined (x : Q) :
  (x <= 709)%Q -> exists approx_lines, Risk.approx_lines_of x = Ok approx_lines.
Proof.
  intro Hx. unfold Risk.approx_lines_of. rewrite (np_exp_finite x Hx).
  cbn [minus_1].
  destruct (Rle_dec (exp (Q2R x)) (/ 2 ^ 54)); eexists; reflexivity.
Qed.

Lemma approx_lines_of_absorbed (x : Q) :
  (x <= -38)%Q -> Risk.approx_lines_of x = Ok (-1)%Z.
Proof.
  intro Hx. unfold Risk.approx_lines_of.
  rewrite np_exp_finite by (apply Qle_trans with (1 := Hx); discriminate).
  cbn [minus_1].
  destruct (Rle_dec (exp (Q2R x)) (/ 2 ^ 54)) as [_|H].
  - cbn [int_of_float]. rewrite py_int_minus_1. reflexivity.
  - exfalso. apply exp_Q2R_mono in Hx. rewrite (Q2R_Z (-38)) in Hx.
    pose proof exp_m38. rlra.
Qed.

Lemma approx_lines_of_exact (x : Q) :
  (-37 <= x)%Q -> (x <= 709)%Q ->
  Risk.approx_lines_of x = Ok (py_int (exp (Q2R x) - 1)).
Proof.
  intros Hlo Hhi. unfold Risk.approx_lines_of. rewrite (np_exp_finite x Hhi).
  cbn [minus_1].
  destruct (Rle_dec (exp (Q2R x)) (/ 2 ^ 54)) as [H|_]; [|reflexivity].
  exfalso. apply exp_Q2R_mono in Hlo. rewrite (Q2R_Z (-37)) in Hlo.
  pose proof exp_m37. rlra.
Qed.

Lemma approx_lines_of_7_5 :
  exists approx_lines,
    Risk.approx_lines_of (75 # 10) = Ok approx_lines /\ (1500 < approx_lines)%Z.
Proof.
  eexists. split.
  - apply approx_lines_of_exact; discriminate.
  - assert (HQ : Q2R (75 # 10) = 15 / 2) by (unfold Q2R; simpl; field).
    rewrite HQ. pose proof exp_15_2_lower as He.
    destruct (py_int_nonneg (exp (15 / 2) - 1)) as [_ H]; [rlra|].
    apply lt_IZR. rlra.
Qed.

Lemma approx_lines_of_0 : Risk.approx_lines_of 0 = Ok 0%Z.
Proof.
  rewrite approx_lines_of_exact by discriminate.
  assert (HQ : Q2R 0 = 0) by (unfold Q2R; simpl; field).
  rewrite HQ, exp_0. f_equal. apply py_int_small. rlra.
Qed.

End Exponential.

(** ** Recommendations *)

Section Recommendations.

Import Risk.
Local Open Scope string_scope.

Lemma append_if_last_nonempty (msg : string) (l : list string) :
  append_if (Nat.eqb (List.length l) 0) msg l <> []%list.
Proof.
  destruct l as [|x l]; simpl; [discriminate | discriminate].
Qed.

(** C7. On a valid feature input, one whose [f1] the double exponential
    takes ([f1 <= 709]), [generate_recommendations] returns a list and the
    list is never empty; when none of the eight threshold rules triggers,
    it is the generic high-risk advisory alone if the risk score exceeds
    0.7 and the generic "looks good" message alone otherwise. *)
Theorem generate_recommendations_nonempty
    (features : PRFeatures) (risk_score : Q) (top_factors : list impact) :
  f1 features <= 709 ->
  exists recommendations,
    generate_recommendations features risk_score top_factors
      = Ok recommendations /\
    recommendations <> []%list /\
    (no_rule_triggers features risk_score ->
     7 # 10 < risk_score ->
     recommendations =
     ["This PR has high overall risk - consider additional testing and review cycles."]%list) /\
    (no_rule_triggers features risk_score ->
     risk_score <= 7 # 10 ->
     recommendations =
     ["PR looks good - proceed with standard review process."]%list).
Proof.
  intro Hf1.
  destruct (approx_lines_of_defined (f1 features) Hf1) as (n & Hn).
  unfold generate_recommendations. rewrite Hn. cbn [bind].
  eexists. split; [reflexivity|].
  split; [apply append_if_last_nonempty|].
  assert (Hrules : no_rule_triggers features risk_score ->
            Z.ltb 1500 n = false /\
            Qgtb (f2 features) 10 = false /\
            Qltb (f7 features) (3 # 10) = false /\
            Qgtb (f8 features) (6 # 10) = false /\
            Qgtb (f5 features) (5 # 10) = false /\
            Qgtb (f6 features) (3 # 10) = false /\
            Qgtb (f3 features) 5 = false /\
            Qeq_bool (f4 features) 0 && Qgtb risk_score (5 # 10) = false).
  { intros ((n' & Hn' & H1) & H2 & H3 & H4 & H5 & H6 & H7 & H8).
    assert (n' = n) by congruence. subst n'.
    apply Z.ltb_ge in H1. apply Qgtb_le in H2. apply Qltb_ge in H3.
    apply Qgtb_le in H4. apply Qgtb_le in H5. apply Qgtb_le in H6.
    apply Qgtb_le in H7.
    repeat (split; [assumption|]).
    destruct (Qeq_bool (f4 features) 0) eqn:E4; [|reflexivity].
    apply Qeq_bool_iff in E4. simpl. apply Qgtb_le.
    destruct H8 as [H8|H8]; [contradiction | exact H8]. }
  split; intros Hno Hr;
    destruct (Hrules Hno) as (E1 & E2 & E3 & E4 & E5 & E6 & E7 & E8);
    rewrite E1, E2, E3, E4, E5, E6, E7, E8.
  - apply Qgtb_gt in Hr. rewrite Hr. reflexivity.
  - apply Qgtb_le in Hr. rewrite Hr. reflexivity.
Qed.

(** A request on which no rule triggers, at risk score 0.8. *)
Lemma generate_recommendations_nonempty_witness :
  Risk.f1 (mkPRFeatures 0 1 1 2 0 0 1 0) <= 709 /\
  no_rule_triggers (mkPRFeatures 0 1 1 2 0 0 1 0) (8 # 10) /\
  7 # 10 < 8 # 10 /\
  generate_recommendations (mkPRFeatures 0 1 1 2 0 0 1 0) (8 # 10) []%list =
  Ok ["This PR has high overall risk - consider additional testing and review cycles."]%list.
Proof.
  assert (Hno : no_rule_triggers (mkPRFeatures 0 1 1 2 0 0 1 0) (8 # 10)).
  { unfold no_rule_triggers; simpl. split.
    - exists 0%Z. split; [apply approx_lines_of_0 | discriminate].
    - repeat split; try (left; discriminate); try discriminate. }
  assert (Hf1 : Risk.f1 (mkPRFeatures 0 1 1 2 0 0 1 0) <= 709) by discriminate.
  split; [exact Hf1|]. split; [exact Hno|]. split; [reflexivity|].
  destruct (generate_recommendations_nonempty
              (mkPRFeatures 0 1 1 2 0 0 1 0) (8 # 10) []%list Hf1)
    as (recs & Hrecs & _ & Hhigh & _).
  rewrite Hrecs. f_equal. apply Hhigh; [exact Hno | reflexivity].
Defined.

(** C8. On [f1=7.5, f2=15, f3=6, f4=0, f5=0.6, f6=0.4, f7=0.2, f8=0.7]
    the result opens with the "split PR", "multiple files", "senior
    reviewer", "high churn", "slow merge", "high rejection rate" and
    "multiple commits" messages, in this order, the order of the rules;
    the only message that may follow is the "no review comments" one, when
    the risk score exceeds 0.5. *)
Theorem generate_recommendations_end_to_end
    (risk_score : Q) (top_factors : list impact) :
  generate_recommendations
    (mkPRFeatures (75 # 10) 15 6 0 (6 # 10) (4 # 10) (2 # 10) (7 # 10))
    risk_score top_factors =
  Ok (["Consider splitting this PR into smaller modules to reduce review complexity.";
       "This PR modifies multiple files - consider modular refactoring or breaking into smaller PRs.";
       "Assign a senior reviewer due to low contributor experience.";
       "High file churn detected - consider refactoring before merge to reduce technical debt.";
       "This PR has slow merge time - prioritize review or break into smaller parts.";
       "Contributor has high rejection rate - ensure thorough testing before submission.";
       "Multiple commits suggest iterations - consider squash merging for cleaner history."]
      ++ (if Qgtb risk_score (5 # 10)
          then ["No review comments detected - request additional review or clarification."]
          else []))%list.
Proof.
  unfold generate_recommendations.
  cbn [f1 f2 f3 f4 f5 f6 f7 f8].
  destruct approx_lines_of_7_5 as (n & Hn & Hgt).
  rewrite Hn. cbn [bind].
  apply Z.ltb_lt in Hgt. rewrite Hgt.
  destruct (Qgtb risk_score (5 # 10)), (Qgtb risk_score (7 # 10)); reflexivity.
Qed.

End Recommendations.

(** ** Anomaly scores *)

Section AnomalyScores.

Import Anomaly.

Lemma py_min_cases (a b : Q) : py_min a b = a \/ py_min a b = b.
Proof. unfold py_min. destruct (Qltb b a); auto. Qed.

Lemma py_max_cases (a b : Q) : py_max a b = a \/ py_max a b = b.
Proof. unfold py_max. destruct (Qltb a b); auto. Qed.

Lemma py_min_le_l (a b : Q) : py_min a b <= a.
Proof. unfold py_min. case_cmp (Qltb b a); qlra. Qed.

Lemma py_max_ge_l (a b : Q) : a <= py_max a b.
Proof. unfold py_max. case_cmp (Qltb a b); qlra. Qed.

Lemma fold_min_le (rest : list Q) (x : Q) : fold_left py_min rest x <= x.
Proof.
  revert x. induction rest as [|y rest IH]; intro x; simpl; [qlra|].
  specialize (IH (py_min x y)). pose proof (py_min_le_l x y). qlra.
Qed.

Lemma fold_max_ge (rest : list Q) (x : Q) : x <= fold_left py_max rest x.
Proof.
  revert x. induction rest as [|y rest IH]; intro x; simpl; [qlra|].
  specialize (IH (py_max x y)). pose proof (py_max_ge_l x y). qlra.
Qed.

Lemma fold_min_const (r : Q) (rest : list Q) (x : Q) :
  x == r -> Forall (fun y => y == r) rest -> fold_left py_min rest x == r.
Proof.
  revert x. induction rest as [|y rest IH]; intros x Hx Hall; simpl; [exact Hx|].
  inversion Hall as [|? ? Hy Hrest]; subst.
  apply IH; [|exact Hrest].
  destruct (py_min_cases x y) as [-> | ->]; assumption.
Qed.

Lemma fold_max_const (r : Q) (rest : list Q) (x : Q) :
  x == r -> Forall (fun y => y == r) rest -> fold_left py_max rest x == r.
Proof.
  revert x. induction rest as [|y rest IH]; intros x Hx Hall; simpl; [exact Hx|].
  inversion Hall as [|? ? Hy Hrest]; subst.
  apply IH; [|exact Hrest].
  destruct (py_max_cases x y) as [-> | ->]; assumption.
Qed.

Lemma epsilon_pos : 0 < epsilon.
Proof. reflexivity. Qed.

Lemma np_divide_nonzero (xs : list Q) (d : Q) :
  ~ d == 0 -> np_divide xs d = Ok (map (fun x => x / d) xs).
Proof.
  intro Hd. unfold np_divide.
  destruct (Qeq_bool d 0) eqn:E; [|reflexivity].
  apply Qeq_bool_iff in E. contradiction.
Qed.

(** The range denominator is at least [epsilon]: the normalisation of a
    non-empty batch never divides by zero. *)
Lemma normalize_scores_defined (x : Q) (rest : list Q) :
  normalize_scores (x :: rest) =
  Ok (map (fun n => n / (fold_left py_max rest x - fold_left py_min rest x + epsilon))
          (map (fun r => r - fold_left py_min rest x) (x :: rest))).
Proof.
  unfold normalize_scores, np_min, np_max, bind.
  apply np_divide_nonzero.
  pose proof (fold_min_le rest x). pose proof (fold_max_ge rest x).
  pose proof epsilon_pos. intro Hd. qlra.
Qed.

Lemma normalize_scores_const (r : Q) (raw_scores : list Q) :
  raw_scores <> []%list ->
  Forall (fun x => x == r) raw_scores ->
  exists normalized_scores,
    normalize_scores raw_scores = Ok normalized_scores /\
    List.length normalized_scores = List.length raw_scores /\
    Forall (fun n => n == 0) normalized_scores.
Proof.
  intros Hne Hall. destruct raw_scores as [|x rest]; [contradiction|].
  rewrite normalize_scores_defined.
  eexists. split; [reflexivity|].
  split; [rewrite !length_map; reflexivity|].
  inversion Hall as [|? ? Hx Hrest]; subst.
  pose proof (fold_min_const r rest x Hx Hrest) as Hlo.
  pose proof (fold_max_const r rest x Hx Hrest) as Hhi.
  rewrite !Forall_map.
  apply Forall_impl with (2 := Hall).
  intros a Ha. cbv beta.
  rewrite Hlo, Hhi, Ha.
  assert (Hz : r - r == 0) by ring.
  rewrite Hz. unfold Qdiv. ring.
Qed.

End AnomalyScores.

Section AnomalyWrapper.

Import Anomaly.
Context {E : Type} {J : Joblib E} {C : Forest E}.

(** [predict] on a batch of three columns whose raw scores are all equal. *)
Lemma predict_const (w : world (AnomalyModel E)) (rows : list (list Q))
    (m : E) (r : Q) :
  model (self (ensure_trained w)) = Some m ->
  decision_function m rows <> []%list ->
  Forall (fun x => x == r) (decision_function m rows) ->
  exists anomaly_scores,
    predict w (Array2 3 rows) = (Ok anomaly_scores, ensure_trained w) /\
    List.length anomaly_scores = List.length (decision_function m rows) /\
    Forall (fun s => s == 1) anomaly_scores.
Proof.
  intros Hm Hne Hall.
  destruct (normalize_scores_const r _ Hne Hall) as (ns & Hns & Hlen & Hzero).
  exists (map (fun n => 1 - n) ns).
  split; [|split].
  - unfold predict. cbn [shape1 bind Nat.eqb negb rows_of].
    unfold the_model. rewrite Hm. cbn [bind]. rewrite Hns. reflexivity.
  - rewrite length_map. exact Hlen.
  - rewrite Forall_map. apply Forall_impl with (2 := Hzero).
    intros a Ha. cbv beta. rewrite Ha. reflexivity.
Qed.

End AnomalyWrapper.

(** C2. On a non-empty batch whose raw decision scores are all equal, the
    range denominator is [0 + 1e-10], not zero: the normalisation is
    defined (no division error), every normalised score is 0, and
    [predict] returns scores instead of raising. *)
Theorem predict_degenerate_batch
    {E : Type} {J : Joblib E} {C : Anomaly.Forest E}
    (w : world (Anomaly.AnomalyModel E)) (rows : list (list Q)) (m : E) (r : Q) :
  Anomaly.model (self (Anomaly.ensure_trained w)) = Some m ->
  Anomaly.decision_function m rows <> []%list ->
  Forall (fun x => x == r) (Anomaly.decision_function m rows) ->
  (exists normalized_scores,
     Anomaly.normalize_scores (Anomaly.decision_function m rows)
       = Ok normalized_scores /\
     List.length normalized_scores
       = List.length (Anomaly.decision_function m rows) /\
     Forall (fun n => n == 0) normalized_scores) /\
  (exists anomaly_scores,
     Anomaly.predict w (Array2 3 rows) = (Ok anomaly_scores, Anomaly.ensure_trained w)).
Proof.
  intros Hm Hne Hall. split.
  - exact (normalize_scores_const r _ Hne Hall).
  - destruct (predict_const w rows m r Hm Hne Hall) as (s & Hs & _).
    exists s. exact Hs.
Qed.

(** The stub forest scores both contributors 0.1. *)
Lemma predict_degenerate_batch_witness :
  (exists normalized_scores,
     Anomaly.normalize_scores [1 # 10; 1 # 10] = Ok normalized_scores /\
     List.length normalized_scores = 2%nat /\
     Forall (fun n => n == 0) normalized_scores) /\
  (exists anomaly_scores,
     Anomaly.predict Stub.anomaly_model
                     (Array2 3 [[50; 40; 1 # 10]; [5; 200; 8 # 10]])
     = (Ok anomaly_scores, Anomaly.ensure_trained Stub.anomaly_model)).
Proof.
  refine (predict_degenerate_batch Stub.anomaly_model
            [[50; 40; 1 # 10]; [5; 200; 8 # 10]] tt (1 # 10) eq_refl _ _).
  - discriminate.
  - repeat constructor.
Defined.

(** ** [detect_anomalies] *)

Lemma flag_loop_all (anomaly_scores : list Q) (i : nat) :
  Forall (fun s => s == 1) anomaly_scores ->
  map Main.index (Main.flag_loop i anomaly_scores)
    = seq i (List.length anomaly_scores) /\
  map Main.anomaly_score (Main.flag_loop i anomaly_scores) = anomaly_scores.
Proof.
  revert i. induction anomaly_scores as [|s rest IH]; intros i Hall; simpl.
  - split; reflexivity.
  - inversion Hall as [|? ? Hs Hrest]; subst.
    assert (Hgt : Qgtb s (5 # 10) = true) by (apply Qgtb_gt; qlra).
    rewrite Hgt. simpl.
    destruct (IH (S i) Hrest) as [IH1 IH2].
    rewrite IH1, IH2. split; reflexivity.
Qed.

(** C9. [detect_anomalies] on an empty feature list (or on a request
    without the [features] key) answers with no scores, no flagged
    contributor and [model_used = "IsolationForest"]; it raises nothing and
    leaves the wrapper as it was. *)
Theorem detect_anomalies_empty
    {E : Type} {J : Joblib E} {C : Anomaly.Forest E}
    (anomaly_model : world (Anomaly.AnomalyModel E)) :
  Main.detect_anomalies anomaly_model (Main.mkAnomalyRequest (Some []))
    = (Main.Response (Main.mkAnomalyResponse [] [] "IsolationForest"),
       anomaly_model) /\
  Main.detect_anomalies anomaly_model (Main.mkAnomalyRequest None)
    = (Main.Response (Main.mkAnomalyResponse [] [] "IsolationForest"),
       anomaly_model).
Proof. split; reflexivity. Qed.

(** C10. On a non-empty batch whose raw decision scores are all equal,
    [predict] returns anomaly scores that are all 1, and [detect_anomalies]
    flags every contributor of the batch: each score exceeds 0.5, the
    flagged entries carry the indices 0, 1, ... of all the scores, in
    order. *)
Theorem detect_anomalies_degenerate_batch
    {E : Type} {J : Joblib E} {C : Anomaly.Forest E}
    (anomaly_model : world (Anomaly.AnomalyModel E))
    (request : Main.AnomalyRequest) (features : list Main.ContributorDict)
    (m : E) (r : Q) :
  Main.features request = Some features ->
  features <> [] ->
  Anomaly.model (self (Anomaly.ensure_trained anomaly_model)) = Some m ->
  List.length (Anomaly.decision_function m (Main.feature_rows features))
    = List.length features ->
  Forall (fun x => x == r)
         (Anomaly.decision_function m (Main.feature_rows features)) ->
  exists anomaly_scores flagged,
    Anomaly.predict anomaly_model (Array2 3 (Main.feature_rows features))
      = (Ok anomaly_scores, Anomaly.ensure_trained anomaly_model) /\
    Main.detect_anomalies anomaly_model request
      = (Main.Response
           (Main.mkAnomalyResponse anomaly_scores flagged "IsolationForest"),
         Anomaly.ensure_trained anomaly_model) /\
    List.length anomaly_scores = List.length features /\
    Forall (fun s => s == 1) anomaly_scores /\
    Forall (fun s => 5 # 10 < s) anomaly_scores /\
    map Main.index flagged = seq 0 (List.length features) /\
    map Main.anomaly_score flagged = anomaly_scores.
Proof.
  intros Hreq Hne Hm Hlen Hall.
  assert (Hraw : Anomaly.decision_function m (Main.feature_rows features) <> []).
  { intro Hnil. rewrite Hnil in Hlen. destruct features; [contradiction|discriminate]. }
  destruct (predict_const anomaly_model _ m r Hm Hraw Hall)
    as (scores & Hpredict & Hlen' & Hone).
  destruct (flag_loop_all scores 0 Hone) as [Hidx Hsc].
  exists scores, (Main.flag_loop 0 scores).
  repeat split.
  - exact Hpredict.
  - unfold Main.detect_anomalies. rewrite Hreq.
    destruct features as [|f fs]; [contradiction|].
    rewrite Hpredict. reflexivity.
  - congruence.
  - exact Hone.
  - apply Forall_impl with (2 := Hone). intros a Ha. qlra.
  - rewrite Hidx. congruence.
  - exact Hsc.
Qed.

(** Two contributors, both scored 0.1 by the stub forest. *)
Lemma detect_anomalies_degenerate_batch_witness :
  exists anomaly_scores flagged,
    Anomaly.predict Stub.anomaly_model
      (Array2 3 [[50; 40; 1 # 10]; [5; 0; 8 # 10]])
      = (Ok anomaly_scores, Anomaly.ensure_trained Stub.anomaly_model) /\
    Main.detect_anomalies Stub.anomaly_model
      (Main.mkAnomalyRequest
         (Some [Main.mkContributorDict (Some 50) (Some 40) (Some (1 # 10));
                Main.mkContributorDict (Some 5) None (Some (8 # 10))]))
      = (Main.Response
           (Main.mkAnomalyResponse anomaly_scores flagged "IsolationForest"),
         Anomaly.ensure_trained Stub.anomaly_model) /\
    List.length anomaly_scores = 2%nat /\
    Forall (fun s => s == 1) anomaly_scores /\
    Forall (fun s => 5 # 10 < s) anomaly_scores /\
    map Main.index flagged = [0; 1]%nat /\
    map Main.anomaly_score flagged = anomaly_scores.
Proof.
  refine (detect_anomalies_degenerate_batch Stub.anomaly_model
            (Main.mkAnomalyRequest
               (Some [Main.mkContributorDict (Some 50) (Some 40) (Some (1 # 10));
                      Main.mkContributorDict (Some 5) None (Some (8 # 10))]))
            _ tt (1 # 10) eq_refl _ eq_refl eq_refl _).
  - discriminate.
  - repeat constructor.
Defined.

(** ** Lifecycle: load or train *)

Section RiskLifecycle.

Import Risk.
Context {E : Type} {J : Joblib E} {C : Classifier E}.
Hypothesis RT : round_trip E.

Lemma risk_load_or_train_trained (w : world (RiskModel E)) :
  is_trained (self (load_or_train w)) = true.
Proof.
  unfold load_or_train, _train_synthetic.
  destruct (disk w) as [b|]; [destruct (joblib_load b)|]; reflexivity.
Qed.

Lemma risk_load_or_train_consistent (w : world (RiskModel E)) :
  risk_consistent (load_or_train w).
Proof.
  intros _. unfold load_or_train, _train_synthetic.
  destruct (disk w) as [b|] eqn:Hd; [destruct (joblib_load b) as [m|] eqn:Hl|]; cbn.
  - exists m, b. auto.
  - exists fit_synthetic, (joblib_dump fit_synthetic). rewrite RT. auto.
  - exists fit_synthetic, (joblib_dump fit_synthetic). rewrite RT. auto.
Qed.

Lemma risk_ensure_trained_consistent (w : world (RiskModel E)) :
  risk_consistent w -> risk_consistent (ensure_trained w).
Proof.
  intro H. unfold ensure_trained.
  destruct (is_trained (self w)); [exact H | apply risk_load_or_train_consistent].
Qed.

Lemma risk_reachable_consistent (w : world (RiskModel E)) :
  reachable w -> risk_consistent w.
Proof.
  induction 1 as [d | w _ _ | w f _ IH | w f _ IH | w f _ IH].
  - intro H. discriminate H.
  - apply risk_load_or_train_consistent.
  - apply risk_ensure_trained_consistent, IH.
  - apply risk_ensure_trained_consistent, IH.
  - apply risk_ensure_trained_consistent, IH.
Qed.

Lemma risk_load_or_train_noop (w : world (RiskModel E)) :
  risk_consistent w -> is_trained (self w) = true -> load_or_train w = w.
Proof.
  intros Hc Ht. destruct (Hc Ht) as (m & b & Hm & Hfi & Hd & Hl).
  unfold load_or_train. rewrite Hd, Hl.
  destruct w as [[mo t fi] d fc dc]. cbn in *. subst. reflexivity.
Qed.

Lemma risk_load_or_train_idempotent :
  idempotent_once_trained (fun w => is_trained (self w)) reachable load_or_train.
Proof.
  split.
  - intros w Hr Ht.
    apply risk_load_or_train_noop; [apply risk_reachable_consistent|]; assumption.
  - intro w. apply risk_load_or_train_noop.
    + apply risk_load_or_train_consistent.
    + apply risk_load_or_train_trained.
Qed.

Lemma risk_ensure_trained_idempotent :
  idempotent_once_trained (fun w => is_trained (self w)) (fun _ => True)
                          ensure_trained.
Proof.
  split.
  - intros w _ Ht. unfold ensure_trained. rewrite Ht. reflexivity.
  - intro w. unfold ensure_trained at 1.
    destruct (is_trained (self (ensure_trained w))) eqn:Ht; [reflexivity|].
    unfold ensure_trained in Ht.
    destruct (is_trained (self w)) eqn:Ht'; [congruence|].
    rewrite risk_load_or_train_trained in Ht. discriminate.
Qed.

End RiskLifecycle.

Section ChurnLifecycle.

Import Churn.
Context {E : Type} {J : Joblib E} {C : Regressor E}.
Hypothesis RT : round_trip E.

Lemma churn_load_or_train_trained (w : world (ChurnModel E)) :
  is_trained (self (load_or_train w)) = true.
Proof.
  unfold load_or_train, _train_synthetic.
  destruct (disk w) as [b|]; [destruct (joblib_load b)|]; reflexivity.
Qed.

Lemma churn_load_or_train_consistent (w : world (ChurnModel E)) :
  churn_consistent (load_or_train w).
Proof.
  intros _. unfold load_or_train, _train_synthetic.
  destruct (disk w) as [b|] eqn:Hd; [destruct (joblib_load b) as [m|] eqn:Hl|]; cbn.
  - exists m, b. auto.
  - exists fit_synthetic, (joblib_dump fit_synthetic). rewrite RT. auto.
  - exists fit_synthetic, (joblib_dump fit_synthetic). rewrite RT. auto.
Qed.

Lemma churn_ensure_trained_consistent (w : world (ChurnModel E)) :
  churn_consistent w -> churn_consistent (ensure_trained w).
Proof.
  intro H. unfold ensure_trained.
  destruct (is_trained (self w)); [exact H | apply churn_load_or_train_consistent].
Qed.

Lemma churn_reachable_consistent (w : world (ChurnModel E)) :
  reachable w -> churn_consistent w.
Proof.
  induction 1 as [d | w _ _ | w f _ IH | w f _ IH].
  - intro H. discriminate H.
  - apply churn_load_or_train_consistent.
  - apply churn_ensure_trained_consistent, IH.
  - apply churn_ensure_trained_consistent, IH.
Qed.

Lemma churn_load_or_train_noop (w : world (ChurnModel E)) :
  churn_consistent w -> is_trained (self w) = true -> load_or_train w = w.
Proof.
  intros Hc Ht. destruct (Hc Ht) as (m & b & Hm & Hd & Hl).
  unfold load_or_train. rewrite Hd, Hl.
  destruct w as [[mo t] d fc dc]. cbn in *. subst. reflexivity.
Qed.

Lemma churn_load_or_train_idempotent :
  idempotent_once_trained (fun w => is_trained (self w)) reachable load_or_train.
Proof.
  split.
  - intros w Hr Ht.
    apply churn_load_or_train_noop; [apply churn_reachable_consistent|]; assumption.
  - intro w. apply churn_load_or_train_noop.
    + apply churn_load_or_train_consistent.
    + apply churn_load_or_train_trained.
Qed.

Lemma churn_ensure_trained_idempotent :
  idempotent_once_trained (fun w => is_trained (self w)) (fun _ => True)
                          ensure_trained.
Proof.
  split.
  - intros w _ Ht. unfold ensure_trained. rewrite Ht. reflexivity.
  - intro w. unfold ensure_trained at 1.
    destruct (is_trained (self (ensure_trained w))) eqn:Ht; [reflexivity|].
    unfold ensure_trained in Ht.
    destruct (is_trained (self w)) eqn:Ht'; [congruence|].
    rewrite churn_load_or_train_trained in Ht. discriminate.
Qed.

End ChurnLifecycle.

Section AnomalyLifecycle.

Import Anomaly.
Context {E : Type} {J : Joblib E} {C : Forest E}.
Hypothesis RT : round_trip E.

Lemma anomaly_load_or_train_trained (w : world (AnomalyModel E)) :
  is_trained (self (load_or_train w)) = true.
Proof.
  unfold load_or_train, _train_synthetic.
  destruct (disk w) as [b|]; [destruct (joblib_load b)|]; reflexivity.
Qed.

Lemma anomaly_load_or_train_consistent (w : world (AnomalyModel E)) :
  anomaly_consistent (load_or_train w).
Proof.
  intros _. unfold load_or_train, _train_synthetic.
  destruct (disk w) as [b|] eqn:Hd; [destruct (joblib_load b) as [m|] eqn:Hl|]; cbn.
  - exists m, b. auto.
  - exists fit_synthetic, (joblib_dump fit_synthetic). rewrite RT. auto.
  - exists fit_synthetic, (joblib_dump fit_synthetic). rewrite RT. auto.
Qed.

Lemma anomaly_ensure_trained_consistent (w : world (AnomalyModel E)) :
  anomaly_consistent w -> anomaly_consistent (ensure_trained w).
Proof.
  intro H. unfold ensure_trained.
  destruct (is_trained (self w)); [exact H | apply anomaly_load_or_train_consistent].
Qed.

Lemma anomaly_ensure_trained_idempotent :
  idempotent_once_trained (fun w => is_trained (self w)) (fun _ => True)
                          ensure_trained.
Proof.
  split.
  - intros w _ Ht. unfold ensure_trained. rewrite Ht. reflexivity.
  - intro w. unfold ensure_trained at 1.
    destruct (is_trained (self (ensure_trained w))) eqn:Ht; [reflexivity|].
    unfold ensure_trained in Ht.
    destruct (is_trained (self w)) eqn:Ht'; [congruence|].
    rewrite anomaly_load_or_train_trained in Ht. discriminate.
Qed.

Lemma anomaly_reachable_consistent (w : world (AnomalyModel E)) :
  reachable w -> anomaly_consistent w.
Proof.
  induction 1 as [d | w _ _ | w f _ IH | w f _ IH | w f th _ IH].
  - intro H. discriminate H.
  - apply anomaly_load_or_train_consistent.
  - apply anomaly_ensure_trained_consistent, IH.
  - cbn. rewrite (proj2 anomaly_ensure_trained_idempotent).
    apply anomaly_ensure_trained_consistent, IH.
  - unfold flag_anomalies. cbn.
    apply anomaly_ensure_trained_consistent, IH.
Qed.

Lemma anomaly_load_or_train_noop (w : world (AnomalyModel E)) :
  anomaly_consistent w -> is_trained (self w) = true -> load_or_train w = w.
Proof.
  intros Hc Ht. destruct (Hc Ht) as (m & b & Hm & Hd & Hl).
  unfold load_or_train. rewrite Hd, Hl.
  destruct w as [[mo t] d fc dc]. cbn in *. subst. reflexivity.
Qed.

Lemma anomaly_load_or_train_idempotent :
  idempotent_once_trained (fun w => is_trained (self w)) reachable load_or_train.
Proof.
  split.
  - intros w Hr Ht.
    apply anomaly_load_or_train_noop; [apply anomaly_reachable_consistent|]; assumption.
  - intro w. apply anomaly_load_or_train_noop.
    + apply anomaly_load_or_train_consistent.
    + apply anomaly_load_or_train_trained.
Qed.

End AnomalyLifecycle.

(** C3. Loading or training is idempotent for the three wrappers.  With an
    artifact format that round-trips, [load_or_train] changes nothing of a
    trained wrapper in any state the program reaches, and a second call in
    sequence leaves the wrapper, the artifact and the counts of trainings
    and of artifact writes as the first call left them (it reads the
    artifact again and finds the same estimator).  The guard under which
    every prediction path calls it, [if not self.is_trained:
    self.load_or_train()], is a no-op on any trained wrapper and idempotent
    without any assumption. *)
Theorem load_or_train_idempotent
    {Er : Type} {Jr : Joblib Er} {Cr : Risk.Classifier Er}
    {Ec : Type} {Jc : Joblib Ec} {Cc : Churn.Regressor Ec}
    {Ea : Type} {Ja : Joblib Ea} {Ca : Anomaly.Forest Ea} :
  round_trip Er -> round_trip Ec -> round_trip Ea ->
  (idempotent_once_trained (fun w => Risk.is_trained (self w))
     Risk.reachable (Risk.load_or_train (E := Er)) /\
   idempotent_once_trained (fun w => Risk.is_trained (self w))
     (fun _ => True) (Risk.ensure_trained (E := Er))) /\
  (idempotent_once_trained (fun w => Churn.is_trained (self w))
     Churn.reachable (Churn.load_or_train (E := Ec)) /\
   idempotent_once_trained (fun w => Churn.is_trained (self w))
     (fun _ => True) (Churn.ensure_trained (E := Ec))) /\
  (idempotent_once_trained (fun w => Anomaly.is_trained (self w))
     Anomaly.reachable (Anomaly.load_or_train (E := Ea)) /\
   idempotent_once_trained (fun w => Anomaly.is_trained (self w))
     (fun _ => True) (Anomaly.ensure_trained (E := Ea))).
Proof.
  intros RTr RTc RTa. repeat split.
  - apply (risk_load_or_train_idempotent RTr).
  - apply (risk_load_or_train_idempotent RTr).
  - apply risk_ensure_trained_idempotent.
  - apply risk_ensure_trained_idempotent.
  - apply (churn_load_or_train_idempotent RTc).
  - apply (churn_load_or_train_idempotent RTc).
  - apply churn_ensure_trained_idempotent.
  - apply churn_ensure_trained_idempotent.
  - apply (anomaly_load_or_train_idempotent RTa).
  - apply (anomaly_load_or_train_idempotent RTa).
  - apply anomaly_ensure_trained_idempotent.
  - apply anomaly_ensure_trained_idempotent.
Qed.

Lemma stub_round_trip : round_trip unit.
Proof. intros []. reflexivity. Qed.

(** The three wrappers over the stub estimator: with no artifact on disk
    the first call trains and writes once, the second changes nothing; nor
    does a call that follows a prediction. *)
Lemma load_or_train_idempotent_witness :
  round_trip unit /\
  Risk.load_or_train (Risk.load_or_train Stub.risk_model)
    = Risk.load_or_train Stub.risk_model /\
  Churn.load_or_train (Churn.load_or_train Stub.churn_model)
    = Churn.load_or_train Stub.churn_model /\
  Anomaly.load_or_train (Anomaly.load_or_train Stub.anomaly_model)
    = Anomaly.load_or_train Stub.anomaly_model /\
  fit_calls (Risk.load_or_train (Risk.load_or_train Stub.risk_model)) = 1%nat /\
  dump_calls (Risk.load_or_train (Risk.load_or_train Stub.risk_model)) = 1%nat /\
  Risk.load_or_train
    (snd (Risk.predict Stub.risk_model (Array2 8 [[1; 2; 3; 4; 5; 6; 7; 8]])))
  = snd (Risk.predict Stub.risk_model (Array2 8 [[1; 2; 3; 4; 5; 6; 7; 8]])).
Proof.
  pose proof (load_or_train_idempotent
                (Er := unit) (Ec := unit) (Ea := unit)
                stub_round_trip stub_round_trip stub_round_trip)
    as ((Hr & _) & (Hc & _) & (Ha & _)).
  split; [exact stub_round_trip|].
  split; [exact (proj2 Hr Stub.risk_model)|].
  split; [exact (proj2 Hc Stub.churn_model)|].
  split; [exact (proj2 Ha Stub.anomaly_model)|].
  split; [reflexivity|]. split; [reflexivity|].
  apply (proj1 Hr).
  - apply Risk.reach_predict, Risk.reach_init.
  - reflexivity.
Defined.

(** ** Arity *)

(** C4. On a batch whose rows have a length other than the wrapper's arity
    (8 for risk, 4 for churn, 3 for anomaly), [predict] raises the arity
    error, a [ValueError] whose message names the expected and the actual
    length; the wrapper has been made ready before the check. *)
Theorem predict_wrong_arity
    {Er : Type} {Jr : Joblib Er} {Cr : Risk.Classifier Er}
    {Ec : Type} {Jc : Joblib Ec} {Cc : Churn.Regressor Ec}
    {Ea : Type} {Ja : Joblib Ea} {Ca : Anomaly.Forest Ea}
    (wr : world (Risk.RiskModel Er)) (wc : world (Churn.ChurnModel Ec))
    (wa : world (Anomaly.AnomalyModel Ea))
    (ncols : nat) (rows : list (list Q)) :
  (ncols <> 8%nat ->
   Risk.predict wr (Array2 ncols rows)
   = (Raise (ValueError ("Expected 8 features, got " ++ str_nat ncols)),
      Risk.ensure_trained wr)) /\
  (ncols <> 4%nat ->
   Churn.predict wc (Array2 ncols rows)
   = (Raise (ValueError ("Expected 4 features, got " ++ str_nat ncols)),
      Churn.ensure_trained wc)) /\
  (ncols <> 3%nat ->
   Anomaly.predict wa (Array2 ncols rows)
   = (Raise (ValueError ("Expected 3 features, got " ++ str_nat ncols)),
      Anomaly.ensure_trained wa)).
Proof.
  repeat split; intro Hn;
    apply Nat.eqb_neq in Hn;
    unfold Risk.predict, Churn.predict, Anomaly.predict;
    cbn [shape1 bind]; rewrite Hn; reflexivity.
Qed.

(** Seven values per row: wrong for each of the three wrappers. *)
Lemma predict_wrong_arity_witness :
  Risk.predict Stub.risk_model (Array2 7 [[1; 2; 3; 4; 5; 6; 7]])
  = (Raise (ValueError "Expected 8 features, got 7"),
     Risk.ensure_trained Stub.risk_model) /\
  Churn.predict Stub.churn_model (Array2 7 [[1; 2; 3; 4; 5; 6; 7]])
  = (Raise (ValueError "Expected 4 features, got 7"),
     Churn.ensure_trained Stub.churn_model) /\
  Anomaly.predict Stub.anomaly_model (Array2 7 [[1; 2; 3; 4; 5; 6; 7]])
  = (Raise (ValueError "Expected 3 features, got 7"),
     Anomaly.ensure_trained Stub.anomaly_model).
Proof.
  pose proof (predict_wrong_arity Stub.risk_model Stub.churn_model
                Stub.anomaly_model 7 [[1; 2; 3; 4; 5; 6; 7]])
    as (Hr & Hc & Ha).
  split; [exact (Hr ltac:(discriminate))|].
  split; [exact (Hc ltac:(discriminate))|].
  exact (Ha ltac:(discriminate)).
Defined.

(** ** Rounding *)

Lemma round_half_even_mono (x y : Q) :
  x <= y -> (round_half_even x <= round_half_even y)%Z.
Proof.
  intro Hxy. unfold round_half_even.
  pose proof (Qfloor_le x) as Hx1. pose proof (Qlt_floor x) as Hx2.
  pose proof (Qfloor_le y) as Hy1. pose proof (Qlt_floor y) as Hy2.
  pose proof (Qfloor_resp_le x y Hxy) as Hf.
  remember (Qfloor x) as fx. remember (Qfloor y) as fy.
  rewrite inject_Z_plus in Hx2, Hy2.
  destruct (Z.eq_dec fx fy) as [Heq|Hne].
  - clear Heqfx Heqfy. subst fy.
    case_cmp (Qltb (x - inject_Z fx) (1 # 2));
      [|case_cmp (Qltb (1 # 2) (x - inject_Z fx))];
      (case_cmp (Qltb (y - inject_Z fx) (1 # 2));
       [|case_cmp (Qltb (1 # 2) (y - inject_Z fx))]);
      destruct (Z.even fx); try lia; exfalso; qlra.
  - assert (Hlt : (fx + 1 <= fy)%Z) by lia.
    destruct (Qltb (x - inject_Z fx) (1 # 2)), (Qltb (1 # 2) (x - inject_Z fx)),
      (Qltb (y - inject_Z fy) (1 # 2)), (Qltb (1 # 2) (y - inject_Z fy)),
      (Z.even fx), (Z.even fy); lia.
Qed.

Lemma py_round2_mono (x y : Q) : x <= y -> py_round2 x <= py_round2 y.
Proof.
  intro Hxy. unfold py_round2.
  assert (H : x * 100 <= y * 100) by qlra.
  apply round_half_even_mono in H. rewrite Zle_Qle in H.
  unfold Qdiv. apply Qmult_le_compat_r; [exact H | discriminate].
Qed.

(** ** Sums *)

Lemma fold_left_Qplus_acc (l : list Q) (a : Q) :
  fold_left Qplus l a == a + fold_left Qplus l 0.
Proof.
  revert a. induction l as [|x l IH]; intro a; simpl.
  - ring.
  - rewrite (IH (a + x)), (IH (0 + x)). ring.
Qed.

Lemma py_sum_cons (x : Q) (l : list Q) : py_sum (x :: l) == x + py_sum l.
Proof.
  unfold py_sum. simpl. rewrite fold_left_Qplus_acc. ring.
Qed.

Lemma py_sum_scaled (f : Risk.impact -> Q) (d : Q) (l : list Risk.impact) :
  py_sum (map (fun item => f item / d) l) == py_sum (map f l) / d.
Proof.
  induction l as [|x l IH]; simpl.
  - unfold py_sum; simpl. unfold Qdiv. ring.
  - rewrite !py_sum_cons, IH. unfold Qdiv. ring.
Qed.

Lemma py_sum_perm (l l' : list Q) : Permutation l l' -> py_sum l == py_sum l'.
Proof.
  induction 1 as [|x l l' _ IH|x y l|l l' l'' _ IH1 _ IH2].
  - reflexivity.
  - rewrite !py_sum_cons, IH. reflexivity.
  - rewrite !py_sum_cons. ring.
  - rewrite IH1. exact IH2.
Qed.

(** ** The ranking of the impacts *)

Section Ranking.

Import Risk.

Lemma insert_desc_perm (x : impact) (l : list impact) :
  Permutation (insert_desc x l) (x :: l).
Proof.
  induction l as [|y ys IH]; simpl.
  - apply Permutation_refl.
  - destruct (Qltb (impact_weight x) (impact_weight y)).
    + apply perm_trans with (y :: x :: ys).
      * apply perm_skip, IH.
      * apply perm_swap.
    + apply Permutation_refl.
Qed.

Lemma sort_desc_perm (l : list impact) : Permutation (sort_desc l) l.
Proof.
  induction l as [|x l IH]; simpl.
  - apply perm_nil.
  - apply perm_trans with (x :: sort_desc l).
    + apply insert_desc_perm.
    + apply perm_skip, IH.
Qed.

Lemma insert_desc_sorted (x : impact) (l : list impact) :
  StronglySorted desc l -> StronglySorted desc (insert_desc x l).
Proof.
  induction 1 as [|y ys Hs IH Hall]; simpl.
  - constructor; constructor.
  - case_cmp (Qltb (impact_weight x) (impact_weight y)).
    + constructor; [exact IH|].
      apply Permutation_Forall with (x :: ys).
      * apply Permutation_sym, insert_desc_perm.
      * constructor; [unfold desc; qlra | exact Hall].
    + constructor; [constructor; assumption|].
      constructor; [exact E|].
      apply Forall_impl with (2 := Hall).
      unfold desc. intros a Ha. qlra.
Qed.

Lemma sort_desc_sorted (l : list impact) : StronglySorted desc (sort_desc l).
Proof.
  induction l as [|x l IH]; simpl.
  - constructor.
  - apply insert_desc_sorted, IH.
Qed.

Lemma Forall_firstn_of {A : Type} (P : A -> Prop) (n : nat) (l : list A) :
  Forall P l -> Forall P (firstn n l).
Proof.
  revert n. induction l as [|x l IH]; intros [|n] H; simpl; try constructor.
  - inversion H; assumption.
  - apply IH. inversion H; assumption.
Qed.

Lemma firstn_sorted (n : nat) (l : list impact) :
  StronglySorted desc l -> StronglySorted desc (firstn n l).
Proof.
  revert n. induction l as [|x l IH]; intros [|n] H; simpl; try constructor.
  - apply IH. inversion H; assumption.
  - apply Forall_firstn_of. inversion H; assumption.
Qed.

Lemma map_sorted (f : impact -> impact) (l : list impact) :
  (forall a b, desc a b -> desc (f a) (f b)) ->
  StronglySorted desc l -> StronglySorted desc (map f l).
Proof.
  intros Hf. induction 1 as [|x l Hs IH Hall]; simpl; constructor.
  - exact IH.
  - rewrite Forall_map. apply Forall_impl with (2 := Hall).
    intros a Ha. apply Hf, Ha.
Qed.

Lemma normalize_sorted (l : list impact) :
  StronglySorted desc l -> StronglySorted desc (normalize l).
Proof.
  intro Hs. unfold normalize.
  case_cmp (Qgtb (py_sum (map impact_weight l)) 0); [|exact Hs].
  apply map_sorted; [|exact Hs].
  intros a b Hab. unfold desc in *. cbn.
  apply py_round2_mono.
  unfold Qdiv. apply Qmult_le_compat_r; [exact Hab|].
  apply Qlt_le_weak, Qinv_lt_0_compat, E.
Qed.

Lemma firstn_length_le3 {A : Type} (l : list A) : (List.length (firstn 3 l) <= 3)%nat.
Proof. rewrite length_firstn. apply Nat.le_min_l. Qed.

Lemma impacts_loop_weights (i : nat) (importances values : list Q)
    (impacts : list impact) :
  impacts_loop i importances values = Ok impacts ->
  Forall (fun item => impact_weight item
                      = importance item * py_min (value item / 10) 1) impacts.
Proof.
  revert i values impacts.
  induction importances as [|imp imps IH]; intros i values impacts H.
  - simpl in H. injection H as <-. constructor.
  - destruct values as [|v vals]; cbn [impacts_loop] in H.
    + injection H as <-. constructor.
    + destruct (nth_error FEATURE_NAMES i) as [name|]; [|discriminate].
      destruct (dict_get FEATURE_DESCRIPTIONS name) as [d|e];
        cbn [bind] in H; [|discriminate].
      destruct (impacts_loop (S i) imps vals) as [rest|e] eqn:Hrest;
        cbn [bind] in H; [|discriminate].
      injection H as <-.
      constructor; [reflexivity | exact (IH _ _ _ Hrest)].
Qed.

End Ranking.

(** ** Feature importance *)

(** C1, as the code has it.  The list that [get_feature_importance] returns
    has at most 3 entries and is in descending order of impact weight.  It
    is cut from the ranking of all the features, each of impact
    [importance * min(value / 10, 1)]; when the total impact is positive
    every weight is the feature's impact divided by the total impact of all
    the features, the excluded lower-ranked ones included, rounded to 2
    decimals: before rounding, the weights of the whole ranking sum to 1,
    and the returned top entries hold their share of it. *)
Theorem get_feature_importance_ranked
    {E : Type} {J : Joblib E} {C : Risk.Classifier E}
    (w w' : world (Risk.RiskModel E)) (features : ndarray)
    (top : list Risk.impact) :
  Risk.get_feature_importance w features = (Ok top, w') ->
  (List.length top <= 3)%nat /\
  StronglySorted Risk.desc top /\
  exists importances values impacts,
    Risk.feature_importances_ (self w') = Some importances /\
    Risk.feature_values features = Ok values /\
    Risk.impacts_loop 0 importances values = Ok impacts /\
    Forall (fun item => Risk.impact_weight item
              = Risk.importance item * py_min (Risk.value item / 10) 1) impacts /\
    let ranked := Risk.sort_desc impacts in
    let total_impact := py_sum (map Risk.impact_weight ranked) in
    Permutation ranked impacts /\
    total_impact == py_sum (map Risk.impact_weight impacts) /\
    (0 < total_impact ->
     top = firstn 3
             (map (fun item =>
                     Risk.set_impact_weight item
                       (py_round2 (Risk.impact_weight item / total_impact)))
                  ranked) /\
     py_sum (map (fun item => Risk.impact_weight item / total_impact) ranked) == 1) /\
    (total_impact <= 0 -> top = firstn 3 ranked).
Proof.
  unfold Risk.get_feature_importance. intro H.
  injection H as Hres Hw. subst w'.
  destruct (Risk.feature_values features) as [values|e] eqn:Hv;
    cbn [bind] in Hres; [|discriminate].
  destruct (Risk.feature_importances_ (self (Risk.ensure_trained w)))
    as [importances|] eqn:Hfi; [|discriminate].
  destruct (Risk.impacts_loop 0 importances values) as [impacts|e] eqn:Hloop;
    cbn [bind] in Hres; [|discriminate].
  injection Hres as Hres.
  change (firstn 3 (Risk.normalize (Risk.sort_desc impacts)) = top) in Hres.
  subst top.
  split; [apply firstn_length_le3|].
  split; [apply firstn_sorted, normalize_sorted, sort_desc_sorted|].
  exists importances, values, impacts.
  split; [reflexivity|]. split; [reflexivity|]. split; [exact Hloop|].
  split; [exact (impacts_loop_weights _ _ _ _ Hloop)|].
  cbv zeta.
  split; [apply sort_desc_perm|].
  split; [apply py_sum_perm, Permutation_map, sort_desc_perm|].
  split.
  - intro Hpos. split.
    + unfold Risk.normalize. apply Qgtb_gt in Hpos. rewrite Hpos. reflexivity.
    + rewrite py_sum_scaled. unfold Qdiv. apply Qmult_inv_r. intro Hz. qlra.
  - intro Hle. unfold Risk.normalize. apply Qgtb_le in Hle. rewrite Hle.
    reflexivity.
Qed.

(** Four features of equal importance and full value: the three returned
    weights are 0.25 each. *)
Lemma get_feature_importance_ranked_witness :
  exists top,
    Risk.get_feature_importance Stub.risk_model
      (Array2 8 [[10; 20; 10; 10; 0; 0; 0; 0]])
    = (Ok top, Risk.ensure_trained Stub.risk_model) /\
    (List.length top <= 3)%nat /\
    StronglySorted Risk.desc top /\
    map Risk.impact_weight top = [25 # 100; 25 # 100; 25 # 100].
Proof.
  eexists. split; [reflexivity|].
  match goal with
  | |- (List.length ?t <= 3)%nat /\ _ =>
      destruct (get_feature_importance_ranked
                  (J := Stub.joblib) (C := Stub.classifier)
                  Stub.risk_model (Risk.ensure_trained Stub.risk_model)
                  (Array2 8 [[10; 20; 10; 10; 0; 0; 0; 0]]) t eq_refl)
        as (Hlen & Hsorted & _)
  end.
  split; [exact Hlen|]. split; [exact Hsorted|].
  vm_compute. reflexivity.
Defined.

(** C1, as the spec has it, fails: with four features of impact 0.25 each
    the total impact is 1, positive, and the three returned weights are
    0.25, 0.25, 0.25: they sum to 0.75, not to 1, rounding to 2 decimals
    being exact here.  Nor are they independent of the excluded features:
    with the fourth feature at value 0 the same three features get 0.33
    each. *)
Lemma get_feature_importance_top_sum_counterexample :
  exists top top',
    fst (Risk.get_feature_importance Stub.risk_model
           (Array2 8 [[10; 20; 10; 10; 0; 0; 0; 0]])) = Ok top /\
    fst (Risk.get_feature_importance Stub.risk_model
           (Array2 8 [[10; 20; 10; 0; 0; 0; 0; 0]])) = Ok top' /\
    (exists importances impacts,
       Risk.feature_importances_ (self (Risk.ensure_trained Stub.risk_model))
         = Some importances /\
       Risk.impacts_loop 0 importances [10; 20; 10; 10; 0; 0; 0; 0]
         = Ok impacts /\
       0 < py_sum (map Risk.impact_weight (Risk.sort_desc impacts))) /\
    py_sum (map Risk.impact_weight top) == 75 # 100 /\
    ~ Qabs (py_sum (map Risk.impact_weight top) - 1) <= 1 # 10 /\
    map Risk.feature top = map Risk.feature top' /\
    map Risk.impact_weight top = [25 # 100; 25 # 100; 25 # 100] /\
    map Risk.impact_weight top' = [33 # 100; 33 # 100; 33 # 100].
Proof.
  eexists. eexists.
  split; [vm_compute; reflexivity|].
  split; [vm_compute; reflexivity|].
  split.
  { eexists. eexists. split; [reflexivity|].
    split; vm_compute; reflexivity. }
  split; [vm_compute; reflexivity|].
  split; [vm_compute; intro H; apply H; reflexivity|].
  split; [vm_compute; reflexivity|].
  split; vm_compute; reflexivity.
Qed.

(** * Further properties of the wrappers and handlers *)

(** ** A reachable wrapper is ready after the guard *)

Section RiskReady.

Import Risk.
Context {E : Type} {J : Joblib E} {C : Classifier E}.

Lemma risk_load_or_train_ready (w : world (RiskModel E)) :
  exists m, model (self (load_or_train w)) = Some m /\
            feature_importances_ (self (load_or_train w))
              = Some (feature_importances m).
Proof.
  unfold load_or_train, _train_synthetic.
  destruct (disk w) as [b|]; [destruct (joblib_load b) as [m|]|]; cbn;
    eexists; split; reflexivity.
Qed.

Lemma risk_reachable_ready (w : world (RiskModel E)) :
  reachable w -> is_trained (self w) = true ->
  exists m, model (self w) = Some m /\
            feature_importances_ (self w) = Some (feature_importances m).
Proof.
  assert (Hens : forall w,
             (is_trained (self w) = true ->
              exists m, model (self w) = Some m /\
                        feature_importances_ (self w)
                          = Some (feature_importances m)) ->
             is_trained (self (ensure_trained w)) = true ->
             exists m, model (self (ensure_trained w)) = Some m /\
                       feature_importances_ (self (ensure_trained w))
                         = Some (feature_importances m)).
  { intros w0 H0. unfold ensure_trained.
    destruct (is_trained (self w0)); [intros _; apply H0; reflexivity|].
    intros _. apply risk_load_or_train_ready. }
  induction 1 as [d | w _ _ | w f _ IH | w f _ IH | w f _ IH].
  - intro H. discriminate H.
  - intros _. apply risk_load_or_train_ready.
  - apply Hens, IH.
  - apply Hens, IH.
  - apply Hens, IH.
Qed.

Lemma risk_ensure_trained_trained (w : world (RiskModel E)) :
  is_trained (self (ensure_trained w)) = true.
Proof.
  unfold ensure_trained. destruct (is_trained (self w)) eqn:Ht; [exact Ht|].
  apply risk_load_or_train_trained.
Qed.

Lemma risk_guard_ready (w : world (RiskModel E)) :
  reachable w ->
  exists m, model (self (ensure_trained w)) = Some m /\
            feature_importances_ (self (ensure_trained w))
              = Some (feature_importances m).
Proof.
  intro Hr. unfold ensure_trained.
  destruct (is_trained (self w)) eqn:Ht.
  - exact (risk_reachable_ready w Hr Ht).
  - apply risk_load_or_train_ready.
Qed.

End RiskReady.

Section ChurnReady.

Import Churn.
Context {E : Type} {J : Joblib E} {C : Regressor E}.

Lemma churn_load_or_train_ready (w : world (ChurnModel E)) :
  exists m, model (self (load_or_train w)) = Some m.
Proof.
  unfold load_or_train, _train_synthetic.
  destruct (disk w) as [b|]; [destruct (joblib_load b) as [m|]|]; cbn;
    eexists; reflexivity.
Qed.

Lemma churn_reachable_ready (w : world (ChurnModel E)) :
  reachable w -> is_trained (self w) = true -> exists m, model (self w) = Some m.
Proof.
  assert (Hens : forall w,
             (is_trained (self w) = true -> exists m, model (self w) = Some m) ->
             is_trained (self (ensure_trained w)) = true ->
             exists m, model (self (ensure_trained w)) = Some m).
  { intros w0 H0. unfold ensure_trained.
    destruct (is_trained (self w0)); [intros _; apply H0; reflexivity|].
    intros _. apply churn_load_or_train_ready. }
  induction 1 as [d | w _ _ | w f _ IH | w f _ IH].
  - intro H. discriminate H.
  - intros _. apply churn_load_or_train_ready.
  - apply Hens, IH.
  - apply Hens, IH.
Qed.

Lemma churn_ensure_trained_trained (w : world (ChurnModel E)) :
  is_trained (self (ensure_trained w)) = true.
Proof.
  unfold ensure_trained. destruct (is_trained (self w)) eqn:Ht; [exact Ht|].
  apply churn_load_or_train_trained.
Qed.

Lemma churn_guard_ready (w : world (ChurnModel E)) :
  reachable w -> exists m, model (self (ensure_trained w)) = Some m.
Proof.
  intro Hr. unfold ensure_trained.
  destruct (is_trained (self w)) eqn:Ht.
  - exact (churn_reachable_ready w Hr Ht).
  - apply churn_load_or_train_ready.
Qed.

End ChurnReady.

Section AnomalyReady.

Import Anomaly.
Context {E : Type} {J : Joblib E} {C : Forest E}.

Lemma anomaly_load_or_train_ready (w : world (AnomalyModel E)) :
  exists m, model (self (load_or_train w)) = Some m.
Proof.
  unfold load_or_train, _train_synthetic.
  destruct (disk w) as [b|]; [destruct (joblib_load b) as [m|]|]; cbn;
    eexists; reflexivity.
Qed.

Lemma anomaly_reachable_ready (w : world (AnomalyModel E)) :
  reachable w -> is_trained (self w) = true -> exists m, model (self w) = Some m.
Proof.
  assert (Hens : forall w,
             (is_trained (self w) = true -> exists m, model (self w) = Some m) ->
             is_trained (self (ensure_trained w)) = true ->
             exists m, model (self (ensure_trained w)) = Some m).
  { intros w0 H0. unfold ensure_trained.
    destruct (is_trained (self w0)); [intros _; apply H0; reflexivity|].
    intros _. apply anomaly_load_or_train_ready. }
  induction 1 as [d | w _ _ | w f _ IH | w f _ IH | w f th _ IH].
  - intro H. discriminate H.
  - intros _. apply anomaly_load_or_train_ready.
  - apply Hens, IH.
  - cbn. rewrite (proj2 anomaly_ensure_trained_idempotent). apply Hens, IH.
  - unfold flag_anomalies. cbn. apply Hens, IH.
Qed.

Lemma anomaly_ensure_trained_trained (w : world (AnomalyModel E)) :
  is_trained (self (ensure_trained w)) = true.
Proof.
  unfold ensure_trained. destruct (is_trained (self w)) eqn:Ht; [exact Ht|].
  apply anomaly_load_or_train_trained.
Qed.

Lemma anomaly_guard_ready (w : world (AnomalyModel E)) :
  reachable w -> exists m, model (self (ensure_trained w)) = Some m.
Proof.
  intro Hr. unfold ensure_trained.
  destruct (is_trained (self w)) eqn:Ht.
  - exact (anomaly_reachable_ready w Hr Ht).
  - apply anomaly_load_or_train_ready.
Qed.

End AnomalyReady.

(** ** At most one training *)

Section RiskOnce.

Import Risk.
Context {E : Type} {J : Joblib E} {C : Classifier E}.
Hypothesis RT : round_trip E.

Lemma risk_load_or_train_once (w : world (RiskModel E)) :
  (fit_calls w = 0%nat /\ dump_calls w = 0%nat) \/
  (fit_calls w = 1%nat /\ dump_calls w = 1%nat /\
   disk w = Some (joblib_dump fit_synthetic)) ->
  (fit_calls (load_or_train w) = 0%nat /\ dump_calls (load_or_train w) = 0%nat) \/
  (fit_calls (load_or_train w) = 1%nat /\ dump_calls (load_or_train w) = 1%nat /\
   disk (load_or_train w) = Some (joblib_dump fit_synthetic)).
Proof.
  intros [[Hf Hd] | (Hf & Hd & Hdisk)]; unfold load_or_train, _train_synthetic.
  - destruct (disk w) as [b|]; [destruct (joblib_load b) as [m|]|]; cbn.
    + left. auto.
    + right. rewrite Hf, Hd. auto.
    + right. rewrite Hf, Hd. auto.
  - rewrite Hdisk, RT. cbn. right. auto.
Qed.

Lemma risk_reachable_once (w : world (RiskModel E)) :
  reachable w ->
  (fit_calls w = 0%nat /\ dump_calls w = 0%nat) \/
  (fit_calls w = 1%nat /\ dump_calls w = 1%nat /\
   disk w = Some (joblib_dump fit_synthetic)).
Proof.
  assert (Hens : forall w0 : world (RiskModel E),
             ((fit_calls w0 = 0%nat /\ dump_calls w0 = 0%nat) \/
              (fit_calls w0 = 1%nat /\ dump_calls w0 = 1%nat /\
               disk w0 = Some (joblib_dump fit_synthetic))) ->
             (fit_calls (ensure_trained w0) = 0%nat /\
              dump_calls (ensure_trained w0) = 0%nat) \/
             (fit_calls (ensure_trained w0) = 1%nat /\
              dump_calls (ensure_trained w0) = 1%nat /\
              disk (ensure_trained w0) = Some (joblib_dump fit_synthetic))).
  { intros w0 H0. unfold ensure_trained.
    destruct (is_trained (self w0)); [exact H0|].
    apply risk_load_or_train_once, H0. }
  induction 1 as [d | w _ IH | w f _ IH | w f _ IH | w f _ IH].
  - left. split; reflexivity.
  - apply risk_load_or_train_once, IH.
  - apply Hens, IH.
  - apply Hens, IH.
  - apply Hens, IH.
Qed.

End RiskOnce.

Section ChurnOnce.

Import Churn.
Context {E : Type} {J : Joblib E} {C : Regressor E}.
Hypothesis RT : round_trip E.

Lemma churn_load_or_train_once (w : world (ChurnModel E)) :
  (fit_calls w = 0%nat /\ dump_calls w = 0%nat) \/
  (fit_calls w = 1%nat /\ dump_calls w = 1%nat /\
   disk w = Some (joblib_dump fit_synthetic)) ->
  (fit_calls (load_or_train w) = 0%nat /\ dump_calls (load_or_train w) = 0%nat) \/
  (fit_calls (load_or_train w) = 1%nat /\ dump_calls (load_or_train w) = 1%nat /\
   disk (load_or_train w) = Some (joblib_dump fit_synthetic)).
Proof.
  intros [[Hf Hd] | (Hf & Hd & Hdisk)]; unfold load_or_train, _train_synthetic.
  - destruct (disk w) as [b|]; [destruct (joblib_load b) as [m|]|]; cbn.
    + left. auto.
    + right. rewrite Hf, Hd. auto.
    + right. rewrite Hf, Hd. auto.
  - rewrite Hdisk, RT. cbn. right. auto.
Qed.

Lemma churn_reachable_once (w : world (ChurnModel E)) :
  reachable w ->
  (fit_calls w = 0%nat /\ dump_calls w = 0%nat) \/
  (fit_calls w = 1%nat /\ dump_calls w = 1%nat /\
   disk w = Some (joblib_dump fit_synthetic)).
Proof.
  assert (Hens : forall w0 : world (ChurnModel E),
             ((fit_calls w0 = 0%nat /\ dump_calls w0 = 0%nat) \/
              (fit_calls w0 = 1%nat /\ dump_calls w0 = 1%nat /\
               disk w0 = Some (joblib_dump fit_synthetic))) ->
             (fit_calls (ensure_trained w0) = 0%nat /\
              dump_calls (ensure_trained w0) = 0%nat) \/
             (fit_calls (ensure_trained w0) = 1%nat /\
              dump_calls (ensure_trained w0) = 1%nat /\
              disk (ensure_trained w0) = Some (joblib_dump fit_synthetic))).
  { intros w0 H0. unfold ensure_trained.
    destruct (is_trained (self w0)); [exact H0|].
    apply churn_load_or_train_once, H0. }
  induction 1 as [d | w _ IH | w f _ IH | w f _ IH].
  - left. split; reflexivity.
  - apply churn_load_or_train_once, IH.
  - apply Hens, IH.
  - apply Hens, IH.
Qed.

End ChurnOnce.

Section AnomalyOnce.

Import Anomaly.
Context {E : Type} {J : Joblib E} {C : Forest E}.
Hypothesis RT : round_trip E.

Lemma anomaly_load_or_train_once (w : world (AnomalyModel E)) :
  (fit_calls w = 0%nat /\ dump_calls w = 0%nat) \/
  (fit_calls w = 1%nat /\ dump_calls w = 1%nat /\
   disk w = Some (joblib_dump fit_synthetic)) ->
  (fit_calls (load_or_train w) = 0%nat /\ dump_calls (load_or_train w) = 0%nat) \/
  (fit_calls (load_or_train w) = 1%nat /\ dump_calls (load_or_train w) = 1%nat /\
   disk (load_or_train w) = Some (joblib_dump fit_synthetic)).
Proof.
  intros [[Hf Hd] | (Hf & Hd & Hdisk)]; unfold load_or_train, _train_synthetic.
  - destruct (disk w) as [b|]; [destruct (joblib_load b) as [m|]|]; cbn.
    + left. auto.
    + right. rewrite Hf, Hd. auto.
    + right. rewrite Hf, Hd. auto.
  - rewrite Hdisk, RT. cbn. right. auto.
Qed.

Lemma anomaly_reachable_once (w : world (AnomalyModel E)) :
  reachable w ->
  (fit_calls w = 0%nat /\ dump_calls w = 0%nat) \/
  (fit_calls w = 1%nat /\ dump_calls w = 1%nat /\
   disk w = Some (joblib_dump fit_synthetic)).
Proof.
  assert (Hens : forall w0 : world (AnomalyModel E),
             ((fit_calls w0 = 0%nat /\ dump_calls w0 = 0%nat) \/
              (fit_calls w0 = 1%nat /\ dump_calls w0 = 1%nat /\
               disk w0 = Some (joblib_dump fit_synthetic))) ->
             (fit_calls (ensure_trained w0) = 0%nat /\
              dump_calls (ensure_trained w0) = 0%nat) \/
             (fit_calls (ensure_trained w0) = 1%nat /\
              dump_calls (ensure_trained w0) = 1%nat /\
              disk (ensure_trained w0) = Some (joblib_dump fit_synthetic))).
  { intros w0 H0. unfold ensure_trained.
    destruct (is_trained (self w0)); [exact H0|].
    apply anomaly_load_or_train_once, H0. }
  induction 1 as [d | w _ IH | w f _ IH | w f _ IH | w f th _ IH].
  - left. split; reflexivity.
  - apply anomaly_load_or_train_once, IH.
  - apply Hens, IH.
  - cbn. apply Hens, Hens, IH.
  - unfold flag_anomalies. cbn. apply Hens, IH.
Qed.

End AnomalyOnce.

(** X1. A wrapper trains at most once.  With an artifact format that
    round-trips, in every state that the constructor and the methods reach
    [model.fit] has run at most once and [joblib.dump] exactly as often;
    once it has run, the artifact on disk is the dump of the synthetic
    estimator. *)
Theorem trains_at_most_once
    {Er : Type} {Jr : Joblib Er} {Cr : Risk.Classifier Er}
    {Ec : Type} {Jc : Joblib Ec} {Cc : Churn.Regressor Ec}
    {Ea : Type} {Ja : Joblib Ea} {Ca : Anomaly.Forest Ea} :
  round_trip Er -> round_trip Ec -> round_trip Ea ->
  (forall w : world (Risk.RiskModel Er), Risk.reachable w ->
     (fit_calls w <= 1)%nat /\ dump_calls w = fit_calls w /\
     (fit_calls w = 1%nat -> disk w = Some (joblib_dump Risk.fit_synthetic))) /\
  (forall w : world (Churn.ChurnModel Ec), Churn.reachable w ->
     (fit_calls w <= 1)%nat /\ dump_calls w = fit_calls w /\
     (fit_calls w = 1%nat -> disk w = Some (joblib_dump Churn.fit_synthetic))) /\
  (forall w : world (Anomaly.AnomalyModel Ea), Anomaly.reachable w ->
     (fit_calls w <= 1)%nat /\ dump_calls w = fit_calls w /\
     (fit_calls w = 1%nat -> disk w = Some (joblib_dump Anomaly.fit_synthetic))).
Proof.
  intros RTr RTc RTa.
  split; [|split]; intros w Hr.
  - destruct (risk_reachable_once RTr w Hr) as [[Hf Hd] | (Hf & Hd & Hdisk)];
      rewrite Hf, Hd; repeat split; auto; discriminate.
  - destruct (churn_reachable_once RTc w Hr) as [[Hf Hd] | (Hf & Hd & Hdisk)];
      rewrite Hf, Hd; repeat split; auto; discriminate.
  - destruct (anomaly_reachable_once RTa w Hr) as [[Hf Hd] | (Hf & Hd & Hdisk)];
      rewrite Hf, Hd; repeat split; auto; discriminate.
Qed.

(** Training endpoint, two predictions and the endpoint again, from an
    empty model directory: one training, one write. *)
Lemma trains_at_most_once_witness :
  round_trip unit /\
  let w := Risk.load_or_train
             (snd (Risk.predict
                (snd (Risk.get_feature_importance
                   (Risk.load_or_train Stub.risk_model)
                   (Array2 8 [[1; 2; 3; 4; 5; 6; 7; 8]])))
                (Array2 8 [[1; 2; 3; 4; 5; 6; 7; 8]]))) in
  Risk.reachable w /\
  (fit_calls w <= 1)%nat /\ dump_calls w = fit_calls w /\
  (fit_calls w = 1%nat -> disk w = Some (joblib_dump Risk.fit_synthetic)) /\
  fit_calls w = 1%nat.
Proof.
  split; [exact stub_round_trip|]. cbv zeta.
  assert (Hr : Risk.reachable
                 (Risk.load_or_train
                    (snd (Risk.predict
                       (snd (Risk.get_feature_importance
                          (Risk.load_or_train Stub.risk_model)
                          (Array2 8 [[1; 2; 3; 4; 5; 6; 7; 8]])))
                       (Array2 8 [[1; 2; 3; 4; 5; 6; 7; 8]]))))).
  { apply Risk.reach_load_or_train, Risk.reach_predict,
      Risk.reach_get_feature_importance, Risk.reach_load_or_train,
      Risk.reach_init. }
  split; [exact Hr|].
  destruct (trains_at_most_once (Er := unit) (Ec := unit) (Ea := unit)
              stub_round_trip stub_round_trip stub_round_trip)
    as (H & _ & _).
  destruct (H _ Hr) as (H1 & H2 & H3).
  split; [exact H1|]. split; [exact H2|]. split; [exact H3|]. reflexivity.
Defined.

(** ** Ready wrappers *)

Section RiskScores.

Import Risk.
Context {E : Type} {J : Joblib E} {C : Classifier E}.

(** The column that [predict] reads: the second of two, else the first. *)
Lemma risk_predict_scores (w : world (RiskModel E)) (rows : list (list Q))
    (m : E) :
  model (self (ensure_trained w)) = Some m ->
  predict w (Array2 8 rows)
  = (Ok (map (fun r => nth (if Nat.eqb (fst (predict_proba m rows)) 2
                            then 1 else 0)%nat r 0)
             (snd (predict_proba m rows))),
     ensure_trained w).
Proof.
  intro Hm. unfold predict, the_model.
  cbn [shape1 bind Nat.eqb negb rows_of]. rewrite Hm. cbn [bind].
  unfold column.
  destruct (Nat.eqb (fst (predict_proba m rows)) 2) eqn:Ek.
  - apply Nat.eqb_eq in Ek. rewrite Ek. reflexivity.
  - pose proof (n_classes_pos m rows) as Hpos.
    apply Nat.ltb_lt in Hpos. rewrite Hpos. reflexivity.
Qed.

End RiskScores.

(** X2. In every state that the constructor and the methods reach, the
    guard leaves the wrapper trained and holding an estimator (the risk
    wrapper its importances too), so that [predict] on a batch of the right
    arity finds what it needs: on the risk and churn wrappers it returns
    scores, the churn scores being the estimator's predictions clipped. *)
Theorem reachable_wrapper_ready
    {Er : Type} {Jr : Joblib Er} {Cr : Risk.Classifier Er}
    {Ec : Type} {Jc : Joblib Ec} {Cc : Churn.Regressor Ec}
    {Ea : Type} {Ja : Joblib Ea} {Ca : Anomaly.Forest Ea} :
  (forall (w : world (Risk.RiskModel Er)) (rows : list (list Q)),
     Risk.reachable w ->
     exists m scores,
       Risk.is_trained (self (Risk.ensure_trained w)) = true /\
       Risk.model (self (Risk.ensure_trained w)) = Some m /\
       Risk.feature_importances_ (self (Risk.ensure_trained w))
         = Some (Risk.feature_importances m) /\
       Risk.predict w (Array2 8 rows) = (Ok scores, Risk.ensure_trained w)) /\
  (forall (w : world (Churn.ChurnModel Ec)) (rows : list (list Q)),
     Churn.reachable w ->
     exists m,
       Churn.is_trained (self (Churn.ensure_trained w)) = true /\
       Churn.model (self (Churn.ensure_trained w)) = Some m /\
       Churn.predict w (Array2 4 rows)
         = (Ok (np_clip (Churn.model_predict m rows) 0 1),
            Churn.ensure_trained w)) /\
  (forall w : world (Anomaly.AnomalyModel Ea),
     Anomaly.reachable w ->
     exists m,
       Anomaly.is_trained (self (Anomaly.ensure_trained w)) = true /\
       Anomaly.model (self (Anomaly.ensure_trained w)) = Some m).
Proof.
  split; [|split].
  - intros w rows Hr.
    destruct (risk_guard_ready w Hr) as (m & Hm & Hfi).
    exists m. eexists.
    split; [apply risk_ensure_trained_trained|].
    split; [exact Hm|]. split; [exact Hfi|].
    exact (risk_predict_scores w rows m Hm).
  - intros w rows Hr.
    destruct (churn_guard_ready w Hr) as (m & Hm).
    exists m. split; [apply churn_ensure_trained_trained|].
    split; [exact Hm|].
    unfold Churn.predict, Churn.the_model. cbn [shape1 bind Nat.eqb negb].
    rewrite Hm. reflexivity.
  - intros w Hr.
    destruct (anomaly_guard_ready w Hr) as (m & Hm).
    exists m. split; [apply anomaly_ensure_trained_trained | exact Hm].
Qed.

(** After the training endpoint, the stub wrappers are ready. *)
Lemma reachable_wrapper_ready_witness :
  Risk.reachable (Risk.load_or_train Stub.risk_model) /\
  Churn.reachable Stub.churn_model /\
  (exists scores,
     Risk.predict (Risk.load_or_train Stub.risk_model)
                  (Array2 8 [[1; 2; 3; 4; 5; 6; 7; 8]])
     = (Ok scores, Risk.ensure_trained (Risk.load_or_train Stub.risk_model))) /\
  (exists m,
     Churn.predict Stub.churn_model (Array2 4 [[1; 2; 3; 4]])
     = (Ok (np_clip (Churn.model_predict m [[1; 2; 3; 4]]) 0 1),
        Churn.ensure_trained Stub.churn_model)).
Proof.
  assert (Hr : Risk.reachable (Risk.load_or_train Stub.risk_model))
    by apply Risk.reach_load_or_train, Risk.reach_init.
  assert (Hc : Churn.reachable Stub.churn_model) by apply Churn.reach_init.
  split; [exact Hr|]. split; [exact Hc|].
  destruct (reachable_wrapper_ready
              (Jr := Stub.joblib) (Cr := Stub.classifier)
              (Jc := Stub.joblib) (Cc := Stub.regressor)
              (Ja := Stub.joblib) (Ca := Stub.forest)) as (H1 & H2 & _).
  split.
  - destruct (H1 _ [[1; 2; 3; 4; 5; 6; 7; 8]] Hr) as (m & scores & _ & _ & _ & Hp).
    exists scores. exact Hp.
  - destruct (H2 _ [[1; 2; 3; 4]] Hc) as (m & _ & _ & Hp).
    exists m. exact Hp.
Defined.

(** ** The range and the order of the anomaly scores *)

Section AnomalyRange.

Import Anomaly.

Lemma py_min_le_r (a b : Q) : py_min a b <= b.
Proof. unfold py_min. case_cmp (Qltb b a); qlra. Qed.

Lemma py_max_ge_r (a b : Q) : b <= py_max a b.
Proof. unfold py_max. case_cmp (Qltb a b); qlra. Qed.

Lemma fold_min_lower (rest : list Q) (x : Q) :
  Forall (fun y => fold_left py_min rest x <= y) (x :: rest).
Proof.
  constructor; [apply fold_min_le|].
  revert x. induction rest as [|y rest IH]; intro x; simpl; constructor.
  - pose proof (fold_min_le rest (py_min x y)). pose proof (py_min_le_r x y). qlra.
  - apply IH.
Qed.

Lemma fold_max_upper (rest : list Q) (x : Q) :
  Forall (fun y => y <= fold_left py_max rest x) (x :: rest).
Proof.
  constructor; [apply fold_max_ge|].
  revert x. induction rest as [|y rest IH]; intro x; simpl; constructor.
  - pose proof (fold_max_ge rest (py_max x y)). pose proof (py_max_ge_r x y). qlra.
  - apply IH.
Qed.

Lemma fold_min_attained (rest : list Q) (x : Q) :
  In (fold_left py_min rest x) (x :: rest).
Proof.
  revert x. induction rest as [|y rest IH]; intro x; simpl.
  - left. reflexivity.
  - destruct (IH (py_min x y)) as [H|H].
    + destruct (py_min_cases x y) as [Hc|Hc]; [left | right; left]; congruence.
    + right. right. exact H.
Qed.

(** The score that [predict] gives to the raw score [r] of a batch of
    minimum [lo] and maximum [hi]. *)
Lemma score_range (lo hi r : Q) :
  lo <= r -> r <= hi -> 0 < 1 - (r - lo) / (hi - lo + epsilon) /\
                        1 - (r - lo) / (hi - lo + epsilon) <= 1.
Proof.
  intros Hlo Hhi. pose proof epsilon_pos as He.
  assert (Hd : 0 < hi - lo + epsilon) by qlra.
  assert (H1 : (r - lo) / (hi - lo + epsilon) < 1).
  { apply Qlt_shift_div_r; [exact Hd | qlra]. }
  assert (H2 : 0 <= (r - lo) / (hi - lo + epsilon)).
  { apply Qle_shift_div_l; [exact Hd | qlra]. }
  split; qlra.
Qed.

Lemma score_antitone (lo d r r' : Q) :
  0 < d -> r <= r' -> 1 - (r' - lo) / d <= 1 - (r - lo) / d.
Proof.
  intros Hd Hr.
  assert (H : (r - lo) / d <= (r' - lo) / d).
  { unfold Qdiv. apply Qmult_le_compat_r; [qlra|].
    apply Qlt_le_weak, Qinv_lt_0_compat, Hd. }
  qlra.
Qed.

Context {E : Type} {J : Joblib E} {C : Forest E}.

(** [predict] on a batch of three columns with a first raw score [x]. *)
Lemma predict_scores (w : world (AnomalyModel E)) (rows : list (list Q))
    (m : E) (x : Q) (rest : list Q) :
  model (self (ensure_trained w)) = Some m ->
  decision_function m rows = (x :: rest)%list ->
  predict w (Array2 3 rows)
  = (Ok (map (fun r => 1 - (r - fold_left py_min rest x)
                         / (fold_left py_max rest x - fold_left py_min rest x
                            + epsilon))
             (x :: rest)),
     ensure_trained w).
Proof.
  intros Hm Hraw.
  unfold predict. cbn [shape1 bind Nat.eqb negb rows_of].
  unfold the_model. rewrite Hm. cbn [bind]. rewrite Hraw.
  rewrite normalize_scores_defined. cbn [bind].
  rewrite !map_map. reflexivity.
Qed.

End AnomalyRange.

(** The scores of [predict] on a non-empty batch: their number, their
    range and the score of a lowest raw score. *)
Lemma predict_scores_range
    {E : Type} {J : Joblib E} {C : Anomaly.Forest E}
    (w : world (Anomaly.AnomalyModel E)) (rows : list (list Q)) (m : E) :
  Anomaly.model (self (Anomaly.ensure_trained w)) = Some m ->
  Anomaly.decision_function m rows <> [] ->
  exists anomaly_scores,
    Anomaly.predict w (Array2 3 rows)
      = (Ok anomaly_scores, Anomaly.ensure_trained w) /\
    List.length anomaly_scores
      = List.length (Anomaly.decision_function m rows) /\
    Forall (fun s => 0 < s /\ s <= 1) anomaly_scores /\
    Exists (fun s => s == 1) anomaly_scores.
Proof.
  intros Hm Hne.
  destruct (Anomaly.decision_function m rows) as [|x rest] eqn:Hraw;
    [contradiction|].
  eexists. split; [exact (predict_scores w rows m x rest Hm Hraw)|].
  split; [apply length_map|]. split.
  - rewrite Forall_map. apply Forall_forall. intros r Hr.
    apply score_range.
    + exact (proj1 (Forall_forall _ _) (fold_min_lower rest x) r Hr).
    + exact (proj1 (Forall_forall _ _) (fold_max_upper rest x) r Hr).
  - apply Exists_exists.
    exists (1 - (fold_left py_min rest x - fold_left py_min rest x)
                / (fold_left py_max rest x - fold_left py_min rest x
                   + Anomaly.epsilon)).
    split.
    + apply (in_map (fun r => 1 - (r - fold_left py_min rest x)
                               / (fold_left py_max rest x
                                  - fold_left py_min rest x + Anomaly.epsilon))).
      apply fold_min_attained.
    + assert (Hz : fold_left py_min rest x - fold_left py_min rest x == 0) by ring.
      rewrite Hz. unfold Qdiv. ring.
Qed.


Lemma score_is_1 (lo d r : Q) :
  0 < d -> (1 - (r - lo) / d == 1 <-> r == lo).
Proof.
  intro Hd. split; intro H.
  - assert (Hz : (r - lo) / d == 0) by qlra.
    assert (Hm : d * ((r - lo) / d) == r - lo)
      by (apply Qmult_div_r; intro Hd0; qlra).
    rewrite Hz in Hm. qlra.
  - assert (Hz : r - lo == 0) by qlra.
    rewrite Hz. unfold Qdiv. ring.
Qed.

Lemma Forall2_map_pointwise {A B : Type} (P : A -> B -> Prop) (f : A -> B)
    (l : list A) :
  (forall a, In a l -> P a (f a)) -> Forall2 P l (map f l).
Proof.
  induction l as [|a l IH]; intro H; simpl; constructor.
  - apply H. left. reflexivity.
  - apply IH. intros a' Ha'. apply H. right. exact Ha'.
Qed.

(** X3. On a non-empty batch of three columns the anomaly scores of
    [predict] are one per raw score, each in the interval (0, 1]; the
    samples that get the anomaly score 1 are exactly those of lowest raw
    score, and there is one. *)
Theorem anomaly_scores_range
    {E : Type} {J : Joblib E} {C : Anomaly.Forest E}
    (w : world (Anomaly.AnomalyModel E)) (rows : list (list Q)) (m : E) :
  Anomaly.model (self (Anomaly.ensure_trained w)) = Some m ->
  Anomaly.decision_function m rows <> [] ->
  exists anomaly_scores,
    Anomaly.predict w (Array2 3 rows)
      = (Ok anomaly_scores, Anomaly.ensure_trained w) /\
    List.length anomaly_scores
      = List.length (Anomaly.decision_function m rows) /\
    Forall (fun s => 0 < s /\ s <= 1) anomaly_scores /\
    Forall2 (fun r s =>
               s == 1 <->
               forall r', In r' (Anomaly.decision_function m rows) -> r <= r')
            (Anomaly.decision_function m rows) anomaly_scores /\
    Exists (fun s => s == 1) anomaly_scores.
Proof.
  intros Hm Hne.
  destruct (Anomaly.decision_function m rows) as [|x rest] eqn:Hraw;
    [contradiction|].
  pose proof (fold_min_le rest x) as H1. pose proof (fold_max_ge rest x) as H2.
  pose proof epsilon_pos as He.
  pose proof (proj1 (Forall_forall _ _) (fold_min_lower rest x)) as Hlow.
  pose proof (proj1 (Forall_forall _ _) (fold_max_upper rest x)) as Hupp.
  pose proof (fold_min_attained rest x) as Hatt.
  assert (Hd : 0 < fold_left py_max rest x - fold_left py_min rest x
                  + Anomaly.epsilon) by qlra.
  exists (map (fun r => 1 - (r - fold_left py_min rest x)
                        / (fold_left py_max rest x - fold_left py_min rest x
                           + Anomaly.epsilon))
              (x :: rest)).
  split; [exact (predict_scores w rows m x rest Hm Hraw)|].
  split; [apply length_map|].
  split; [|split].
  - rewrite Forall_map. apply Forall_forall. intros r Hr.
    apply score_range; [apply Hlow | apply Hupp]; exact Hr.
  - apply (Forall2_map_pointwise
             (fun r s => s == 1 <-> forall r', In r' (x :: rest) -> r <= r')).
    intros r Hr. cbv beta. rewrite (score_is_1 _ _ r Hd).
    split.
    + intros Heq r' Hr'. specialize (Hlow r' Hr'). cbv beta in Hlow. qlra.
    + intro Hmin. specialize (Hmin _ Hatt). specialize (Hlow r Hr).
      cbv beta in Hlow. qlra.
  - apply Exists_exists.
    exists (1 - (fold_left py_min rest x - fold_left py_min rest x)
                / (fold_left py_max rest x - fold_left py_min rest x
                   + Anomaly.epsilon)).
    split.
    + apply (in_map (fun r => 1 - (r - fold_left py_min rest x)
                               / (fold_left py_max rest x
                                  - fold_left py_min rest x + Anomaly.epsilon))).
      exact Hatt.
    + apply (score_is_1 _ _ _ Hd). reflexivity.
Qed.

(** Two contributors whose raw scores are 50 and 5: the second gets 1, the
    first does not. *)
Lemma anomaly_scores_range_witness :
  exists anomaly_scores,
    Anomaly.predict Probe.anomaly_model
      (Array2 3 [[50; 40; 1 # 10]; [5; 200; 8 # 10]])
      = (Ok anomaly_scores, Anomaly.ensure_trained Probe.anomaly_model) /\
    List.length anomaly_scores = 2%nat /\
    Forall (fun s => 0 < s /\ s <= 1) anomaly_scores /\
    Forall2 (fun r s => s == 1 <-> forall r', In r' [50; 5] -> r <= r')
            [50; 5] anomaly_scores /\
    Exists (fun s => s == 1) anomaly_scores.
Proof.
  refine (anomaly_scores_range (J := Probe.joblib) (C := Probe.forest)
            Probe.anomaly_model [[50; 40; 1 # 10]; [5; 200; 8 # 10]] true
            eq_refl _).
  discriminate.
Defined.

(** X4. [predict] reverses the order of the raw scores: of two samples of
    a batch, the one with the lower raw decision score gets the higher (or
    an equal) anomaly score. *)
Theorem anomaly_scores_reverse_order
    {E : Type} {J : Joblib E} {C : Anomaly.Forest E}
    (w w' : world (Anomaly.AnomalyModel E)) (rows : list (list Q)) (m : E)
    (anomaly_scores : list Q) (i j : nat) (ri rj : Q) :
  Anomaly.model (self (Anomaly.ensure_trained w)) = Some m ->
  Anomaly.predict w (Array2 3 rows) = (Ok anomaly_scores, w') ->
  nth_error (Anomaly.decision_function m rows) i = Some ri ->
  nth_error (Anomaly.decision_function m rows) j = Some rj ->
  ri <= rj ->
  exists si sj,
    nth_error anomaly_scores i = Some si /\
    nth_error anomaly_scores j = Some sj /\
    sj <= si.
Proof.
  intros Hm Hp Hi Hj Hle.
  destruct (Anomaly.decision_function m rows) as [|x rest] eqn:Hraw.
  { destruct i; discriminate Hi. }
  rewrite (predict_scores w rows m x rest Hm Hraw) in Hp.
  injection Hp as Hs _. subst anomaly_scores.
  set (f := fun r => 1 - (r - fold_left py_min rest x)
                       / (fold_left py_max rest x - fold_left py_min rest x
                          + Anomaly.epsilon)).
  exists (f ri), (f rj).
  split; [exact (map_nth_error f i (x :: rest) Hi)|].
  split; [exact (map_nth_error f j (x :: rest) Hj)|].
  unfold f. apply score_antitone; [|exact Hle].
  pose proof (fold_min_le rest x). pose proof (fold_max_ge rest x).
  pose proof epsilon_pos. qlra.
Qed.

(** The contributor of raw score 5 against the one of raw score 50. *)
Lemma anomaly_scores_reverse_order_witness :
  exists anomaly_scores si sj,
    Anomaly.predict Probe.anomaly_model
      (Array2 3 [[50; 40; 1 # 10]; [5; 200; 8 # 10]])
      = (Ok anomaly_scores, Anomaly.ensure_trained Probe.anomaly_model) /\
    nth_error anomaly_scores 1 = Some si /\
    nth_error anomaly_scores 0 = Some sj /\
    sj <= si.
Proof.
  assert (Hp : { s | Anomaly.predict Probe.anomaly_model
                       (Array2 3 [[50; 40; 1 # 10]; [5; 200; 8 # 10]])
                     = (Ok s, Anomaly.ensure_trained Probe.anomaly_model) }).
  { eexists. vm_compute. reflexivity. }
  destruct Hp as [s Hp]. exists s.
  destruct (anomaly_scores_reverse_order
              (J := Probe.joblib) (C := Probe.forest)
              Probe.anomaly_model (Anomaly.ensure_trained Probe.anomaly_model)
              [[50; 40; 1 # 10]; [5; 200; 8 # 10]] true s 1 0 5 50
              eq_refl Hp eq_refl eq_refl)
    as (si & sj & Hi & Hj & Hle).
  - discriminate.
  - exists si, sj. split; [exact Hp|]. split; [exact Hi|]. split; [exact Hj|].
    exact Hle.
Defined.

(** ** The flagged contributors *)

Lemma flag_loop_spec (anomaly_scores : list Q) (i : nat) (f : Main.Flagged) :
  In f (Main.flag_loop i anomaly_scores) <->
  exists k, Main.index f = (i + k)%nat /\
            nth_error anomaly_scores k = Some (Main.anomaly_score f) /\
            5 # 10 < Main.anomaly_score f /\
            Main.flag f = "Unusual activity pattern"%string.
Proof.
  revert i. induction anomaly_scores as [|s rest IH]; intro i; simpl.
  - split; [contradiction|]. intros (k & _ & Hk & _). destruct k; discriminate.
  - case_cmp (Qgtb s (5 # 10)); simpl; rewrite IH; split.
    + intros [<- | (k & Hi & Hk & Hs & Hf)].
      * exists 0%nat. simpl. rewrite Nat.add_0_r. auto.
      * exists (S k). simpl. rewrite Hi. split; [lia | auto].
    + intros ([|k] & Hi & Hk & Hs & Hf); simpl in Hk.
      * left. injection Hk as Hk. destruct f as [fi fs ff]. simpl in *.
        rewrite Nat.add_0_r in Hi. subst. reflexivity.
      * right. exists k. split; [lia | auto].
    + intros (k & Hi & Hk & Hs & Hf).
      exists (S k). simpl. split; [lia | auto].
    + intros ([|k] & Hi & Hk & Hs & Hf); simpl in Hk.
      * injection Hk as Hk. rewrite <- Hk in Hs. exfalso. qlra.
      * exists k. split; [lia | auto].
Qed.

Lemma flag_loop_sorted (anomaly_scores : list Q) (i : nat) :
  Forall (fun n => i <= n)%nat (map Main.index (Main.flag_loop i anomaly_scores)) /\
  StronglySorted lt (map Main.index (Main.flag_loop i anomaly_scores)).
Proof.
  revert i. induction anomaly_scores as [|s rest IH]; intro i; simpl.
  - split; constructor.
  - destruct (IH (S i)) as [Hge Hs].
    destruct (Qgtb s (5 # 10)); simpl.
    + split.
      * constructor; [lia|]. apply Forall_impl with (2 := Hge). intros; lia.
      * constructor; [exact Hs|]. apply Forall_impl with (2 := Hge). intros; lia.
    + split; [|exact Hs]. apply Forall_impl with (2 := Hge). intros; lia.
Qed.

Lemma flag_loop_nonempty (anomaly_scores : list Q) (i : nat) :
  Exists (fun s => 5 # 10 < s) anomaly_scores ->
  Main.flag_loop i anomaly_scores <> [].
Proof.
  intro H. revert i. induction H as [s rest Hs | s rest _ IH]; intro i; simpl.
  - apply Qgtb_gt in Hs. rewrite Hs. discriminate.
  - destruct (Qgtb s (5 # 10)); [discriminate | apply IH].
Qed.

(** X5. Whatever [detect_anomalies] answers, the flagged contributors are
    exactly the positions of [anomaly_scores] whose score exceeds 0.5, each
    with its score and the flag "Unusual activity pattern", listed by
    increasing index; 0.5 itself is not flagged. *)
Theorem detect_anomalies_flags_above_half
    {E : Type} {J : Joblib E} {C : Anomaly.Forest E}
    (anomaly_model anomaly_model' : world (Anomaly.AnomalyModel E))
    (request : Main.AnomalyRequest) (response : Main.AnomalyResponse) :
  Main.detect_anomalies anomaly_model request
    = (Main.Response response, anomaly_model') ->
  Main.model_used response = "IsolationForest"%string /\
  (forall f, In f (Main.flagged_contributors response) <->
             nth_error (Main.anomaly_scores response) (Main.index f)
               = Some (Main.anomaly_score f) /\
             5 # 10 < Main.anomaly_score f /\
             Main.flag f = "Unusual activity pattern"%string) /\
  StronglySorted lt (map Main.index (Main.flagged_contributors response)).
Proof.
  unfold Main.detect_anomalies. intro H.
  assert (Hr : response = Main.mkAnomalyResponse
                            (Main.anomaly_scores response)
                            (Main.flag_loop 0 (Main.anomaly_scores response))
                            "IsolationForest").
  { destruct (match Main.features request with Some fs => fs | None => [] end)
      as [|f0 fs].
    - injection H as <- _. reflexivity.
    - destruct (Anomaly.predict anomaly_model
                  (Array2 3 (Main.feature_rows (f0 :: fs)))) as [[scores|e] w1];
        cbn in H; [|discriminate].
      injection H as <- _. reflexivity. }
  rewrite Hr. cbn [Main.model_used Main.flagged_contributors Main.anomaly_scores].
  split; [reflexivity|]. split.
  - intro f. rewrite flag_loop_spec. split.
    + intros (k & Hi & Hk & Hs & Hf). simpl in Hi. subst k. auto.
    + intros (Hk & Hs & Hf). exists (Main.index f). auto.
  - apply flag_loop_sorted.
Qed.

(** Raw scores 50 and 5: the second contributor alone is flagged. *)
Lemma detect_anomalies_flags_above_half_witness :
  exists response,
    Main.detect_anomalies Probe.anomaly_model
      (Main.mkAnomalyRequest
         (Some [Main.mkContributorDict (Some 50) (Some 40) (Some (1 # 10));
                Main.mkContributorDict (Some 5) (Some 200) (Some (8 # 10))]))
    = (Main.Response response, Anomaly.ensure_trained Probe.anomaly_model) /\
    map Main.index (Main.flagged_contributors response) = [1%nat] /\
    Main.model_used response = "IsolationForest"%string /\
    StronglySorted lt (map Main.index (Main.flagged_contributors response)).
Proof.
  assert (Hd : { r | Main.detect_anomalies Probe.anomaly_model
                       (Main.mkAnomalyRequest
                          (Some [Main.mkContributorDict (Some 50) (Some 40)
                                   (Some (1 # 10));
                                 Main.mkContributorDict (Some 5) (Some 200)
                                   (Some (8 # 10))]))
                     = (Main.Response r,
                        Anomaly.ensure_trained Probe.anomaly_model) }).
  { eexists. vm_compute. reflexivity. }
  destruct Hd as [r Hd]. exists r.
  destruct (detect_anomalies_flags_above_half _ _ _ _ Hd) as (Hm & _ & Hs).
  split; [exact Hd|]. split; [|split; [exact Hm | exact Hs]].
  vm_compute in Hd. injection Hd as <-. reflexivity.
Defined.

(** X6. On a wrapper in a reachable state, with an isolation forest that
    returns one score per row, [detect_anomalies] answers every non-empty
    request (missing keys count as 0): one score per contributor, each in
    (0, 1], and at least one contributor flagged. *)
Theorem detect_anomalies_answers
    {E : Type} {J : Joblib E} {C : Anomaly.Forest E}
    (anomaly_model : world (Anomaly.AnomalyModel E))
    (request : Main.AnomalyRequest) (features : list Main.ContributorDict) :
  (forall m rows, List.length (Anomaly.decision_function m rows)
                  = List.length rows) ->
  Anomaly.reachable anomaly_model ->
  Main.features request = Some features ->
  features <> [] ->
  exists response,
    Main.detect_anomalies anomaly_model request
      = (Main.Response response, Anomaly.ensure_trained anomaly_model) /\
    List.length (Main.anomaly_scores response) = List.length features /\
    Forall (fun s => 0 < s /\ s <= 1) (Main.anomaly_scores response) /\
    Main.flagged_contributors response <> [].
Proof.
  intros Hlen Hreach Hreq Hne.
  destruct (anomaly_guard_ready anomaly_model Hreach) as (m & Hm).
  assert (Hraw : Anomaly.decision_function m (Main.feature_rows features) <> []).
  { intro Hnil. specialize (Hlen m (Main.feature_rows features)).
    rewrite Hnil in Hlen. unfold Main.feature_rows in Hlen.
    rewrite length_map in Hlen. destruct features; [contradiction|discriminate]. }
  destruct (predict_scores_range anomaly_model _ m Hm Hraw)
    as (scores & Hp & Hl & Hrange & Hone).
  exists (Main.mkAnomalyResponse scores (Main.flag_loop 0 scores) "IsolationForest").
  split; [|split; [|split]].
  - unfold Main.detect_anomalies. rewrite Hreq.
    destruct features as [|f fs]; [contradiction|].
    rewrite Hp. reflexivity.
  - cbn. rewrite Hl, Hlen. unfold Main.feature_rows. apply length_map.
  - exact Hrange.
  - cbn. apply flag_loop_nonempty.
    apply Exists_exists. apply Exists_exists in Hone.
    destruct Hone as (s & Hin & Hs). exists s. split; [exact Hin | qlra].
Qed.

(** A contributor without the [contributions] key, on a fresh wrapper. *)
Lemma detect_anomalies_answers_witness :
  exists response,
    Main.detect_anomalies Probe.anomaly_model
      (Main.mkAnomalyRequest
         (Some [Main.mkContributorDict (Some 50) None (Some (1 # 10));
                Main.mkContributorDict (Some 5) (Some 200) None]))
    = (Main.Response response, Anomaly.ensure_trained Probe.anomaly_model) /\
    List.length (Main.anomaly_scores response) = 2%nat /\
    Forall (fun s => 0 < s /\ s <= 1) (Main.anomaly_scores response) /\
    Main.flagged_contributors response <> [].
Proof.
  refine (detect_anomalies_answers (J := Probe.joblib) (C := Probe.forest)
            Probe.anomaly_model
            (Main.mkAnomalyRequest
               (Some [Main.mkContributorDict (Some 50) None (Some (1 # 10));
                      Main.mkContributorDict (Some 5) (Some 200) None]))
            _ _ _ eq_refl _).
  - intros m rows. apply length_map.
  - apply Anomaly.reach_init.
  - discriminate.
Defined.

(** ** Churn scores *)

Lemma clip_unit (x : Q) :
  let s := py_min (py_max x 0) 1 in
  0 <= s /\ s <= 1 /\
  (0 <= x -> x <= 1 -> s = x) /\ (x < 0 -> s = 0) /\ (1 < x -> s = 1).
Proof.
  cbv zeta. unfold py_max.
  case_cmp (Qltb x 0); unfold py_min.
  - case_cmp (Qltb 1 0); [discriminate E0|].
    repeat split; try qlra; intros; try reflexivity; exfalso; qlra.
  - case_cmp (Qltb 1 x);
      repeat split; try qlra; intros; try reflexivity; exfalso; qlra.
Qed.

(** The scores of [predict] on a batch of four columns against the
    estimator's predictions. *)
Lemma predict_clipped
    {E : Type} {J : Joblib E} {C : Churn.Regressor E}
    (w : world (Churn.ChurnModel E)) (rows : list (list Q)) (m : E) :
  Churn.model (self (Churn.ensure_trained w)) = Some m ->
  exists scores,
    Churn.predict w (Array2 4 rows) = (Ok scores, Churn.ensure_trained w) /\
    Forall2 (fun raw s =>
               0 <= s /\ s <= 1 /\
               (0 <= raw -> raw <= 1 -> s = raw) /\
               (raw < 0 -> s = 0) /\ (1 < raw -> s = 1))
            (Churn.model_predict m rows) scores.
Proof.
  intro Hm. exists (np_clip (Churn.model_predict m rows) 0 1). split.
  - unfold Churn.predict, Churn.the_model. cbn [shape1 bind Nat.eqb negb].
    rewrite Hm. reflexivity.
  - unfold np_clip.
    induction (Churn.model_predict m rows) as [|x l IH]; simpl; constructor.
    + apply clip_unit.
    + exact IH.
Qed.


(** X7. On a batch of four columns [ChurnModel.predict] returns the
    estimator's predictions clipped to [0, 1]: one score per prediction,
    every score between 0 and 1, a prediction already in [0, 1] unchanged,
    a negative one turned into 0 and one above 1 into 1. *)
Theorem churn_scores_clipped
    {E : Type} {J : Joblib E} {C : Churn.Regressor E}
    (w : world (Churn.ChurnModel E)) (rows : list (list Q)) (m : E) :
  Churn.model (self (Churn.ensure_trained w)) = Some m ->
  exists scores,
    Churn.predict w (Array2 4 rows) = (Ok scores, Churn.ensure_trained w) /\
    Forall2 (fun raw s =>
               0 <= s /\ s <= 1 /\
               (0 <= raw -> raw <= 1 -> s = raw) /\
               (raw < 0 -> s = 0) /\ (1 < raw -> s = 1))
            (Churn.model_predict m rows) scores.
Proof.
  intro Hm.
  destruct (predict_clipped w rows m Hm) as (scores & Hp & Hclip).
  exists scores. split; [exact Hp | exact Hclip].
Qed.

(** The stub regressor predicts 0.5 for the one file. *)
Lemma churn_scores_clipped_witness :
  exists scores,
    Churn.predict Stub.churn_model (Array2 4 [[120; 30; 4; 10]])
      = (Ok scores, Churn.ensure_trained Stub.churn_model) /\
    Forall2 (fun raw s =>
               0 <= s /\ s <= 1 /\
               (0 <= raw -> raw <= 1 -> s = raw) /\
               (raw < 0 -> s = 0) /\ (1 < raw -> s = 1))
            [1 # 2] scores.
Proof.
  exact (churn_scores_clipped (J := Stub.joblib) (C := Stub.regressor)
           Stub.churn_model [[120; 30; 4; 10]] tt eq_refl).
Defined.

(** X8. On a wrapper in a reachable state, with a regressor that returns
    one prediction per row, [predict_churn] always answers: the churn
    probability is the clipped prediction, between 0 and 1, the level is
    the one of that probability and the model is named
    "RandomForestRegressor"; the arity check of the wrapper cannot fail. *)
Theorem predict_churn_answers
    {E : Type} {J : Joblib E} {C : Churn.Regressor E}
    (churn_model : world (Churn.ChurnModel E)) (features : Main.FileFeatures) :
  (forall m rows, List.length (Churn.model_predict m rows) = List.length rows) ->
  Churn.reachable churn_model ->
  exists response,
    Main.predict_churn churn_model features
      = (Main.Response response, Churn.ensure_trained churn_model) /\
    0 <= Main.churn_probability response /\
    Main.churn_probability response <= 1 /\
    Main.churn_level response
      = Main.churn_level_of (Main.churn_probability response) /\
    Main.churn_model_used response = "RandomForestRegressor"%string.
Proof.
  intros Hlen Hreach.
  destruct (churn_guard_ready churn_model Hreach) as (m & Hm).
  set (rows := [[Main.additions features; Main.deletions features;
                 Main.modifications features; Main.churn_history features]]).
  destruct (predict_clipped churn_model rows m Hm) as (scores & Hp & Hclip).
  specialize (Hlen m rows).
  destruct (Churn.model_predict m rows) as [|raw l]; [discriminate Hlen|].
  inversion Hclip as [|? s ? scores' (H0 & H1 & _) _]; subst.
  exists (Main.mkChurnPredictionResponse s (Main.churn_level_of s)
            "RandomForestRegressor").
  split; [|cbn; auto].
  unfold Main.predict_churn. fold rows. rewrite Hp. reflexivity.
Qed.

(** A file with 120 additions, on a fresh wrapper. *)
Lemma predict_churn_answers_witness :
  exists response,
    Main.predict_churn Stub.churn_model (Main.mkFileFeatures 120 30 4 10)
      = (Main.Response response, Churn.ensure_trained Stub.churn_model) /\
    0 <= Main.churn_probability response /\
    Main.churn_probability response <= 1 /\
    Main.churn_level response
      = Main.churn_level_of (Main.churn_probability response) /\
    Main.churn_model_used response = "RandomForestRegressor"%string.
Proof.
  refine (predict_churn_answers (J := Stub.joblib) (C := Stub.regressor)
            Stub.churn_model (Main.mkFileFeatures 120 30 4 10) _ _).
  - intros m rows. apply length_map.
  - apply Churn.reach_init.
Defined.

(** ** Batch methods *)

(** X9. The batch methods agree with [predict]: for the churn wrapper on
    every batch of four columns, for the anomaly wrapper on every input,
    for the risk wrapper on every batch of eight columns when the
    classifier knows two classes. *)
Theorem predict_batch_agrees
    {Er : Type} {Jr : Joblib Er} {Cr : Risk.Classifier Er}
    {Ec : Type} {Jc : Joblib Ec} {Cc : Churn.Regressor Ec}
    {Ea : Type} {Ja : Joblib Ea} {Ca : Anomaly.Forest Ea} :
  (forall (w : world (Risk.RiskModel Er)) (rows : list (list Q)) (m : Er),
     Risk.model (self (Risk.ensure_trained w)) = Some m ->
     fst (Risk.predict_proba m rows) = 2%nat ->
     Risk.predict_batch w (Array2 8 rows) = Risk.predict w (Array2 8 rows)) /\
  (forall (w : world (Churn.ChurnModel Ec)) (rows : list (list Q)),
     Churn.predict_batch w (Array2 4 rows) = Churn.predict w (Array2 4 rows)) /\
  (forall (w : world (Anomaly.AnomalyModel Ea)) (features : ndarray),
     Anomaly.predict_batch w features = Anomaly.predict w features).
Proof.
  split; [|split].
  - intros w rows m Hm H2.
    unfold Risk.predict_batch, Risk.predict, Risk.the_model.
    cbn [shape1 bind Nat.eqb negb Risk.rows_of].
    rewrite Hm. cbn [bind]. rewrite H2. reflexivity.
  - intros w rows. reflexivity.
  - intros w features. unfold Anomaly.predict_batch, Anomaly.predict.
    rewrite (proj2 anomaly_ensure_trained_idempotent). reflexivity.
Qed.

(** The stub classifier knows two classes. *)
Lemma predict_batch_agrees_witness :
  Risk.predict_batch Stub.risk_model (Array2 8 [[1; 2; 3; 4; 5; 6; 7; 8]])
  = Risk.predict Stub.risk_model (Array2 8 [[1; 2; 3; 4; 5; 6; 7; 8]]).
Proof.
  exact (proj1 (predict_batch_agrees
                  (Jr := Stub.joblib) (Cr := Stub.classifier)
                  (Jc := Stub.joblib) (Cc := Stub.regressor)
                  (Ja := Stub.joblib) (Ca := Stub.forest))
               Stub.risk_model [[1; 2; 3; 4; 5; 6; 7; 8]] tt eq_refl eq_refl).
Defined.

(** ** Errors and size of the explanation *)

Section Explanation.

Import Risk.

Lemma feature_name_described (i : nat) :
  (i < 8)%nat ->
  exists name d, nth_error FEATURE_NAMES i = Some name /\
                 dict_get FEATURE_DESCRIPTIONS name = Ok d.
Proof.
  intro Hi.
  do 8 (destruct i as [|i]; [eexists; eexists; split; reflexivity|]).
  lia.
Qed.

Lemma impacts_loop_ok (importances : list Q) :
  forall (i : nat) (values : list Q),
    (i + Nat.min (List.length importances) (List.length values) <= 8)%nat ->
    exists impacts,
      impacts_loop i importances values = Ok impacts /\
      List.length impacts
        = Nat.min (List.length importances) (List.length values).
Proof.
  induction importances as [|imp imps IH]; intros i values Hle.
  - exists []. split; reflexivity.
  - destruct values as [|v vals].
    + exists []. split; reflexivity.
    + cbn [List.length Nat.min] in Hle.
      destruct (feature_name_described i) as (name & d & Hn & Hd); [lia|].
      destruct (IH (S i) vals) as (rest & Hrest & Hlen); [lia|].
      eexists. cbn [impacts_loop]. rewrite Hn, Hd. cbn [bind].
      rewrite Hrest. cbn [bind]. split; [reflexivity|].
      cbn [List.length Nat.min]. rewrite Hlen. reflexivity.
Qed.

Lemma impacts_loop_overflow (importances : list Q) :
  forall (i : nat) (values : list Q),
    (i <= 8)%nat ->
    (8 < i + Nat.min (List.length importances) (List.length values))%nat ->
    impacts_loop i importances values
    = Raise (IndexError "list index out of range").
Proof.
  induction importances as [|imp imps IH]; intros i values Hi Hgt.
  - cbn in Hgt. lia.
  - destruct values as [|v vals]; [cbn in Hgt; lia|].
    cbn [List.length Nat.min] in Hgt. cbn [impacts_loop].
    destruct (Nat.eq_dec i 8) as [->|Hne]; [reflexivity|].
    destruct (feature_name_described i) as (name & d & Hn & Hd); [lia|].
    rewrite Hn, Hd. cbn [bind].
    rewrite (IH (S i) vals); [reflexivity | lia | lia].
Qed.

Lemma normalize_length (l : list impact) :
  List.length (normalize l) = List.length l.
Proof.
  unfold normalize. destruct (Qgtb (py_sum (map impact_weight l)) 0);
    [apply length_map | reflexivity].
Qed.

Lemma sort_desc_length (l : list impact) :
  List.length (sort_desc l) = List.length l.
Proof. apply Permutation_length, sort_desc_perm. Qed.

End Explanation.

(** X10. When [get_feature_importance] raises and how much it returns.
    With the wrapper's importances and the first row of the input at hand,
    it returns min(3, n) entries, [n] being the number of
    (importance, value) pairs, as long as [n] is at most the 8 feature
    names; beyond 8 pairs it raises the [IndexError] of [FEATURE_NAMES[i]],
    and on a 2-D input without rows the one of [features[0]]. *)
Theorem get_feature_importance_size
    {E : Type} {J : Joblib E} {C : Risk.Classifier E}
    (w : world (Risk.RiskModel E)) (features : ndarray)
    (importances values : list Q) :
  Risk.feature_importances_ (self (Risk.ensure_trained w)) = Some importances ->
  Risk.feature_values features = Ok values ->
  let n := Nat.min (List.length importances) (List.length values) in
  ((n <= 8)%nat ->
   exists top,
     Risk.get_feature_importance w features
       = (Ok top, Risk.ensure_trained w) /\
     List.length top = Nat.min 3 n) /\
  ((8 < n)%nat ->
   Risk.get_feature_importance w features
   = (Raise (IndexError "list index out of range"), Risk.ensure_trained w)) /\
  (forall ncols,
     Risk.get_feature_importance w (Array2 ncols [])
     = (Raise (IndexError "index 0 is out of bounds for axis 0 with size 0"),
        Risk.ensure_trained w)).
Proof.
  intros Hfi Hv n. split; [|split].
  - intro Hn.
    destruct (impacts_loop_ok importances 0 values Hn) as (impacts & Hl & Hlen).
    exists (firstn 3 (Risk.normalize (Risk.sort_desc impacts))). split.
    + unfold Risk.get_feature_importance. rewrite Hv. cbn [bind].
      rewrite Hfi, Hl. reflexivity.
    + rewrite length_firstn, normalize_length, sort_desc_length, Hlen.
      reflexivity.
  - intro Hn. unfold Risk.get_feature_importance. rewrite Hv. cbn [bind].
    rewrite Hfi, (impacts_loop_overflow importances 0 values); [reflexivity|lia|].
    exact Hn.
  - intro ncols. reflexivity.
Qed.

(** Eight pairs give three entries, nine pairs the [IndexError]. *)
Lemma get_feature_importance_size_witness :
  (exists top,
     Risk.get_feature_importance Stub.risk_model
       (Array2 8 [[10; 20; 10; 10; 0; 0; 0; 0]])
     = (Ok top, Risk.ensure_trained Stub.risk_model) /\
     List.length top = 3%nat) /\
  Risk.get_feature_importance
    (mkWorld (Risk.mkRiskModel (Some tt) true
                (Some [1 # 9; 1 # 9; 1 # 9; 1 # 9; 1 # 9; 1 # 9; 1 # 9; 1 # 9; 1 # 9]))
             None 0 0)
    (Array1 [1; 2; 3; 4; 5; 6; 7; 8; 9])
  = (Raise (IndexError "list index out of range"),
     mkWorld (Risk.mkRiskModel (Some tt) true
                (Some [1 # 9; 1 # 9; 1 # 9; 1 # 9; 1 # 9; 1 # 9; 1 # 9; 1 # 9; 1 # 9]))
             None 0 0).
Proof.
  split.
  - exact (proj1 (get_feature_importance_size
                    (J := Stub.joblib) (C := Stub.classifier)
                    Stub.risk_model (Array2 8 [[10; 20; 10; 10; 0; 0; 0; 0]])
                    [1 # 4; 1 # 4; 1 # 4; 1 # 4; 0; 0; 0; 0]
                    [10; 20; 10; 10; 0; 0; 0; 0] eq_refl eq_refl)
                 ltac:(cbn; lia)).
  - refine (proj1 (proj2 (get_feature_importance_size
                     (J := Stub.joblib) (C := Stub.classifier)
                     (mkWorld (Risk.mkRiskModel (Some tt) true
                        (Some [1 # 9; 1 # 9; 1 # 9; 1 # 9; 1 # 9; 1 # 9;
                               1 # 9; 1 # 9; 1 # 9])) None 0 0)
                     (Array1 [1; 2; 3; 4; 5; 6; 7; 8; 9])
                     [1 # 9; 1 # 9; 1 # 9; 1 # 9; 1 # 9; 1 # 9; 1 # 9; 1 # 9; 1 # 9]
                     [1; 2; 3; 4; 5; 6; 7; 8; 9] eq_refl eq_refl)) _).
    cbn. lia.
Defined.

(** ** Bounds on the returned weights *)

Lemma round_half_even_upper (y : Q) :
  inject_Z (round_half_even y) <= y + (1 # 2).
Proof.
  unfold round_half_even.
  pose proof (Qfloor_le y) as H1.
  remember (Qfloor y) as f eqn:Hf. clear Hf.
  case_cmp (Qltb (y - inject_Z f) (1 # 2));
    [|case_cmp (Qltb (1 # 2) (y - inject_Z f)); [|destruct (Z.even f)]];
    try rewrite inject_Z_plus; try qlra.
  - assert (inject_Z 1 == 1) by reflexivity. qlra.
  - assert (inject_Z 1 == 1) by reflexivity. qlra.
Qed.

Lemma py_round2_upper (x : Q) : py_round2 x <= x + (1 # 200).
Proof.
  unfold py_round2. pose proof (round_half_even_upper (x * 100)) as H.
  apply Qle_shift_div_r; [reflexivity | qlra].
Qed.

Lemma py_round2_unit (x : Q) : 0 <= x -> x <= 1 -> 0 <= py_round2 x /\ py_round2 x <= 1.
Proof.
  intros H0 H1. split.
  - apply Qle_trans with (py_round2 0); [discriminate | apply py_round2_mono, H0].
  - apply Qle_trans with (py_round2 1); [apply py_round2_mono, H1 | discriminate].
Qed.

Lemma py_sum_nonneg (l : list Q) : Forall (fun x => 0 <= x) l -> 0 <= py_sum l.
Proof.
  induction 1 as [|x l Hx _ IH].
  - discriminate.
  - rewrite py_sum_cons. qlra.
Qed.

Lemma py_sum_ge_member (l : list Q) (x : Q) :
  Forall (fun y => 0 <= y) l -> In x l -> x <= py_sum l.
Proof.
  induction 1 as [|y l Hy Hall IH]; intro Hin; [contradiction|].
  rewrite py_sum_cons. pose proof (py_sum_nonneg l Hall).
  destruct Hin as [->|Hin]; [qlra|]. specialize (IH Hin). qlra.
Qed.

(** The sum of at most three leading terms [f], each at most [g + c], [g]
    non-negative, against the whole sum of [g]. *)
Lemma py_sum_firstn3 (f g : Risk.impact -> Q) (c : Q) (l : list Risk.impact) :
  0 <= c ->
  Forall (fun x => 0 <= g x /\ f x <= g x + c) l ->
  py_sum (map f (firstn 3 l)) <= py_sum (map g l) + 3 * c.
Proof.
  intros Hc Hall.
  assert (Hnn : forall l', Forall (fun x => 0 <= g x /\ f x <= g x + c) l' ->
                           0 <= py_sum (map g l')).
  { intros l' H'. apply py_sum_nonneg. rewrite Forall_map.
    apply Forall_impl with (2 := H'). intros a [Ha _]. exact Ha. }
  destruct l as [|a [|b [|d rest]]]; cbn [firstn map].
  - unfold py_sum; simpl. qlra.
  - inversion Hall as [|? ? [Ha1 Ha2] _]; subst.
    rewrite !py_sum_cons. unfold py_sum; simpl. qlra.
  - inversion Hall as [|? ? [Ha1 Ha2] Hall1]; subst.
    inversion Hall1 as [|? ? [Hb1 Hb2] _]; subst.
    rewrite !py_sum_cons. unfold py_sum; simpl. qlra.
  - inversion Hall as [|? ? [Ha1 Ha2] Hall1]; subst.
    inversion Hall1 as [|? ? [Hb1 Hb2] Hall2]; subst.
    inversion Hall2 as [|? ? [Hd1 Hd2] Hall3]; subst.
    specialize (Hnn rest Hall3).
    rewrite !py_sum_cons.
    assert (Hnil : py_sum (map f []) == 0) by reflexivity.
    change (firstn 0 rest) with (@nil Risk.impact).
    rewrite Hnil. qlra.
Qed.

Section Weights.

Import Risk.

Lemma impacts_loop_nonneg (importances : list Q) :
  forall (i : nat) (values : list Q) (impacts : list impact),
    impacts_loop i importances values = Ok impacts ->
    Forall (fun x => 0 <= x) importances ->
    Forall (fun x => 0 <= x) values ->
    Forall (fun item => 0 <= impact_weight item) impacts.
Proof.
  induction importances as [|imp imps IH]; intros i values impacts H Hi Hv.
  - simpl in H. injection H as <-. constructor.
  - destruct values as [|v vals]; cbn [impacts_loop] in H.
    + injection H as <-. constructor.
    + destruct (nth_error FEATURE_NAMES i) as [name|]; [|discriminate].
      destruct (dict_get FEATURE_DESCRIPTIONS name) as [d|e];
        cbn [bind] in H; [|discriminate].
      destruct (impacts_loop (S i) imps vals) as [rest|e] eqn:Hrest;
        cbn [bind] in H; [|discriminate].
      injection H as <-.
      inversion Hi as [|? ? Himp Himps]; subst.
      inversion Hv as [|? ? Hval Hvals]; subst.
      constructor; [|exact (IH _ _ _ Hrest Himps Hvals)].
      cbn. apply Qmult_le_0_compat; [exact Himp|].
      unfold py_min. case_cmp (Qltb 1 (v / 10)); [discriminate|].
      apply Qle_shift_div_l; [reflexivity | qlra].
Qed.

End Weights.

(** X11. With non-negative importances and feature values, every impact
    weight that [get_feature_importance] returns lies in [0, 1], and the
    returned weights sum to at most 1.015: the three leading shares of a
    total of 1, each rounded up by at most 0.005. *)
Theorem get_feature_importance_weights_bounded
    {E : Type} {J : Joblib E} {C : Risk.Classifier E}
    (w w' : world (Risk.RiskModel E)) (features : ndarray)
    (top : list Risk.impact) (importances values : list Q) :
  Risk.get_feature_importance w features = (Ok top, w') ->
  Risk.feature_importances_ (self w') = Some importances ->
  Risk.feature_values features = Ok values ->
  Forall (fun x => 0 <= x) importances ->
  Forall (fun x => 0 <= x) values ->
  Forall (fun item => 0 <= Risk.impact_weight item /\
                      Risk.impact_weight item <= 1) top /\
  py_sum (map Risk.impact_weight top) <= 1 + (3 # 200).
Proof.
  unfold Risk.get_feature_importance. intros H Hfi Hv Hi Hvals.
  injection H as Hres Hw. subst w'. rewrite Hv in Hres. cbn [bind] in Hres.
  rewrite Hfi in Hres.
  destruct (Risk.impacts_loop 0 importances values) as [impacts|e] eqn:Hloop;
    cbn [bind] in Hres; [|discriminate].
  injection Hres as Hres.
  change (firstn 3 (Risk.normalize (Risk.sort_desc impacts)) = top) in Hres.
  subst top.
  pose proof (impacts_loop_nonneg _ _ _ _ Hloop Hi Hvals) as Hnn0.
  assert (Hnn : Forall (fun x => 0 <= x)
                       (map Risk.impact_weight (Risk.sort_desc impacts))).
  { rewrite Forall_map.
    apply Permutation_Forall with impacts;
      [apply Permutation_sym, sort_desc_perm | exact Hnn0]. }
  set (ranked := Risk.sort_desc impacts) in *.
  assert (Hmem : forall item, In item ranked ->
                   0 <= Risk.impact_weight item /\
                   Risk.impact_weight item
                     <= py_sum (map Risk.impact_weight ranked)).
  { intros item Hin. split.
    - rewrite Forall_map in Hnn.
      exact (proj1 (Forall_forall _ _) Hnn item Hin).
    - apply py_sum_ge_member; [exact Hnn|]. apply in_map, Hin. }
  unfold Risk.normalize.
  case_cmp (Qgtb (py_sum (map Risk.impact_weight ranked)) 0).
  - set (total := py_sum (map Risk.impact_weight ranked)) in *.
    split.
    + apply Forall_firstn_of. rewrite Forall_map. apply Forall_forall.
      intros item Hin. cbn. destruct (Hmem item Hin) as [H0 H1].
      apply py_round2_unit.
      * apply Qle_shift_div_l; [exact E0 | qlra].
      * apply Qle_shift_div_r; [exact E0 | qlra].
    + rewrite firstn_map, map_map. cbn [Risk.impact_weight Risk.set_impact_weight].
      apply Qle_trans with
        (py_sum (map (fun item => Risk.impact_weight item / total) ranked)
         + 3 * (1 # 200)).
      * apply (py_sum_firstn3
                 (fun item => py_round2 (Risk.impact_weight item / total))
                 (fun item => Risk.impact_weight item / total)); [discriminate|].
        apply Forall_forall. intros item Hin. destruct (Hmem item Hin) as [H0 _].
        split; [|apply py_round2_upper].
        apply Qle_shift_div_l; [exact E0 | qlra].
      * rewrite py_sum_scaled. fold total.
        assert (Hone : total / total == 1).
        { unfold Qdiv. apply Qmult_inv_r. intro Hz. qlra. }
        rewrite Hone. discriminate.
  - split.
    + apply Forall_firstn_of. apply Forall_forall.
      intros item Hin. destruct (Hmem item Hin) as [H0 H1]. split; qlra.
    + apply Qle_trans with (py_sum (map Risk.impact_weight ranked) + 3 * 0).
      * apply (py_sum_firstn3 Risk.impact_weight Risk.impact_weight);
          [discriminate|].
        apply Forall_forall. intros item Hin. destruct (Hmem item Hin) as [H0 _].
        split; qlra.
      * qlra.
Qed.

(** The features of the end-to-end example under the stub importances:
    weights 0.43, 0.32, 0.26, of sum 1.01. *)
Lemma get_feature_importance_weights_bounded_witness :
  exists top,
    Risk.get_feature_importance Stub.risk_model
      (Array2 8 [[75 # 10; 15; 6; 0; 6 # 10; 4 # 10; 2 # 10; 7 # 10]])
    = (Ok top, Risk.ensure_trained Stub.risk_model) /\
    map Risk.impact_weight top = [43 # 100; 32 # 100; 26 # 100] /\
    Forall (fun item => 0 <= Risk.impact_weight item /\
                        Risk.impact_weight item <= 1) top /\
    py_sum (map Risk.impact_weight top) <= 1 + (3 # 200).
Proof.
  assert (Hg : { t | Risk.get_feature_importance Stub.risk_model
                       (Array2 8 [[75 # 10; 15; 6; 0; 6 # 10; 4 # 10; 2 # 10; 7 # 10]])
                     = (Ok t, Risk.ensure_trained Stub.risk_model) }).
  { eexists. vm_compute. reflexivity. }
  destruct Hg as [t Hg]. exists t.
  split; [exact Hg|].
  split; [vm_compute in Hg; injection Hg as <-; reflexivity|].
  refine (get_feature_importance_weights_bounded
            (J := Stub.joblib) (C := Stub.classifier)
            Stub.risk_model (Risk.ensure_trained Stub.risk_model)
            (Array2 8 [[75 # 10; 15; 6; 0; 6 # 10; 4 # 10; 2 # 10; 7 # 10]])
            t [1 # 4; 1 # 4; 1 # 4; 1 # 4; 0; 0; 0; 0]
            [75 # 10; 15; 6; 0; 6 # 10; 4 # 10; 2 # 10; 7 # 10]
            Hg eq_refl eq_refl _ _);
    repeat constructor; discriminate.
Defined.

(** ** Ties in the ranking *)

Lemma insert_desc_filter (q : Q) (x : Risk.impact) (l : list Risk.impact) :
  filter (fun item => Qeq_bool (Risk.impact_weight item) q) (Risk.insert_desc x l)
  = filter (fun item => Qeq_bool (Risk.impact_weight item) q) (x :: l).
Proof.
  induction l as [|y ys IH]; [reflexivity|].
  cbn [Risk.insert_desc].
  case_cmp (Qltb (Risk.impact_weight x) (Risk.impact_weight y)); [|reflexivity].
  cbn [filter] in *. rewrite IH.
  destruct (Qeq_bool (Risk.impact_weight x) q) eqn:Ex;
    destruct (Qeq_bool (Risk.impact_weight y) q) eqn:Ey; try reflexivity.
  apply Qeq_bool_iff in Ex. apply Qeq_bool_iff in Ey. exfalso. qlra.
Qed.

(** X12. The ranking of the impacts is a stable descending sort: it holds
    the same entries, in descending order of impact weight, and the entries
    of any one weight stand in the order of the features they came in, so
    that a tie goes to the feature named first in [FEATURE_NAMES]. *)
Theorem sort_desc_stable (impacts : list Risk.impact) :
  Permutation (Risk.sort_desc impacts) impacts /\
  StronglySorted Risk.desc (Risk.sort_desc impacts) /\
  forall q : Q,
    filter (fun item => Qeq_bool (Risk.impact_weight item) q)
           (Risk.sort_desc impacts)
    = filter (fun item => Qeq_bool (Risk.impact_weight item) q) impacts.
Proof.
  split; [apply sort_desc_perm|]. split; [apply sort_desc_sorted|].
  intro q. induction impacts as [|x l IH]; [reflexivity|].
  cbn [Risk.sort_desc fold_right]. rewrite insert_desc_filter.
  cbn [filter]. unfold Risk.sort_desc in IH. rewrite IH. reflexivity.
Qed.

(** ** The size estimate of [generate_recommendations] *)

Section Lines.

Local Open Scope R_scope.

(** [e^7 < 1502], from [e^(-x) >= 1 - x] at [x = 7 / 256]. *)
Lemma exp_7_upper : exp 7 < 1502.
Proof.
  assert (Ha : (249 / 256) ^ 256 <= exp (- 7)).
  { replace (- 7) with (INR 256 * (- 7 / 256)).
    2:{ replace (INR 256) with 256 by (simpl; ring). field. }
    rewrite exp_INR_mult. apply pow_incr. split; [rlra|].
    replace (249 / 256) with (1 + - 7 / 256) by field.
    apply exp_ineq1_le. }
  assert (Hb : 1 < 1502 * (249 / 256) ^ 256).
  { unfold Rdiv. rewrite Rpow_mult_distr, pow_inv, !pow_IZR.
    apply Rmult_lt_reg_r with (IZR (256 ^ Z.of_nat 256)).
    - apply IZR_lt. vm_compute. reflexivity.
    - rewrite Rmult_1_l, !Rmult_assoc, Rinv_l, Rmult_1_r.
      + rewrite <- mult_IZR. apply IZR_lt. vm_compute. reflexivity.
      + apply not_0_IZR. vm_compute. discriminate. }
  assert (Hc : exp 7 * exp (- 7) = 1).
  { rewrite <- exp_plus. replace (7 + - 7) with 0 by ring. apply exp_0. }
  pose proof (exp_pos 7) as Hp.
  assert (Hd : exp 7 * (249 / 256) ^ 256 <= 1).
  { rewrite <- Hc. apply Rmult_le_compat_l; [rlra | exact Ha]. }
  assert (He : 0 < (249 / 256) ^ 256) by (apply pow_lt; rlra).
  apply Rmult_lt_reg_r with ((249 / 256) ^ 256); [exact He | rlra].
Qed.

End Lines.

(** X13. The approximate line count [int(np.exp(f1) - 1)] over the range
    of [f1]: from [f1 = 710] on [np.exp] overflows and [int] raises
    [OverflowError]; for [f1 <= -38] the subtraction absorbs [e^f1] and the
    count is -1; for [-37 <= f1 <= 0] it is 0 (truncation toward zero).
    The size rule [approx_lines > 1500] triggers for no [f1 <= 7] and for
    every [f1] from 7.5 to 709. *)
Theorem approx_lines_thresholds (lines_added_deleted : Q) :
  (710 <= lines_added_deleted ->
   Risk.approx_lines_of lines_added_deleted
   = Raise (OverflowError "cannot convert float infinity to integer")) /\
  (lines_added_deleted <= -38 ->
   Risk.approx_lines_of lines_added_deleted = Ok (-1)%Z) /\
  (-37 <= lines_added_deleted -> lines_added_deleted <= 0 ->
   Risk.approx_lines_of lines_added_deleted = Ok 0%Z) /\
  (lines_added_deleted <= 7 ->
   exists approx_lines,
     Risk.approx_lines_of lines_added_deleted = Ok approx_lines /\
     (-1 <= approx_lines <= 1500)%Z) /\
  (15 # 2 <= lines_added_deleted -> lines_added_deleted <= 709 ->
   exists approx_lines,
     Risk.approx_lines_of lines_added_deleted = Ok approx_lines /\
     (1500 < approx_lines)%Z).
Proof.
  pose proof (exp_pos (Q2R lines_added_deleted)) as Hpos.
  split; [apply approx_lines_of_overflow|].
  split; [apply approx_lines_of_absorbed|].
  split; [|split].
  - intros Hlo Hhi.
    rewrite approx_lines_of_exact;
      [|exact Hlo | apply Qle_trans with (1 := Hhi); discriminate].
    apply exp_Q2R_mono in Hhi. rewrite (Q2R_Z 0), exp_0 in Hhi.
    f_equal. apply py_int_small. rlra.
  - intro Hle.
    assert (H709 : lines_added_deleted <= 709)
      by (apply Qle_trans with (1 := Hle); discriminate).
    unfold Risk.approx_lines_of. rewrite (np_exp_finite _ H709).
    cbn [minus_1].
    destruct (Rle_dec (exp (Q2R lines_added_deleted)) (/ 2 ^ 54)) as [_|_].
    + eexists. split; [reflexivity|]. rewrite py_int_minus_1. lia.
    + eexists. split; [reflexivity|].
      apply exp_Q2R_mono in Hle. rewrite (Q2R_Z 7) in Hle.
      pose proof exp_7_upper as H7u.
      destruct (Rle_dec 0 (exp (Q2R lines_added_deleted) - 1)) as [Hge|Hlt].
      * destruct (py_int_nonneg _ Hge) as [H1 H2].
        assert (py_int (exp (Q2R lines_added_deleted) - 1) < 1501)%Z
          by (apply lt_IZR; rlra).
        assert (-1 < py_int (exp (Q2R lines_added_deleted) - 1))%Z
          by (apply lt_IZR; rlra).
        lia.
      * rewrite py_int_small; [lia | rlra].
  - intros Hlo Hhi.
    rewrite approx_lines_of_exact;
      [|apply Qle_trans with (2 := Hlo); discriminate | exact Hhi].
    eexists. split; [reflexivity|].
    apply exp_Q2R_mono in Hlo.
    assert (H15 : Q2R (15 # 2) = (15 / 2)%R) by (unfold Q2R; simpl; field).
    rewrite H15 in Hlo. pose proof exp_15_2_lower as Hl.
    destruct (py_int_nonneg (exp (Q2R lines_added_deleted) - 1)) as [_ H];
      [rlra|].
    apply lt_IZR. rlra.
Qed.

(** [f1 = 710], [-40], [-1], [6.9] and [8]. *)
Lemma approx_lines_thresholds_witness :
  Risk.approx_lines_of 710
  = Raise (OverflowError "cannot convert float infinity to integer") /\
  Risk.approx_lines_of (-40) = Ok (-1)%Z /\
  Risk.approx_lines_of (-1) = Ok 0%Z /\
  (exists approx_lines,
     Risk.approx_lines_of (69 # 10) = Ok approx_lines /\
     (-1 <= approx_lines <= 1500)%Z) /\
  (exists approx_lines,
     Risk.approx_lines_of 8 = Ok approx_lines /\ (1500 < approx_lines)%Z).
Proof.
  split; [|split; [|split; [|split]]].
  - apply (proj1 (approx_lines_thresholds 710)). discriminate.
  - apply (proj1 (proj2 (approx_lines_thresholds (-40)))). discriminate.
  - apply (proj1 (proj2 (proj2 (approx_lines_thresholds (-1)))));
      discriminate.
  - apply (proj1 (proj2 (proj2 (proj2 (approx_lines_thresholds (69 # 10)))))).
    discriminate.
  - apply (proj2 (proj2 (proj2 (proj2 (approx_lines_thresholds 8)))));
      discriminate.
Defined.

(** ** Which messages [generate_recommendations] gives *)

Section Messages.

Import Risk.
Local Open Scope string_scope.

Lemma In_append_if (x m : string) (c : bool) (l : list string) :
  In x (append_if c m l) <-> In x l \/ c && String.eqb x m = true.
Proof.
  rewrite andb_true_iff, String.eqb_eq.
  destruct c; simpl.
  - rewrite in_app_iff. simpl. intuition congruence.
  - intuition discriminate.
Qed.

Lemma append_if_empty (m : string) (c : bool) (l : list string) :
  Nat.eqb (List.length (append_if c m l)) 0
  = negb c && Nat.eqb (List.length l) 0.
Proof.
  destruct c; simpl; [|reflexivity].
  rewrite length_app. simpl. rewrite Nat.add_comm. reflexivity.
Qed.

Lemma append_if_length (m : string) (c : bool) (l : list string) :
  List.length (append_if c m l)
  = (List.length l + (if c then 1 else 0))%nat.
Proof.
  destruct c; simpl; [rewrite length_app; reflexivity | lia].
Qed.

Lemma no_rule_triggers_bool (features : PRFeatures) (risk_score : Q)
    (approx_lines : Z) :
  approx_lines_of (f1 features) = Ok approx_lines ->
  (no_rule_triggers features risk_score <->
   Z.ltb 1500 approx_lines
   || Qgtb (f2 features) 10
   || Qltb (f7 features) (3 # 10)
   || Qgtb (f8 features) (6 # 10)
   || Qgtb (f5 features) (5 # 10)
   || Qgtb (f6 features) (3 # 10)
   || Qgtb (f3 features) 5
   || (Qeq_bool (f4 features) 0 && Qgtb risk_score (5 # 10)) = false).
Proof.
  intro Hn. unfold no_rule_triggers.
  assert (H1 : (exists n, approx_lines_of (f1 features) = Ok n /\
                          (n <= 1500)%Z)
               <-> (approx_lines <= 1500)%Z).
  { split.
    - intros (n & Hn' & Hle). congruence.
    - intro Hle. exists approx_lines. split; assumption. }
  rewrite H1.
  rewrite !orb_false_iff, andb_false_iff.
  rewrite Z.ltb_ge, !Qgtb_le, Qltb_ge.
  assert (H4 : ~ f4 features == 0 <-> Qeq_bool (f4 features) 0 = false).
  { rewrite <- Qeq_bool_iff. destruct (Qeq_bool (f4 features) 0);
      intuition congruence. }
  rewrite H4. tauto.
Qed.

Lemma generate_recommendations_raise (features : PRFeatures) (risk_score : Q)
    (top_factors : list impact) (e : exn) :
  approx_lines_of (f1 features) = Raise e ->
  generate_recommendations features risk_score top_factors = Raise e.
Proof.
  intro He. unfold generate_recommendations. rewrite He. reflexivity.
Qed.

Lemma generate_recommendations_ok (features : PRFeatures) (risk_score : Q)
    (top_factors : list impact) (approx_lines : Z) :
  approx_lines_of (f1 features) = Ok approx_lines ->
  exists recommendations,
    generate_recommendations features risk_score top_factors
      = Ok recommendations /\
    recommendations <> []%list /\
    forall top_factors',
      generate_recommendations features risk_score top_factors'
        = Ok recommendations.
Proof.
  intro Hn. unfold generate_recommendations. rewrite Hn. cbn [bind].
  eexists. split; [reflexivity|].
  split; [apply append_if_last_nonempty | intro; reflexivity].
Qed.

End Messages.

(** X14. Which messages [generate_recommendations] gives.  When the size
    estimate raises, so does the function; otherwise it returns a list in
    which every message is there exactly when its rule triggers: each of
    the eight threshold messages iff its condition holds, the generic
    high-risk advisory iff no rule triggers and the risk score exceeds 0.7,
    the "looks good" message iff no rule triggers and the risk score is at
    most 0.7; there are at most 8 messages in all. *)
Theorem generate_recommendations_messages
    (features : Risk.PRFeatures) (risk_score : Q)
    (top_factors : list Risk.impact) :
  (forall e,
     Risk.approx_lines_of (Risk.f1 features) = Raise e ->
     Risk.generate_recommendations features risk_score top_factors = Raise e) /\
  (forall approx_lines,
     Risk.approx_lines_of (Risk.f1 features) = Ok approx_lines ->
     exists recommendations,
       Risk.generate_recommendations features risk_score top_factors
         = Ok recommendations /\
       (In "Consider splitting this PR into smaller modules to reduce review complexity."%string
           recommendations
        <-> (1500 < approx_lines)%Z) /\
       (In "This PR modifies multiple files - consider modular refactoring or breaking into smaller PRs."%string
           recommendations
        <-> 10 < Risk.f2 features) /\
       (In "Assign a senior reviewer due to low contributor experience."%string
           recommendations
        <-> Risk.f7 features < 3 # 10) /\
       (In "High file churn detected - consider refactoring before merge to reduce technical debt."%string
           recommendations
        <-> 6 # 10 < Risk.f8 features) /\
       (In "This PR has slow merge time - prioritize review or break into smaller parts."%string
           recommendations
        <-> 5 # 10 < Risk.f5 features) /\
       (In "Contributor has high rejection rate - ensure thorough testing before submission."%string
           recommendations
        <-> 3 # 10 < Risk.f6 features) /\
       (In "Multiple commits suggest iterations - consider squash merging for cleaner history."%string
           recommendations
        <-> 5 < Risk.f3 features) /\
       (In "No review comments detected - request additional review or clarification."%string
           recommendations
        <-> Risk.f4 features == 0 /\ 5 # 10 < risk_score) /\
       (In "This PR has high overall risk - consider additional testing and review cycles."%string
           recommendations
        <-> Risk.no_rule_triggers features risk_score /\ 7 # 10 < risk_score) /\
       (In "PR looks good - proceed with standard review process."%string
           recommendations
        <-> Risk.no_rule_triggers features risk_score /\ risk_score <= 7 # 10) /\
       (List.length recommendations <= 8)%nat).
Proof.
  split; [intros e He; exact (generate_recommendations_raise _ _ _ e He)|].
  intros approx_lines Hn.
  unfold Risk.generate_recommendations. rewrite Hn. cbn [bind].
  eexists. split; [reflexivity|].
  rewrite (no_rule_triggers_bool features risk_score approx_lines Hn).
  repeat match goal with
         | |- context [Risk.append_if _ ?m _] =>
             lazymatch m with
             | String _ _ => let n := fresh "m" in set (n := m)
             end
         end.
  rewrite <- Z.ltb_lt, <- (Qltb_lt (Risk.f7 features) (3 # 10)),
    <- !Qgtb_gt, <- (Qgtb_le risk_score (7 # 10)).
  assert (H8 : Risk.f4 features == 0 /\ Qgtb risk_score (5 # 10) = true <->
               Qeq_bool (Risk.f4 features) 0 && Qgtb risk_score (5 # 10) = true).
  { rewrite andb_true_iff, Qeq_bool_iff. tauto. }
  rewrite H8. clear H8.
  generalize (Z.ltb 1500 approx_lines).
  generalize (Qgtb (Risk.f2 features) 10).
  generalize (Qltb (Risk.f7 features) (3 # 10)).
  generalize (Qgtb (Risk.f8 features) (6 # 10)).
  generalize (Qgtb (Risk.f5 features) (5 # 10)).
  generalize (Qgtb (Risk.f6 features) (3 # 10)).
  generalize (Qgtb (Risk.f3 features) 5).
  generalize (Qeq_bool (Risk.f4 features) 0 && Qgtb risk_score (5 # 10)).
  generalize (Qgtb risk_score (7 # 10)).
  intros b9 b8 b7 b6 b5 b4 b3 b2 b1.
  rewrite !append_if_empty, !append_if_length, !In_append_if.
  cbn [List.length In Nat.eqb].
  repeat match goal with
         | |- context [String.eqb ?a ?b] =>
             let v := eval vm_compute in (String.eqb a b) in
             change (String.eqb a b) with v
         end.
  rewrite ?andb_true_r, ?andb_false_r.
  repeat split; intros;
    try solve [ intuition discriminate ].
  all: try (apply Nat.leb_le;
            destruct b1, b2, b3, b4, b5, b6, b7, b8, b9; reflexivity).
  all: repeat match goal with
              | H : _ \/ _ |- _ => destruct H as [H|H]
              | H : False |- _ => contradiction
              | H : false = true |- _ => discriminate H
              end.
  all: rewrite ?andb_true_iff, ?negb_true_iff, ?orb_false_iff in *.
  all: repeat match goal with
              | H : _ /\ _ |- _ => destruct H
              end; subst; simpl in *.
  all: try reflexivity.
  all: try solve [intuition (discriminate || congruence)].
  all: try (destruct b9; simpl in *;
            intuition (discriminate || congruence)).
Qed.

(** The features of the end-to-end example, risk score 0.9. *)
Lemma generate_recommendations_messages_witness :
  exists approx_lines recommendations,
    Risk.approx_lines_of (75 # 10) = Ok approx_lines /\
    Risk.generate_recommendations
      (Risk.mkPRFeatures (75 # 10) 15 6 0 (6 # 10) (4 # 10) (2 # 10) (7 # 10))
      (9 # 10) [] = Ok recommendations /\
    (In "Consider splitting this PR into smaller modules to reduce review complexity."%string
        recommendations
     <-> (1500 < approx_lines)%Z) /\
    (List.length recommendations <= 8)%nat.
Proof.
  destruct approx_lines_of_7_5 as (n & Hn & _).
  destruct (proj2 (generate_recommendations_messages
                     (Risk.mkPRFeatures (75 # 10) 15 6 0 (6 # 10) (4 # 10)
                        (2 # 10) (7 # 10)) (9 # 10) []) n Hn)
    as (recs & Hrecs & Hsplit & Hrest).
  exists n, recs. split; [exact Hn|]. split; [exact Hrecs|].
  split; [exact Hsplit|].
  decompose [and] Hrest. assumption.
Defined.

(** ** [predict_risk] *)

Lemma StronglySorted_map {A B : Type} (R : A -> A -> Prop) (R' : B -> B -> Prop)
    (f : A -> B) (l : list A) :
  (forall a b, R a b -> R' (f a) (f b)) ->
  StronglySorted R l -> StronglySorted R' (map f l).
Proof.
  intros Hf. induction 1 as [|x l Hs IH Hall]; simpl; constructor.
  - exact IH.
  - rewrite Forall_map. apply Forall_impl with (2 := Hall).
    intros a Ha. apply Hf, Ha.
Qed.

(** X15. On a wrapper in a reachable state, with a classifier that returns
    one row of probabilities per input row, [predict_risk] answers every
    request whose [f1] the double exponential takes ([f1 <= 709]): the
    risk level is the one of the returned score, the confidence is 0.85,
    there are at most 3 top factors, in descending order of impact weight,
    and at least one recommendation, the ones that
    [generate_recommendations] gives for the request and the score.  From
    [f1 = 710] on, the [OverflowError] of [generate_recommendations] makes
    it answer with the HTTP error 500. *)
Theorem predict_risk_answers
    {E : Type} {J : Joblib E} {C : Risk.Classifier E}
    (risk_model : world (Risk.RiskModel E)) (features : Risk.PRFeatures) :
  (forall m rows, List.length (snd (Risk.predict_proba m rows))
                  = List.length rows) ->
  Risk.reachable risk_model ->
  (Risk.f1 features <= 709 ->
   exists response,
     Main.predict_risk risk_model features
       = (Main.Response response, Risk.ensure_trained risk_model) /\
     Main.risk_level response = Risk.get_risk_level (Main.risk_score response) /\
     Main.confidence response = 85 # 100 /\
     Main.risk_model_used response = "RandomForestClassifier"%string /\
     (List.length (Main.top_factors response) <= 3)%nat /\
     StronglySorted
       (fun a b => Main.factor_impact_weight b <= Main.factor_impact_weight a)
       (Main.top_factors response) /\
     Main.recommendations response <> [] /\
     forall top_factors,
       Risk.generate_recommendations features (Main.risk_score response)
         top_factors
       = Ok (Main.recommendations response)) /\
  (710 <= Risk.f1 features ->
   Main.predict_risk risk_model features
   = (Main.HTTPException 500 "cannot convert float infinity to integer",
      Risk.ensure_trained risk_model)).
Proof.
  intros Hrows Hreach.
  destruct (risk_guard_ready risk_model Hreach) as (m & Hm & Hfi).
  set (row := [Risk.f1 features; Risk.f2 features; Risk.f3 features;
               Risk.f4 features; Risk.f5 features; Risk.f6 features;
               Risk.f7 features; Risk.f8 features]).
  pose proof (risk_predict_scores risk_model [row] m Hm) as Hp.
  assert (Hs : exists s rest,
             map (fun r => nth (if Nat.eqb (fst (Risk.predict_proba m [row])) 2
                                then 1 else 0)%nat r 0)
                 (snd (Risk.predict_proba m [row])) = s :: rest).
  { specialize (Hrows m [row]).
    destruct (snd (Risk.predict_proba m [row])) as [|r rs]; [discriminate Hrows|].
    simpl. eexists. eexists. reflexivity. }
  destruct Hs as (s & rest & Hs). rewrite Hs in Hp.
  destruct (Risk.feature_importances_ (self (Risk.ensure_trained risk_model)))
    as [importances|] eqn:Hfi'; [|discriminate Hfi].
  destruct (impacts_loop_ok importances 0 row) as (impacts & Hl & _).
  { cbn [List.length row]. simpl. lia. }
  set (top := firstn 3 (Risk.normalize (Risk.sort_desc impacts))).
  assert (Hg : Risk.get_feature_importance (Risk.ensure_trained risk_model)
                 (Array2 8 [row])
               = (Ok top, Risk.ensure_trained risk_model)).
  { unfold Risk.get_feature_importance.
    rewrite (proj2 risk_ensure_trained_idempotent).
    cbn [Risk.feature_values bind]. rewrite Hfi', Hl. reflexivity. }
  split.
  - intro Hf1.
    destruct (approx_lines_of_defined (Risk.f1 features) Hf1) as (n & Hn).
    destruct (generate_recommendations_ok features s top n Hn)
      as (recs & Hrecs & Hne & Hany).
    eexists. split.
    + unfold Main.predict_risk. fold row. rewrite Hp.
      cbn [bind Main.item0]. rewrite Hg. cbn [bind].
      rewrite Hrecs. cbn [bind Main.guarded]. reflexivity.
    + cbn [Main.risk_level Main.risk_score Main.confidence Main.risk_model_used
           Main.top_factors Main.recommendations].
      split; [reflexivity|]. split; [reflexivity|]. split; [reflexivity|].
      split; [rewrite length_map; apply firstn_length_le3|].
      split.
      * apply (StronglySorted_map Risk.desc).
        -- intros a b Hab. exact Hab.
        -- apply firstn_sorted, normalize_sorted, sort_desc_sorted.
      * split; [exact Hne | exact Hany].
  - intro Hf1.
    pose proof (generate_recommendations_raise features s top _
                  (approx_lines_of_overflow (Risk.f1 features) Hf1)) as Hraise.
    unfold Main.predict_risk. fold row. rewrite Hp.
    cbn [bind Main.item0]. rewrite Hg. cbn [bind].
    rewrite Hraise. reflexivity.
Qed.

(** The end-to-end request on a fresh stub wrapper, and the same request
    with [f1 = 710]. *)
Lemma predict_risk_answers_witness :
  (exists response,
     Main.predict_risk Stub.risk_model
       (Risk.mkPRFeatures (75 # 10) 15 6 0 (6 # 10) (4 # 10) (2 # 10) (7 # 10))
       = (Main.Response response, Risk.ensure_trained Stub.risk_model) /\
     (List.length (Main.top_factors response) <= 3)%nat /\
     Main.recommendations response <> []) /\
  Main.predict_risk Stub.risk_model
    (Risk.mkPRFeatures 710 15 6 0 (6 # 10) (4 # 10) (2 # 10) (7 # 10))
  = (Main.HTTPException 500 "cannot convert float infinity to integer",
     Risk.ensure_trained Stub.risk_model).
Proof.
  assert (Hrows : forall (m : unit) rows,
             List.length (snd (Risk.predict_proba m rows)) = List.length rows)
    by (intros m rows; apply length_map).
  assert (Hreach : Risk.reachable Stub.risk_model) by apply Risk.reach_init.
  split.
  - destruct (proj1 (predict_risk_answers (J := Stub.joblib) (C := Stub.classifier)
                       Stub.risk_model
                       (Risk.mkPRFeatures (75 # 10) 15 6 0 (6 # 10) (4 # 10)
                          (2 # 10) (7 # 10)) Hrows Hreach))
      as (r & Hr & _ & _ & _ & Hlen & _ & Hne & _); [discriminate|].
    exists r. split; [exact Hr|]. split; [exact Hlen | exact Hne].
  - apply (proj2 (predict_risk_answers (J := Stub.joblib) (C := Stub.classifier)
                    Stub.risk_model
                    (Risk.mkPRFeatures 710 15 6 0 (6 # 10) (4 # 10)
                       (2 # 10) (7 # 10)) Hrows Hreach)).
    discriminate.
Defined.

(** ** A classifier that knows one class *)

(** X16. [predict_batch] lacks the class-count test of [predict]: with a
    classifier that knows a single class, [predict] on a batch of eight
    columns returns the one column of probabilities, while [predict_batch]
    raises the [IndexError] of [[:, 1]]. *)
Theorem predict_batch_one_class
    {E : Type} {J : Joblib E} {C : Risk.Classifier E}
    (w : world (Risk.RiskModel E)) (rows : list (list Q)) (m : E) :
  Risk.model (self (Risk.ensure_trained w)) = Some m ->
  fst (Risk.predict_proba m rows) = 1%nat ->
  Risk.predict w (Array2 8 rows)
  = (Ok (map (fun r => nth 0 r 0) (snd (Risk.predict_proba m rows))),
     Risk.ensure_trained w) /\
  Risk.predict_batch w (Array2 8 rows)
  = (Raise (IndexError "index 1 is out of bounds for axis 1 with size 1"),
     Risk.ensure_trained w).
Proof.
  intros Hm H1. split.
  - rewrite (risk_predict_scores w rows m Hm), H1. reflexivity.
  - unfold Risk.predict_batch, Risk.the_model. rewrite Hm.
    cbn [bind Risk.rows_of]. unfold column. rewrite H1. reflexivity.
Qed.

(** The one-class classifier on one pull request. *)
Lemma predict_batch_one_class_witness :
  Risk.predict Probe.risk_model (Array2 8 [[1; 2; 3; 4; 5; 6; 7; 8]])
  = (Ok [1], Risk.ensure_trained Probe.risk_model) /\
  Risk.predict_batch Probe.risk_model (Array2 8 [[1; 2; 3; 4; 5; 6; 7; 8]])
  = (Raise (IndexError "index 1 is out of bounds for axis 1 with size 1"),
     Risk.ensure_trained Probe.risk_model).
Proof.
  exact (predict_batch_one_class (J := Probe.joblib) (C := Probe.classifier)
           Probe.risk_model [[1; 2; 3; 4; 5; 6; 7; 8]] true eq_refl eq_refl).
Defined.
